(** * FitTrack gym dashboard: list pipeline of the pages

    A shallow embedding of the client-side logic of the pages
    (Dashboard, Members, Trainers, Schedule, Payments): the filter, sort and
    lookup steps over the fetched collections, and the handlers that mirror
    REST results into the local state.

    Conventions of the embedding.
    - A JavaScript string is a [string]; each character stands for one UTF-16
      code unit of the Latin-1 range (0..255).
    - Record identifiers and counters ([id], [memberId], [capacity], ...) are
      integers ([Z]); a payment amount is a rational ([Q]).  Where the code
      divides and multiplies, a number is a rational or NaN or an infinity,
      and each operation rounds its exact result ([JS.binary64]).
    - A React state cell is a record field; a handler is a computation in the
      monad [M] below, which threads the page state, the toasts and console
      lines issued so far and the log of REST calls, and which can throw.
      The answers of the backend and of the confirm dialog are arguments of
      the handler. *)

From Stdlib Require Import ZArith QArith Qround Qabs Qpower List String Ascii Bool Lia Lqa.
From Stdlib Require Import Permutation Sorted Decimal DecimalString.
From Stdlib Require OrderedTypeEx DecimalPos.
Import ListNotations.

Local Open Scope string_scope.
Local Open Scope Z_scope.

(** ** JavaScript built-ins used by the pages *)

Module JS.

(** [String.prototype.toLowerCase], one code unit at a time: A-Z, and the
    Latin-1 capitals U+00C0..U+00DE except the multiplication sign. *)
Definition lowerUnit (c : ascii) : ascii :=
  let n := N_of_ascii c in
  if (((65 <=? n) && (n <=? 90))
      || ((192 <=? n) && (n <=? 222) && negb (n =? 215)))%N
  then ascii_of_N (n + 32)
  else c.

Fixpoint toLowerCase (s : string) : string :=
  match s with
  | EmptyString => EmptyString
  | String c s' => String (lowerUnit c) (toLowerCase s')
  end.

(** [s.includes(t)]: [t] occurs in [s] as a contiguous run. *)
Fixpoint includes (s t : string) : bool :=
  if prefix t s then true
  else match s with
       | EmptyString => false
       | String _ s' => includes s' t
       end.

(** Truthiness of a string: only the empty string is falsy. *)
Definition truthy (s : string) : bool :=
  match s with EmptyString => false | _ => true end.

(** [s.split(sep)] for a one-character separator. *)
Fixpoint split (sep : ascii) (s : string) : list string :=
  match s with
  | EmptyString => [EmptyString]
  | String c s' =>
      if Ascii.eqb c sep then EmptyString :: split sep s'
      else match split sep s' with
           | h :: t => String c h :: t
           | [] => [String c EmptyString]
           end
  end.

(** White space skipped by [parseInt] (the Latin-1 part of StrWhiteSpaceChar):
    TAB, LF, VT, FF, CR, SPACE and NBSP. *)
Definition isWhiteSpace (c : ascii) : bool :=
  let n := N_of_ascii c in
  (((9 <=? n) && (n <=? 13)) || (n =? 32) || (n =? 160))%N.

Fixpoint trimStart (s : string) : string :=
  match s with
  | String c s' => if isWhiteSpace c then trimStart s' else s
  | EmptyString => EmptyString
  end.

Definition digitValue (c : ascii) : option Z :=
  let n := N_of_ascii c in
  if ((48 <=? n) && (n <=? 57))%N then Some (Z.of_N n - 48) else None.

(** Reads the longest run of decimal digits at the front of [s], continuing
    the value [acc]; [seen] tells whether a digit was read. *)
Fixpoint readDigits (s : string) (acc : Z) (seen : bool) : option Z :=
  match s with
  | EmptyString => if seen then Some acc else None
  | String c s' =>
      match digitValue c with
      | Some d => readDigits s' (10 * acc + d) true
      | None => if seen then Some acc else None
      end
  end.

(** [parseInt(s, 10)]; [None] is NaN.  The value is the numeral read, which
    is what an engine returns for a numeral below 2^53; a longer numeral is
    rounded to a double there. *)
Definition parseInt (s : string) : option Z :=
  match trimStart s with
  | String "-" s' => option_map Z.opp (readDigits s' 0 false)
  | String "+" s' => readDigits s' 0 false
  | s' => readDigits s' 0 false
  end.

(** [Number.prototype.toString] on an integer, all digits written out (an
    engine does so below 10^21). *)
Definition intToString (z : Z) : string :=
  NilZero.string_of_int (Z.to_int z).

(** [Array.prototype.find]. *)
Definition find {A : Type} (p : A -> bool) (l : list A) : option A :=
  List.find p l.

(** [Array.prototype.slice(0, n)]. *)
Definition slice0 {A : Type} (n : nat) (l : list A) : list A :=
  firstn n l.

(** [Array.prototype.sort(cmp)]: the sort is stable (ECMAScript 2019), here
    by insertion.  The comparator returns a negative, zero or positive
    number. *)
Section Sort.
Context {A : Type} (cmp : A -> A -> Z).

Fixpoint insert (x : A) (l : list A) : list A :=
  match l with
  | [] => [x]
  | y :: l' => if cmp x y <=? 0 then x :: y :: l' else y :: insert x l'
  end.

Definition sort (l : list A) : list A := fold_right insert [] l.
End Sort.

(** Relational operators on two operands read from the same field. *)
Inductive Value : Type :=
| Num (q : Q)
| Str (s : string).

Definition lt (a b : Value) : bool :=
  match a, b with
  | Num x, Num y => match (x ?= y)%Q with Lt => true | _ => false end
  | Str x, Str y => String.ltb x y
  | _, _ => false
  end.

Definition gt (a b : Value) : bool := lt b a.

(** A number: a rational or one of the three special values.  Zero is
    unsigned. *)
Inductive Number : Type :=
| NaN
| Infinity
| NegInfinity
| Finite (q : Q).

Definition ofInt (z : Z) : Number := Finite (inject_Z z).

(** Rounding of an exact result to the machine's numbers. *)

Definition pow2 (k : Z) : Q := Qpower 2 k.

(** [floor (log2 a)] for a positive [a]. *)
Definition ilog2 (a : Q) : Z :=
  let k := Z.log2 (Qnum a) - Z.log2 (Zpos (Qden a)) in
  if Qle_bool (pow2 k) a then k else k - 1.

(** The integer nearest to [t], a tie going to the even one. *)
Definition roundHalfEven (t : Q) : Z :=
  let f := Qfloor t in
  match (t - inject_Z f ?= 1 # 2)%Q with
  | Lt => f
  | Gt => f + 1
  | Eq => if Z.even f then f else f + 1
  end.

(** The nearest number with a 53-bit significand, ties to even: the
rounding of binary64, with no bound on the exponent (no overflow, no
subnormal numbers). *)
Definition binary64 (q : Q) : Q :=
  if Qeq_bool q 0 then 0%Q
  else
    let a := Qabs q in
    let e := ilog2 a - 52 in
    let r := (inject_Z (roundHalfEven (a / pow2 e)) * pow2 e)%Q in
    if 0 <? Qnum q then r else (- r)%Q.

Section Arithmetic.
(** [fl] rounds the exact result of an operation: [binary64] in an
engine. *)
Variable fl : Q -> Q.

(** [x / y]. *)
Definition div (x y : Number) : Number :=
  match x, y with
  | NaN, _ | _, NaN => NaN
  | Finite a, Finite b =>
      if Qeq_bool b 0 then
        match (a ?= 0)%Q with
        | Eq => NaN
        | Gt => Infinity
        | Lt => NegInfinity
        end
      else Finite (fl (a / b))
  | Finite _, _ => Finite 0
  | Infinity, Finite b =>
      match (b ?= 0)%Q with Lt => NegInfinity | _ => Infinity end
  | NegInfinity, Finite b =>
      match (b ?= 0)%Q with Lt => Infinity | _ => NegInfinity end
  | _, _ => NaN
  end.

(** [x * y]. *)
Definition mul (x y : Number) : Number :=
  match x, y with
  | NaN, _ | _, NaN => NaN
  | Finite a, Finite b => Finite (fl (a * b))
  | Infinity, Finite b | Finite b, Infinity =>
      match (b ?= 0)%Q with
      | Eq => NaN
      | Gt => Infinity
      | Lt => NegInfinity
      end
  | NegInfinity, Finite b | Finite b, NegInfinity =>
      match (b ?= 0)%Q with
      | Eq => NaN
      | Gt => NegInfinity
      | Lt => Infinity
      end
  | Infinity, Infinity | NegInfinity, NegInfinity => Infinity
  | _, _ => NegInfinity
  end.
End Arithmetic.

(** [Math.round]: the integer nearest to [x], a tie going up. *)
Definition Math_round (x : Number) : Number :=
  match x with
  | Finite q => Finite (inject_Z (Qfloor (q + (1 # 2))))
  | _ => x
  end.

(** [String.prototype.trim]: white space removed at both ends. *)
Fixpoint trimEnd (s : string) : string :=
  match s with
  | EmptyString => EmptyString
  | String c s' =>
      match trimEnd s' with
      | EmptyString => if isWhiteSpace c then EmptyString else String c EmptyString
      | r => String c r
      end
  end.

Definition trim (s : string) : string := trimEnd (trimStart s).

(** [Array.prototype.filter] with a callback that reads the index. *)
Fixpoint filteriFrom {A : Type} (p : A -> Z -> bool) (i : Z) (l : list A) : list A :=
  match l with
  | [] => []
  | x :: l' => if p x i then x :: filteriFrom p (i + 1) l' else filteriFrom p (i + 1) l'
  end.

Definition filteri {A : Type} (p : A -> Z -> bool) (l : list A) : list A :=
  filteriFrom p 0 l.

(** [x > y] on numbers: false as soon as one side is NaN. *)
Definition numGt (x y : Number) : bool :=
  match x, y with
  | NaN, _ | _, NaN => false
  | Infinity, Infinity => false
  | Infinity, _ => true
  | _, Infinity => false
  | NegInfinity, _ => false
  | Finite _, NegInfinity => true
  | Finite a, Finite b => match (b ?= a)%Q with Lt => true | _ => false end
  end.

End JS.

(** ** Effects of a handler

    A handler runs against a world: the state cells of its page, the toasts
    shown and console lines written so far, and the REST calls issued so far.
    The outcome of each REST call is an input of the handler. *)

Inductive Toast : Type :=
| ToastSuccess (msg : string)
| ToastError (msg : string).

Inductive Method : Type := GET | POST | PUT | DELETE.

Record Call : Type := mkCall { method : Method; url : string }.

(** The settled promise of an [api] call. *)
Inductive Response (A : Type) : Type :=
| Resolved (data : A)
| Rejected.
Arguments Resolved {A} data.
Arguments Rejected {A}.

Record World (S : Type) : Type := mkWorld {
  page : S;
  toasts : list Toast;
  console : list string;
  calls : list Call
}.
Arguments mkWorld {S} page toasts console calls.
Arguments page {S} w.
Arguments toasts {S} w.
Arguments console {S} w.
Arguments calls {S} w.

Inductive Outcome (A : Type) : Type :=
| Returned (a : A)
| Thrown.
Arguments Returned {A} a.
Arguments Thrown {A}.

Definition M (S A : Type) : Type := World S -> Outcome A * World S.

Definition ret {S A : Type} (a : A) : M S A := fun w => (Returned a, w).

Definition bind {S A B : Type} (c : M S A) (k : A -> M S B) : M S B :=
  fun w =>
    match c w with
    | (Returned a, w') => k a w'
    | (Thrown, w') => (Thrown, w')
    end.

Declare Scope handler_scope.
Delimit Scope handler_scope with handler.
Notation "x <- c ;; k" := (bind c (fun x => k))
  (at level 61, c at next level, right associativity) : handler_scope.
Notation "c ;; k" := (bind c (fun _ => k))
  (at level 61, right associativity) : handler_scope.

(** The state cells as the running handler sees them. *)
Definition getState {S : Type} : M S S := fun w => (Returned (page w), w).

(** A state setter called with an updater function. *)
Definition setState {S : Type} (f : S -> S) : M S unit :=
  fun w => (Returned tt, mkWorld (f (page w)) (toasts w) (console w) (calls w)).

Definition toast_success {S : Type} (msg : string) : M S unit :=
  fun w => (Returned tt,
            mkWorld (page w) (toasts w ++ [ToastSuccess msg]) (console w) (calls w)).

Definition toast_error {S : Type} (msg : string) : M S unit :=
  fun w => (Returned tt,
            mkWorld (page w) (toasts w ++ [ToastError msg]) (console w) (calls w)).

Definition console_error {S : Type} (msg : string) : M S unit :=
  fun w => (Returned tt,
            mkWorld (page w) (toasts w) (console w ++ [msg]) (calls w)).

(** Issuing a REST call. *)
Definition request {S : Type} (m : Method) (u : string) : M S unit :=
  fun w => (Returned tt,
            mkWorld (page w) (toasts w) (console w) (calls w ++ [mkCall m u])).

(** Awaiting a promise: its data, or the rejection thrown. *)
Definition settle {S A : Type} (r : Response A) : M S A :=
  fun w => match r with
           | Resolved d => (Returned d, w)
           | Rejected => (Thrown, w)
           end.

(** [await api.verb(url)]. *)
Definition await {S A : Type} (m : Method) (u : string) (r : Response A) : M S A :=
  (request m u ;; settle r)%handler.

(** [try { body } catch { handler }]. *)
Definition try_catch {S A : Type} (body handler : M S A) : M S A :=
  fun w =>
    match body w with
    | (Returned a, w') => (Returned a, w')
    | (Thrown, w') => handler w'
    end.

(** [try { body } finally { fin }]. *)
Definition try_finally {S A : Type} (body : M S A) (fin : M S unit) : M S A :=
  fun w =>
    match body w with
    | (o, w') =>
        match fin w' with
        | (Returned _, w'') => (o, w'')
        | (Thrown, w'') => (Thrown, w'')
        end
    end.

(** The world a handler leaves behind. *)
Definition exec {S A : Type} (c : M S A) (w : World S) : World S := snd (c w).

(** ** Dashboard page *)

Module Dashboard.

Module StatsData.
Record t : Type := mk {
  totalMembers : Z;
  activeMembers : Z;
  totalTrainers : Z;
  totalClasses : Z;
  recentPayments : Z
}.
End StatsData.

Record Member : Type := mkMember {
  id : Z;
  name : string;
  email : string;
  membershipType : string;
  membershipStatus : string;
  joinDate : string
}.

(** The page reads a payment's [date] only. *)
Record Payment : Type := mkPayment { date : string }.

Record State : Type := mkState {
  stats : StatsData.t;
  activeMembers : list Member;
  isLoading : bool
}.

Definition initialState : State :=
  mkState (StatsData.mk 0 0 0 0 0) [] true.

Definition setStats (v : StatsData.t) : M State unit :=
  setState (fun st => mkState v (activeMembers st) (isLoading st)).
Definition setActiveMembers (v : list Member) : M State unit :=
  setState (fun st => mkState (stats st) v (isLoading st)).
Definition setIsLoading (v : bool) : M State unit :=
  setState (fun st => mkState (stats st) (activeMembers st) v).

Section Fetch.
(** Trainers and classes are only counted.  [Date_parse] is the time
    value of [new Date(s)] in milliseconds ([None] for an invalid date)
    and [now] is [Date.now()]. *)
Context {Trainer Class : Type}.
Variable Date_parse : string -> option Z.
Variable now : Z.

Definition isRecent (payment : Payment) : bool :=
  match Date_parse (date payment) with
  | Some t => now - 30 * 24 * 60 * 60 * 1000 <? t
  | None => false
  end.

Definition fetchDashboardData
    (membersRes : Response (list Member))
    (trainersRes : Response (list Trainer))
    (classesRes : Response (list Class))
    (paymentsRes : Response (list Payment)) : M State unit :=
  try_finally
    (try_catch
       (setIsLoading true ;;
        request GET "/members" ;;
        request GET "/trainers" ;;
        request GET "/classes" ;;
        request GET "/payments" ;;
        membersData <- settle membersRes ;;
        trainersData <- settle trainersRes ;;
        classesData <- settle classesRes ;;
        paymentsData <- settle paymentsRes ;;
        let activeMembers :=
          filter (fun member => String.eqb (membershipStatus member) "Active")
                 membersData in
        setStats (StatsData.mk
                    (Z.of_nat (List.length membersData))
                    (Z.of_nat (List.length activeMembers))
                    (Z.of_nat (List.length trainersData))
                    (Z.of_nat (List.length classesData))
                    (Z.of_nat (List.length (filter isRecent paymentsData)))) ;;
        setActiveMembers (JS.slice0 5 activeMembers))%handler
       (console_error "Error fetching dashboard data:"))
    (setIsLoading false).
End Fetch.

End Dashboard.

(** ** Members page *)

Module Members.

Record Member : Type := mkMember {
  id : Z;
  name : string;
  email : string;
  phone : string;
  joinDate : string;
  membershipType : string;
  membershipStatus : string;
  membershipEnd : string;
  emergencyContact : string;
  age : Z;
  gender : string;
  goals : string
}.

(** [Omit<Member, 'id'> & { id?: number }]. *)
Module MemberFormData.
Record t : Type := mk {
  id : option Z;
  name : string;
  email : string;
  phone : string;
  joinDate : string;
  membershipType : string;
  membershipStatus : string;
  membershipEnd : string;
  emergencyContact : string;
  age : Z;
  gender : string;
  goals : string
}.
End MemberFormData.

(** A member put in the form ([setMemberForm(member)]). *)
Definition toForm (m : Member) : MemberFormData.t :=
  MemberFormData.mk (Some (id m)) (name m) (email m) (phone m) (joinDate m)
    (membershipType m) (membershipStatus m) (membershipEnd m)
    (emergencyContact m) (age m) (gender m) (goals m).

(** [memberForm as Member], for a form whose [id] is [i]. *)
Definition asMember (i : Z) (f : MemberFormData.t) : Member :=
  mkMember i (MemberFormData.name f) (MemberFormData.email f)
    (MemberFormData.phone f) (MemberFormData.joinDate f)
    (MemberFormData.membershipType f) (MemberFormData.membershipStatus f)
    (MemberFormData.membershipEnd f) (MemberFormData.emergencyContact f)
    (MemberFormData.age f) (MemberFormData.gender f) (MemberFormData.goals f).

(** [`/members/${memberForm.id}`]. *)
Definition formUrl (f : MemberFormData.t) : string :=
  "/members/" ++
  match MemberFormData.id f with
  | Some i => JS.intToString i
  | None => "undefined"
  end.

Record State : Type := mkState {
  members : list Member;
  filteredMembers : list Member;
  isLoading : bool;
  searchTerm : string;
  statusFilter : string;
  showModal : bool;
  memberForm : MemberFormData.t;
  isEditing : bool
}.

Definition setMembers (f : list Member -> list Member) : M State unit :=
  setState (fun st => mkState (f (members st)) (filteredMembers st) (isLoading st)
    (searchTerm st) (statusFilter st) (showModal st) (memberForm st) (isEditing st)).
Definition setFilteredMembers (v : list Member) : M State unit :=
  setState (fun st => mkState (members st) v (isLoading st)
    (searchTerm st) (statusFilter st) (showModal st) (memberForm st) (isEditing st)).
Definition setIsLoading (v : bool) : M State unit :=
  setState (fun st => mkState (members st) (filteredMembers st) v
    (searchTerm st) (statusFilter st) (showModal st) (memberForm st) (isEditing st)).
Definition setSearchTerm (v : string) : M State unit :=
  setState (fun st => mkState (members st) (filteredMembers st) (isLoading st)
    v (statusFilter st) (showModal st) (memberForm st) (isEditing st)).
Definition setStatusFilter (v : string) : M State unit :=
  setState (fun st => mkState (members st) (filteredMembers st) (isLoading st)
    (searchTerm st) v (showModal st) (memberForm st) (isEditing st)).
Definition setShowModal (v : bool) : M State unit :=
  setState (fun st => mkState (members st) (filteredMembers st) (isLoading st)
    (searchTerm st) (statusFilter st) v (memberForm st) (isEditing st)).
Definition setMemberForm (v : MemberFormData.t) : M State unit :=
  setState (fun st => mkState (members st) (filteredMembers st) (isLoading st)
    (searchTerm st) (statusFilter st) (showModal st) v (isEditing st)).
Definition setIsEditing (v : bool) : M State unit :=
  setState (fun st => mkState (members st) (filteredMembers st) (isLoading st)
    (searchTerm st) (statusFilter st) (showModal st) (memberForm st) v).

(** The effect on [members, searchTerm, statusFilter]. *)
Definition filterEffect : M State unit :=
  (st <- getState ;;
   let result := members st in
   let result :=
     if negb (String.eqb (statusFilter st) "All")
     then filter (fun member => String.eqb (membershipStatus member) (statusFilter st))
                 result
     else result in
   let result :=
     if JS.truthy (searchTerm st)
     then
       let term := JS.toLowerCase (searchTerm st) in
       filter (fun member =>
                 JS.includes (JS.toLowerCase (name member)) term
                 || JS.includes (JS.toLowerCase (email member)) term
                 || JS.includes (phone member) term)
              result
     else result in
   setFilteredMembers result)%handler.

Definition fetchMembers (response : Response (list Member)) : M State unit :=
  try_finally
    (try_catch
       (setIsLoading true ;;
        data <- await GET "/members" response ;;
        setMembers (fun _ => data) ;;
        setFilteredMembers data)%handler
       (console_error "Error fetching members:" ;;
        toast_error "Failed to load members")%handler)
    (setIsLoading false).

Section Handlers.
(** The two dates of [emptyMemberForm], taken when the module loads:
    today and thirty days later, as ISO dates. *)
Variable today in30Days : string.

Definition emptyMemberForm : MemberFormData.t :=
  MemberFormData.mk None "" "" "" today "Standard" "Active" in30Days "" 18 "Male" "".

Definition openAddModal : M State unit :=
  (setMemberForm emptyMemberForm ;; setIsEditing false ;; setShowModal true)%handler.

Definition openEditModal (member : Member) : M State unit :=
  (setMemberForm (toForm member) ;; setIsEditing true ;; setShowModal true)%handler.

Definition closeModal : M State unit :=
  (setShowModal false ;; setMemberForm emptyMemberForm)%handler.

(** [response] is the outcome of the one call the handler makes: the PUT
    when editing, the POST otherwise.  [member.id === memberForm.id] is
    never true for a form without [id]. *)
Definition handleSubmit (response : Response Member) : M State unit :=
  (st <- getState ;;
   try_catch
     ((if isEditing st then
         _ <- await PUT (formUrl (memberForm st)) response ;;
         toast_success "Member updated successfully" ;;
         setMembers (fun prev =>
           map (fun member =>
                  match MemberFormData.id (memberForm st) with
                  | Some i => if id member =? i then asMember i (memberForm st)
                              else member
                  | None => member
                  end) prev)
       else
         data <- await POST "/members" response ;;
         toast_success "Member added successfully" ;;
         setMembers (fun prev => (prev ++ [data])%list)) ;;
      closeModal)
     (console_error "Error saving member:" ;;
      toast_error (if isEditing st then "Failed to update member"
                   else "Failed to add member")))%handler.
End Handlers.

(** [confirmed] is the answer to [window.confirm]. *)
Definition handleDelete (confirmed : bool) (id0 : Z) (response : Response unit)
  : M State unit :=
  if negb confirmed then ret tt
  else
    try_catch
      (_ <- await DELETE ("/members/" ++ JS.intToString id0) response ;;
       toast_success "Member deleted successfully" ;;
       setMembers (fun prev => filter (fun member => negb (id member =? id0)) prev))%handler
      (console_error "Error deleting member:" ;;
       toast_error "Failed to delete member")%handler.

End Members.

(** ** Trainers page *)

Module Trainers.

Record Trainer : Type := mkTrainer {
  id : Z;
  name : string;
  email : string;
  phone : string;
  hireDate : string;
  specialties : list string;
  certifications : list string;
  bio : string;
  schedule : string;
  imageUrl : string
}.

(** [Omit<Trainer, 'id'> & { id?: number }]. *)
Module TrainerFormData.
Record t : Type := mk {
  id : option Z;
  name : string;
  email : string;
  phone : string;
  hireDate : string;
  specialties : list string;
  certifications : list string;
  bio : string;
  schedule : string;
  imageUrl : string
}.
End TrainerFormData.

(** [{...trainer}]. *)
Definition toForm (t : Trainer) : TrainerFormData.t :=
  TrainerFormData.mk (Some (id t)) (name t) (email t) (phone t) (hireDate t)
    (specialties t) (certifications t) (bio t) (schedule t) (imageUrl t).

(** [trainerForm as Trainer], for a form whose [id] is [i]. *)
Definition asTrainer (i : Z) (f : TrainerFormData.t) : Trainer :=
  mkTrainer i (TrainerFormData.name f) (TrainerFormData.email f)
    (TrainerFormData.phone f) (TrainerFormData.hireDate f)
    (TrainerFormData.specialties f) (TrainerFormData.certifications f)
    (TrainerFormData.bio f) (TrainerFormData.schedule f)
    (TrainerFormData.imageUrl f).

(** [`/trainers/${trainerForm.id}`]. *)
Definition formUrl (f : TrainerFormData.t) : string :=
  "/trainers/" ++
  match TrainerFormData.id f with
  | Some i => JS.intToString i
  | None => "undefined"
  end.

Record State : Type := mkState {
  trainers : list Trainer;
  filteredTrainers : list Trainer;
  isLoading : bool;
  searchTerm : string;
  showModal : bool;
  trainerForm : TrainerFormData.t;
  isEditing : bool;
  specialtyInput : string;
  certificationInput : string
}.

Definition setTrainers (f : list Trainer -> list Trainer) : M State unit :=
  setState (fun st => mkState (f (trainers st)) (filteredTrainers st) (isLoading st)
    (searchTerm st) (showModal st) (trainerForm st) (isEditing st)
    (specialtyInput st) (certificationInput st)).
Definition setFilteredTrainers (v : list Trainer) : M State unit :=
  setState (fun st => mkState (trainers st) v (isLoading st)
    (searchTerm st) (showModal st) (trainerForm st) (isEditing st)
    (specialtyInput st) (certificationInput st)).
Definition setIsLoading (v : bool) : M State unit :=
  setState (fun st => mkState (trainers st) (filteredTrainers st) v
    (searchTerm st) (showModal st) (trainerForm st) (isEditing st)
    (specialtyInput st) (certificationInput st)).
Definition setSearchTerm (v : string) : M State unit :=
  setState (fun st => mkState (trainers st) (filteredTrainers st) (isLoading st)
    v (showModal st) (trainerForm st) (isEditing st)
    (specialtyInput st) (certificationInput st)).
Definition setShowModal (v : bool) : M State unit :=
  setState (fun st => mkState (trainers st) (filteredTrainers st) (isLoading st)
    (searchTerm st) v (trainerForm st) (isEditing st)
    (specialtyInput st) (certificationInput st)).
Definition setTrainerForm (v : TrainerFormData.t) : M State unit :=
  setState (fun st => mkState (trainers st) (filteredTrainers st) (isLoading st)
    (searchTerm st) (showModal st) v (isEditing st)
    (specialtyInput st) (certificationInput st)).
Definition setIsEditing (v : bool) : M State unit :=
  setState (fun st => mkState (trainers st) (filteredTrainers st) (isLoading st)
    (searchTerm st) (showModal st) (trainerForm st) v
    (specialtyInput st) (certificationInput st)).
Definition setSpecialtyInput (v : string) : M State unit :=
  setState (fun st => mkState (trainers st) (filteredTrainers st) (isLoading st)
    (searchTerm st) (showModal st) (trainerForm st) (isEditing st)
    v (certificationInput st)).
Definition setCertificationInput (v : string) : M State unit :=
  setState (fun st => mkState (trainers st) (filteredTrainers st) (isLoading st)
    (searchTerm st) (showModal st) (trainerForm st) (isEditing st)
    (specialtyInput st) v).

(** The effect on [trainers, searchTerm]. *)
Definition filterEffect : M State unit :=
  (st <- getState ;;
   if JS.truthy (searchTerm st)
   then
     let term := JS.toLowerCase (searchTerm st) in
     setFilteredTrainers
       (filter (fun trainer =>
                  JS.includes (JS.toLowerCase (name trainer)) term
                  || JS.includes (JS.toLowerCase (email trainer)) term
                  || existsb (fun s => JS.includes (JS.toLowerCase s) term)
                             (specialties trainer))
               (trainers st))
   else setFilteredTrainers (trainers st))%handler.

Definition fetchTrainers (response : Response (list Trainer)) : M State unit :=
  try_finally
    (try_catch
       (setIsLoading true ;;
        data <- await GET "/trainers" response ;;
        setTrainers (fun _ => data) ;;
        setFilteredTrainers data)%handler
       (console_error "Error fetching trainers:" ;;
        toast_error "Failed to load trainers")%handler)
    (setIsLoading false).

Section Handlers.
(** The hire date of [emptyTrainerForm]: the day the module loads. *)
Variable today : string.

Definition emptyTrainerForm : TrainerFormData.t :=
  TrainerFormData.mk None "" "" "" today [] [] "" "" "".

Definition closeModal : M State unit :=
  (setShowModal false ;;
   setTrainerForm emptyTrainerForm ;;
   setSpecialtyInput "" ;;
   setCertificationInput "")%handler.

(** [response] is the outcome of the one call the handler makes: the PUT
    when editing, the POST otherwise.  [trainer.id === trainerForm.id] is
    never true for a form without [id]. *)
Definition handleSubmit (response : Response Trainer) : M State unit :=
  (st <- getState ;;
   try_catch
     ((if isEditing st then
         _ <- await PUT (formUrl (trainerForm st)) response ;;
         toast_success "Trainer updated successfully" ;;
         setTrainers (fun prev =>
           map (fun trainer =>
                  match TrainerFormData.id (trainerForm st) with
                  | Some i => if id trainer =? i then asTrainer i (trainerForm st)
                              else trainer
                  | None => trainer
                  end) prev)
       else
         data <- await POST "/trainers" response ;;
         toast_success "Trainer added successfully" ;;
         setTrainers (fun prev => (prev ++ [data])%list)) ;;
      closeModal)
     (console_error "Error saving trainer:" ;;
      toast_error (if isEditing st then "Failed to update trainer"
                   else "Failed to add trainer")))%handler.
Definition openAddModal : M State unit :=
  (setTrainerForm emptyTrainerForm ;; setIsEditing false ;; setShowModal true)%handler.
End Handlers.

(** [confirmed] is the answer to [window.confirm]. *)
Definition handleDelete (confirmed : bool) (id0 : Z) (response : Response unit)
  : M State unit :=
  if negb confirmed then ret tt
  else
    try_catch
      (_ <- await DELETE ("/trainers/" ++ JS.intToString id0) response ;;
       toast_success "Trainer deleted successfully" ;;
       setTrainers (fun prev => filter (fun trainer => negb (id trainer =? id0)) prev))%handler
      (console_error "Error deleting trainer:" ;;
       toast_error "Failed to delete trainer")%handler.

(** [setTrainerForm(prev => ...)]. *)
Definition updateTrainerForm (f : TrainerFormData.t -> TrainerFormData.t)
  : M State unit :=
  setState (fun st => mkState (trainers st) (filteredTrainers st) (isLoading st)
    (searchTerm st) (showModal st) (f (trainerForm st)) (isEditing st)
    (specialtyInput st) (certificationInput st)).

(** [{...prev, specialties: v}] and [{...prev, certifications: v}]. *)
Definition withSpecialties (prev : TrainerFormData.t) (v : list string)
  : TrainerFormData.t :=
  TrainerFormData.mk (TrainerFormData.id prev) (TrainerFormData.name prev)
    (TrainerFormData.email prev) (TrainerFormData.phone prev)
    (TrainerFormData.hireDate prev) v (TrainerFormData.certifications prev)
    (TrainerFormData.bio prev) (TrainerFormData.schedule prev)
    (TrainerFormData.imageUrl prev).

Definition withCertifications (prev : TrainerFormData.t) (v : list string)
  : TrainerFormData.t :=
  TrainerFormData.mk (TrainerFormData.id prev) (TrainerFormData.name prev)
    (TrainerFormData.email prev) (TrainerFormData.phone prev)
    (TrainerFormData.hireDate prev) (TrainerFormData.specialties prev) v
    (TrainerFormData.bio prev) (TrainerFormData.schedule prev)
    (TrainerFormData.imageUrl prev).

Definition openEditModal (trainer : Trainer) : M State unit :=
  (setTrainerForm (toForm trainer) ;; setIsEditing true ;; setShowModal true)%handler.

Definition addSpecialty : M State unit :=
  (st <- getState ;;
   if JS.truthy (JS.trim (specialtyInput st))
   then
     updateTrainerForm (fun prev =>
       withSpecialties prev
         (TrainerFormData.specialties prev ++ [JS.trim (specialtyInput st)])%list) ;;
     setSpecialtyInput ""
   else ret tt)%handler.

Definition removeSpecialty (index : Z) : M State unit :=
  updateTrainerForm (fun prev =>
    withSpecialties prev
      (JS.filteri (fun _ i => negb (i =? index)) (TrainerFormData.specialties prev))).

Definition addCertification : M State unit :=
  (st <- getState ;;
   if JS.truthy (JS.trim (certificationInput st))
   then
     updateTrainerForm (fun prev =>
       withCertifications prev
         (TrainerFormData.certifications prev ++ [JS.trim (certificationInput st)])%list) ;;
     setCertificationInput ""
   else ret tt)%handler.

Definition removeCertification (index : Z) : M State unit :=
  updateTrainerForm (fun prev =>
    withCertifications prev
      (JS.filteri (fun _ i => negb (i =? index)) (TrainerFormData.certifications prev))).

End Trainers.

(** ** Schedule page *)

Module Schedule.

Module ClassSchedule.
Record t : Type := mk {
  id : Z;
  name : string;
  trainer : Z;
  timeStart : string;
  timeEnd : string;
  days : list string;
  capacity : Z;
  enrolled : Z;
  location : string;
  description : string
}.
End ClassSchedule.

Record Trainer : Type := mkTrainer {
  id : Z;
  name : string
}.

Record State : Type := mkState {
  classes : list ClassSchedule.t;
  trainers : list Trainer;
  isLoading : bool;
  selectedDay : string
}.

Definition setClasses (v : list ClassSchedule.t) : M State unit :=
  setState (fun st => mkState v (trainers st) (isLoading st) (selectedDay st)).
Definition setTrainers (v : list Trainer) : M State unit :=
  setState (fun st => mkState (classes st) v (isLoading st) (selectedDay st)).
Definition setIsLoading (v : bool) : M State unit :=
  setState (fun st => mkState (classes st) (trainers st) v (selectedDay st)).
Definition setSelectedDay (v : string) : M State unit :=
  setState (fun st => mkState (classes st) (trainers st) (isLoading st) v).

Definition fetchScheduleData
    (classesRes : Response (list ClassSchedule.t))
    (trainersRes : Response (list Trainer)) : M State unit :=
  try_finally
    (try_catch
       (setIsLoading true ;;
        request GET "/classes" ;;
        request GET "/trainers" ;;
        classesData <- settle classesRes ;;
        trainersData <- settle trainersRes ;;
        setClasses classesData ;;
        setTrainers trainersData)%handler
       (console_error "Error fetching schedule data:" ;;
        toast_error "Failed to load schedule")%handler)
    (setIsLoading false).

Definition filteredClasses (st : State) : list ClassSchedule.t :=
  if String.eqb (selectedDay st) "All" then classes st
  else filter (fun c => existsb (String.eqb (selectedDay st)) (ClassSchedule.days c))
              (classes st).

(** Get trainer name by id. *)
Definition getTrainerName (trainers : list Trainer) (id0 : Z) : string :=
  match JS.find (fun t => id t =? id0) trainers with
  | Some trainer => name trainer
  | None => "Unknown"
  end.

(** Format time from 24hr to 12hr.  The pieces of the split are bound by
    position; a missing piece is [undefined]. *)
Definition formatTime (time : string) : string :=
  let parts := JS.split ":" time in
  let hours := nth_error parts 0 in
  let minutes := nth_error parts 1 in
  let hour :=
    JS.parseInt (match hours with Some h => h | None => "undefined" end) in
  let suffix :=
    match hour with
    | Some h => if 12 <=? h then "PM" else "AM"
    | None => "AM"
    end in
  let displayHour :=
    match hour with
    | Some h => if Z.rem h 12 =? 0 then 12 else Z.rem h 12
    | None => 12
    end in
  JS.intToString displayHour ++ ":"
    ++ (match minutes with Some m => m | None => "undefined" end)
    ++ " " ++ suffix.

(** Calculate enrollment percentage.  [fl] is the rounding of the
arithmetic, [JS.binary64] in an engine. *)
Definition enrollmentPercentage (fl : Q -> Q) (enrolled capacity : Z) : JS.Number :=
  JS.Math_round
    (JS.mul fl (JS.div fl (JS.ofInt enrolled) (JS.ofInt capacity)) (JS.ofInt 100)).

(** The colour of the enrollment bar of a class card. *)
Definition enrollmentBarClass (fl : Q -> Q) (enrolled capacity : Z) : string :=
  if JS.numGt (enrollmentPercentage fl enrolled capacity) (JS.ofInt 75)
  then "bg-error"
  else if JS.numGt (enrollmentPercentage fl enrolled capacity) (JS.ofInt 50)
  then "bg-warning"
  else "bg-success".

End Schedule.

(** ** Payments page *)

Module Payments.

Record Payment : Type := mkPayment {
  id : Z;
  memberId : Z;
  amount : Q;
  date : string;
  type : string;
  status : string;
  method : string
}.

Module Member.
Record t : Type := mk {
  id : Z;
  name : string;
  email : string
}.
End Member.

(** [keyof Payment]. *)
Inductive PaymentKey : Type :=
| key_id | key_memberId | key_amount | key_date | key_type | key_status | key_method.

Inductive Direction : Type := asc | desc.

Module SortConfig.
Record t : Type := mk {
  key : option PaymentKey;
  direction : Direction
}.
End SortConfig.

(** [payment[key]]. *)
Definition get (payment : Payment) (key : PaymentKey) : JS.Value :=
  match key with
  | key_id => JS.Num (inject_Z (id payment))
  | key_memberId => JS.Num (inject_Z (memberId payment))
  | key_amount => JS.Num (amount payment)
  | key_date => JS.Str (date payment)
  | key_type => JS.Str (type payment)
  | key_status => JS.Str (status payment)
  | key_method => JS.Str (method payment)
  end.

Definition keyEqb (a b : PaymentKey) : bool :=
  match a, b with
  | key_id, key_id | key_memberId, key_memberId | key_amount, key_amount
  | key_date, key_date | key_type, key_type | key_status, key_status
  | key_method, key_method => true
  | _, _ => false
  end.

Record State : Type := mkState {
  payments : list Payment;
  members : list Member.t;
  filteredPayments : list Payment;
  isLoading : bool;
  searchTerm : string;
  statusFilter : string;
  sortConfig : SortConfig.t
}.

Definition initialState : State :=
  mkState [] [] [] true "" "All" (SortConfig.mk (Some key_date) desc).

Definition setPayments (v : list Payment) : M State unit :=
  setState (fun st => mkState v (members st) (filteredPayments st) (isLoading st)
    (searchTerm st) (statusFilter st) (sortConfig st)).
Definition setMembers (v : list Member.t) : M State unit :=
  setState (fun st => mkState (payments st) v (filteredPayments st) (isLoading st)
    (searchTerm st) (statusFilter st) (sortConfig st)).
Definition setFilteredPayments (v : list Payment) : M State unit :=
  setState (fun st => mkState (payments st) (members st) v (isLoading st)
    (searchTerm st) (statusFilter st) (sortConfig st)).
Definition setIsLoading (v : bool) : M State unit :=
  setState (fun st => mkState (payments st) (members st) (filteredPayments st) v
    (searchTerm st) (statusFilter st) (sortConfig st)).
Definition setSearchTerm (v : string) : M State unit :=
  setState (fun st => mkState (payments st) (members st) (filteredPayments st)
    (isLoading st) v (statusFilter st) (sortConfig st)).
Definition setStatusFilter (v : string) : M State unit :=
  setState (fun st => mkState (payments st) (members st) (filteredPayments st)
    (isLoading st) (searchTerm st) v (sortConfig st)).
Definition setSortConfig (v : SortConfig.t) : M State unit :=
  setState (fun st => mkState (payments st) (members st) (filteredPayments st)
    (isLoading st) (searchTerm st) (statusFilter st) v).

(** The comparator handed to [sort]. *)
Definition comparator (key : PaymentKey) (direction : Direction) (a b : Payment) : Z :=
  if JS.lt (get a key) (get b key)
  then match direction with asc => -1 | desc => 1 end
  else if JS.gt (get a key) (get b key)
  then match direction with asc => 1 | desc => -1 end
  else 0.

Definition sortItems (items : list Payment) (config : SortConfig.t) : list Payment :=
  match SortConfig.key config with
  | None => items
  | Some key => JS.sort (comparator key (SortConfig.direction config)) items
  end.

Definition fetchPaymentsData
    (paymentsRes : Response (list Payment))
    (membersRes : Response (list Member.t)) : M State unit :=
  (st <- getState ;;
   try_finally
     (try_catch
        (setIsLoading true ;;
         request GET "/payments" ;;
         request GET "/members" ;;
         paymentsData <- settle paymentsRes ;;
         membersData <- settle membersRes ;;
         setPayments paymentsData ;;
         setMembers membersData ;;
         setFilteredPayments (sortItems paymentsData (sortConfig st)))
        (console_error "Error fetching payments data:" ;;
         toast_error "Failed to load payments"))
     (setIsLoading false))%handler.

Section Filters.
(** [Number.prototype.toString] on an amount. *)
Variable Number_toString : Q -> string.

Definition applyFilters : M State unit :=
  (st <- getState ;;
   let result := payments st in
   let result :=
     if negb (String.eqb (statusFilter st) "All")
     then filter (fun payment => String.eqb (status payment) (statusFilter st)) result
     else result in
   let result :=
     if JS.truthy (searchTerm st)
     then
       let term := JS.toLowerCase (searchTerm st) in
       filter (fun payment =>
                 let member :=
                   JS.find (fun m => Member.id m =? memberId payment) (members st) in
                 match member with
                 | Some m => JS.includes (JS.toLowerCase (Member.name m)) term
                 | None => false
                 end
                 || match member with
                    | Some m => JS.includes (JS.toLowerCase (Member.email m)) term
                    | None => false
                    end
                 || JS.includes (Number_toString (amount payment)) term
                 || JS.includes (JS.toLowerCase (method payment)) term)
              result
     else result in
   setFilteredPayments (sortItems result (sortConfig st)))%handler.
End Filters.

Definition getMemberName (members : list Member.t) (memberId0 : Z) : string :=
  match JS.find (fun m => Member.id m =? memberId0) members with
  | Some member => Member.name member
  | None => "Unknown Member"
  end.

Definition getMemberEmail (members : list Member.t) (memberId0 : Z) : string :=
  match JS.find (fun m => Member.id m =? memberId0) members with
  | Some member => Member.email member
  | None => "Unknown Email"
  end.

Definition requestSort (key : PaymentKey) : M State unit :=
  (st <- getState ;;
   let direction :=
     if match SortConfig.key (sortConfig st) with
        | Some k => keyEqb k key
        | None => false
        end
        && match SortConfig.direction (sortConfig st) with asc => true | desc => false end
     then desc else asc in
   let newConfig := SortConfig.mk (Some key) direction in
   setSortConfig newConfig ;;
   setFilteredPayments (sortItems (filteredPayments st) newConfig))%handler.

(** The arrow shown in a column head. *)
Inductive SortIcon : Type := ArrowUp | ArrowDown.

Definition getSortIcon (st : State) (key : PaymentKey) : option SortIcon :=
  if negb match SortConfig.key (sortConfig st) with
          | Some k => keyEqb k key
          | None => false
          end
  then None
  else match SortConfig.direction (sortConfig st) with
       | asc => Some ArrowUp
       | desc => Some ArrowDown
       end.

End Payments.

(** * Vocabulary of the statements *)

(** [StruckOut l l']: [l'] is [l] with some positions struck out; what stays
    keeps its order. *)
Inductive StruckOut {A : Type} : list A -> list A -> Prop :=
| struck_nil : StruckOut [] []
| struck_keep x l l' : StruckOut l l' -> StruckOut (x :: l) (x :: l')
| struck_drop x l l' : StruckOut l l' -> StruckOut (x :: l) l'.

(** * Sample data *)

Module Sample.

Definition ann : Members.Member :=
  Members.mkMember 1 "Ann Lee" "ann@fit.io" "555-0101" "2024-01-05" "Premium"
    "Active" "2025-01-05" "555-0199" 31 "Female" "Strength".

Definition bob : Members.Member :=
  Members.mkMember 2 "Bob Ray" "bob@fit.io" "555-GYM1" "2024-02-11" "Standard"
    "Inactive" "2024-08-11" "555-0188" 45 "Male" "Cardio".

(** Bob's record in the edit form, with the status changed. *)
Definition bobEdited : Members.MemberFormData.t :=
  Members.MemberFormData.mk (Some 2) "Bob Ray" "bob@fit.io" "555-GYM1" "2024-02-11"
    "Standard" "Active" "2025-02-11" "555-0188" 45 "Male" "Cardio".

Definition membersPage (form : Members.MemberFormData.t) (editing : bool)
  : World Members.State :=
  mkWorld (Members.mkState [ann; bob] [ann; bob] false "" "All" true form editing)
          [] [] [mkCall GET "/members"].

Definition kim : Trainers.Trainer :=
  Trainers.mkTrainer 1 "Kim Osei" "kim@fit.io" "555-0301" "2023-03-01"
    ["Yoga"; "Pilates"] ["RYT-200"] "" "Mon-Fri" "".

Definition kimEdited : Trainers.TrainerFormData.t :=
  Trainers.TrainerFormData.mk (Some 1) "Kim Osei" "kim@fit.io" "555-0301" "2023-03-01"
    ["Yoga"; "Pilates"; "HIIT"] ["RYT-200"] "" "Mon-Sat" "".

Definition trainersPage (form : Trainers.TrainerFormData.t) (editing : bool)
  : World Trainers.State :=
  mkWorld (Trainers.mkState [kim] [kim] false "" true form editing "" "")
          [] [] [mkCall GET "/trainers"].

End Sample.

Module SampleRefs.
Definition trainers : list Schedule.Trainer :=
  [Schedule.mkTrainer 3 "Kim Osei"; Schedule.mkTrainer 7 "Lou Park";
   Schedule.mkTrainer 7 "Lou P. (duplicate)"].

Definition members : list Payments.Member.t :=
  [Payments.Member.mk 1 "Ann Lee" "ann@fit.io"; Payments.Member.mk 2 "Bob Ray" "bob@fit.io"].
End SampleRefs.

(** [s] holds no colon. *)
Definition noColon (s : string) : Prop := ~ In ":"%char (list_ascii_of_string s).

(** Reading back an hour written in decimal, zero-padded or not, gives the
    hour, and its digits hold no colon (a check run on the hours of a day). *)
Definition hourReadBack (h : Z) : bool :=
  match JS.parseInt (JS.intToString h), JS.parseInt ("0" ++ JS.intToString h) with
  | Some a, Some b => (a =? h) && (b =? h)
  | _, _ => false
  end
  && negb (existsb (Ascii.eqb ":") (list_ascii_of_string (JS.intToString h))).


(** [Value_le a b]: [a <= b] for two values of one kind, numbers by size and
    strings by code units. *)
Definition Value_le (a b : JS.Value) : Prop :=
  match a, b with
  | JS.Num x, JS.Num y => (x <= y)%Q
  | JS.Str x, JS.Str y => String.compare x y <> Gt
  | _, _ => False
  end.

(** The order of two payments on one field, in a direction. *)
Definition orderedBy (key : Payments.PaymentKey) (direction : Payments.Direction)
    (a b : Payments.Payment) : Prop :=
  match direction with
  | Payments.asc => Value_le (Payments.get a key) (Payments.get b key)
  | Payments.desc => Value_le (Payments.get b key) (Payments.get a key)
  end.

(** The text match of the filters: the lower-cased term occurs in the
    lower-cased field. *)
Definition matchesIgnoringCase (field term : string) : bool :=
  JS.includes (JS.toLowerCase field) (JS.toLowerCase term).

(** The Members list as the filter sentence words it: one filter by the
    status equality (off for "All") and a case-insensitive substring match
    over the string fields the page searches (off for an empty term). *)
Definition membersListAsWorded (members : list Members.Member) (term status : string)
  : list Members.Member :=
  filter (fun m =>
            (String.eqb status "All" || String.eqb (Members.membershipStatus m) status)
            && (String.eqb term ""
                || matchesIgnoringCase (Members.name m) term
                || matchesIgnoringCase (Members.email m) term
                || matchesIgnoringCase (Members.phone m) term))
         members.

(** The Payments list as the filter sentence words it, over the strings the
page searches: the referenced member's name and email, the amount's
rendering and the method. *)
Definition paymentsListAsWorded (Number_toString : Q -> string)
    (payments : list Payments.Payment) (members : list Payments.Member.t)
    (term status : string) : list Payments.Payment :=
  filter (fun p =>
            (String.eqb status "All" || String.eqb (Payments.status p) status)
            && (String.eqb term ""
                || match JS.find (fun m => Payments.Member.id m =? Payments.memberId p)
                                 members with
                   | Some m => matchesIgnoringCase (Payments.Member.name m) term
                               || matchesIgnoringCase (Payments.Member.email m) term
                   | None => false
                   end
                || matchesIgnoringCase (Number_toString (Payments.amount p)) term
                || matchesIgnoringCase (Payments.method p) term))
         payments.

Module SampleSearch.
(** The Members page with the term "gym" typed in the search box. *)
Definition membersPage : World Members.State :=
  mkWorld (Members.mkState [Sample.ann; Sample.bob] [Sample.ann; Sample.bob] false
             "gym" "All" false (Members.emptyMemberForm "2025-01-01" "2025-01-31") false)
          [] [] [mkCall GET "/members"].

(** Two payments in the order the backend returns them, oldest first. *)
Definition january : Payments.Payment :=
  Payments.mkPayment 1 1 50 "2024-01-10" "Membership" "Paid" "Credit Card".

Definition february : Payments.Payment :=
  Payments.mkPayment 2 2 30 "2024-02-15" "Personal Training" "Pending" "Cash".

(** The rendering of a whole amount. *)
Definition wholeAmountToString (q : Q) : string := JS.intToString (Qfloor q).

(** The Payments page after its fetch, before the filter effect has run:
no term, status "All", the initial sort configuration. *)
Definition paymentsPage : World Payments.State :=
  mkWorld (Payments.mkState [january; february] SampleRefs.members [] false
             "" "All" (Payments.SortConfig.mk (Some Payments.key_date) Payments.desc))
          [] [] [mkCall GET "/payments"; mkCall GET "/members"].

(** The Members page with one member, whose phone is made of digits and
dashes, and "ANN" typed in the search box under status "Active". *)
Definition digitsPhonePage : World Members.State :=
  mkWorld (Members.mkState [Sample.ann] [] false
             "ANN" "Active" false (Members.emptyMemberForm "2025-01-01" "2025-01-31") false)
          [] [] [mkCall GET "/members"].

(** The Payments page with "CASH" typed in the search box. *)
Definition cashPage : World Payments.State :=
  mkWorld (Payments.mkState [january; february] SampleRefs.members [] false
             "CASH" "All" (Payments.SortConfig.mk (Some Payments.key_date) Payments.desc))
          [] [] [mkCall GET "/payments"; mkCall GET "/members"].
End SampleSearch.

(** * Further sample data *)

Module SampleMore.

(** The Members page with an empty form, not editing. *)
Definition membersIdle : World Members.State :=
  Sample.membersPage (Members.emptyMemberForm "2025-01-01" "2025-01-31") false.

(** A new member as the backend returns it, under a fresh id. *)
Definition cyd : Members.Member :=
  Members.mkMember 3 "Cyd Moon" "cyd@fit.io" "555-0103" "2025-01-01" "Standard"
    "Active" "2025-01-31" "555-0177" 28 "Female" "Mobility".

End SampleMore.

Module SampleMore2.

(** The Members page with "an" typed in the search box. *)
Definition membersSearching : World Members.State :=
  mkWorld (Members.mkState [Sample.ann; Sample.bob] [Sample.ann; Sample.bob] false
             "an" "All" false (Members.emptyMemberForm "2025-01-01" "2025-01-31") false)
          [] [] [mkCall GET "/members"].

(** A payment of a member who is no longer in the members list. *)
Definition orphan : Payments.Payment :=
  Payments.mkPayment 3 9 45 "2024-03-01" "Membership" "Paid" "Cash".

(** The Payments page with "cash" typed in the search box. *)
Definition paymentsSearching : World Payments.State :=
  mkWorld (Payments.mkState [SampleSearch.january; orphan] SampleRefs.members [] false
             "cash" "All" (Payments.SortConfig.mk (Some Payments.key_date) Payments.desc))
          [] [] [mkCall GET "/payments"; mkCall GET "/members"].

Definition yoga : Schedule.ClassSchedule.t :=
  Schedule.ClassSchedule.mk 1 "Yoga" 3 "09:00" "10:00" ["Monday"; "Friday"] 20 15
    "Studio A" "".

Definition unscheduled : Schedule.ClassSchedule.t :=
  Schedule.ClassSchedule.mk 2 "Workshop" 7 "12:00" "13:00" [] 10 0 "Studio B" "".

Definition schedulePage (day : string) : Schedule.State :=
  Schedule.mkState [yoga; unscheduled] SampleRefs.trainers false day.

End SampleMore2.

(** The payments that pass the status and text filters of the Payments page,
in fetched order, before they are sorted. *)
Definition paymentRows (Number_toString : Q -> string) (st : Payments.State)
  : list Payments.Payment :=
  let term := JS.toLowerCase (Payments.searchTerm st) in
  filter (fun payment =>
            (negb (negb (String.eqb (Payments.statusFilter st) "All"))
             || String.eqb (Payments.status payment) (Payments.statusFilter st))
            && (negb (JS.truthy (Payments.searchTerm st))
                || (match JS.find (fun m => Payments.Member.id m
                                            =? Payments.memberId payment)
                                  (Payments.members st) with
                    | Some m => JS.includes (JS.toLowerCase (Payments.Member.name m)) term
                    | None => false
                    end
                    || match JS.find (fun m => Payments.Member.id m
                                               =? Payments.memberId payment)
                                     (Payments.members st) with
                       | Some m =>
                           JS.includes (JS.toLowerCase (Payments.Member.email m)) term
                       | None => false
                       end
                    || JS.includes (Number_toString (Payments.amount payment)) term
                    || JS.includes (JS.toLowerCase (Payments.method payment)) term)))
         (Payments.payments st).

(** A stored tag is tidy: not empty, no white space at either end. *)
Definition tidy (s : string) : Prop := s <> "" /\ JS.trim s = s.

Module SampleMore3.

(** The Trainers modal with " HIIT " typed in the specialty box. *)
Definition trainersModal : World Trainers.State :=
  mkWorld (Trainers.mkState [Sample.kim] [Sample.kim] false "" true
             (Trainers.toForm Sample.kim) true " HIIT " "")
          [] [] [mkCall GET "/trainers"].

End SampleMore3.

(** The number a run of decimal digits denotes when read after [acc]. *)
Fixpoint digitsAfter (d : Decimal.uint) (acc : Z) : Z :=
  match d with
  | Decimal.Nil => acc
  | Decimal.D0 d => digitsAfter d (10 * acc + 0)
  | Decimal.D1 d => digitsAfter d (10 * acc + 1)
  | Decimal.D2 d => digitsAfter d (10 * acc + 2)
  | Decimal.D3 d => digitsAfter d (10 * acc + 3)
  | Decimal.D4 d => digitsAfter d (10 * acc + 4)
  | Decimal.D5 d => digitsAfter d (10 * acc + 5)
  | Decimal.D6 d => digitsAfter d (10 * acc + 6)
  | Decimal.D7 d => digitsAfter d (10 * acc + 7)
  | Decimal.D8 d => digitsAfter d (10 * acc + 8)
  | Decimal.D9 d => digitsAfter d (10 * acc + 9)
  end.

(** * Properties *)

(** ** Lists of records with an [id] *)

Section RecordsById.
Context {A : Type}.
Variable getId : A -> Z.

Lemma filter_other_ids_In (id0 : Z) (l : list A) (x : A) :
  In x (filter (fun r => negb (getId r =? id0)) l) <-> In x l /\ getId x <> id0.
Proof.
  rewrite filter_In. split; intros [Hin Hid]; split; trivial.
  - intros E. rewrite E, Z.eqb_refl in Hid. discriminate.
  - apply negb_true_iff, Z.eqb_neq. exact Hid.
Qed.

Lemma filter_other_ids_absent (id0 : Z) (l : list A) :
  (forall x, In x l -> getId x <> id0) ->
  filter (fun r => negb (getId r =? id0)) l = l.
Proof.
  induction l as [|y l IH]; intros Habs; simpl; trivial.
  destruct (Z.eqb_spec (getId y) id0) as [E|_]; simpl.
  - exfalso. apply (Habs y); [left; reflexivity | exact E].
  - f_equal. apply IH. intros x Hx. apply Habs. right. exact Hx.
Qed.

Lemma filter_StruckOut (p : A -> bool) (l : list A) : StruckOut l (filter p l).
Proof.
  induction l as [|y l IH]; simpl.
  - constructor.
  - destruct (p y); constructor; exact IH.
Qed.

Lemma nth_error_replace (f : A -> A) (l : list A) (i : nat) (x : A) :
  nth_error l i = Some x -> nth_error (map f l) i = Some (f x).
Proof.
  intros H. rewrite nth_error_map, H. reflexivity.
Qed.
End RecordsById.

(** ** Delete, update and create mirrored into the local collection *)

(** C3. When the DELETE call succeeds, the local collection becomes the
    previous one without the records whose id is the deleted id: a record is
    in the new collection exactly when it was in the old one under another
    id, and the records kept stand in the order they had.  Members and
    Trainers pages. *)
Theorem delete_success_removes_exactly_that_id :
  (forall (w : World Members.State) (id0 : Z),
      let old := Members.members (page w) in
      let new :=
        Members.members (page (exec (Members.handleDelete true id0 (Resolved tt)) w)) in
      new = filter (fun m => negb (Members.id m =? id0)) old
      /\ (forall m, In m new <-> In m old /\ Members.id m <> id0)
      /\ StruckOut old new)
  /\
  (forall (w : World Trainers.State) (id0 : Z),
      let old := Trainers.trainers (page w) in
      let new :=
        Trainers.trainers (page (exec (Trainers.handleDelete true id0 (Resolved tt)) w)) in
      new = filter (fun t => negb (Trainers.id t =? id0)) old
      /\ (forall t, In t new <-> In t old /\ Trainers.id t <> id0)
      /\ StruckOut old new).
Proof.
  split; intros w id0; cbv zeta; simpl.
  - split; [reflexivity|]. split.
    + intros m. apply filter_other_ids_In.
    + apply filter_StruckOut.
  - split; [reflexivity|]. split.
    + intros t. apply filter_other_ids_In.
    + apply filter_StruckOut.
Qed.

Lemma members_toForm_asMember (i : Z) (f : Members.MemberFormData.t) :
  Members.MemberFormData.id f = Some i -> Members.toForm (Members.asMember i f) = f.
Proof. destruct f; simpl; intros ->; reflexivity. Qed.

Lemma trainers_toForm_asTrainer (i : Z) (f : Trainers.TrainerFormData.t) :
  Trainers.TrainerFormData.id f = Some i -> Trainers.toForm (Trainers.asTrainer i f) = f.
Proof. destruct f; simpl; intros ->; reflexivity. Qed.

Lemma members_update_success (today in30Days : string) (w : World Members.State)
    (d : Members.Member) :
  Members.isEditing (page w) = true ->
  Members.members (page (exec (Members.handleSubmit today in30Days (Resolved d)) w)) =
  map (fun member =>
         match Members.MemberFormData.id (Members.memberForm (page w)) with
         | Some i => if Members.id member =? i
                     then Members.asMember i (Members.memberForm (page w))
                     else member
         | None => member
         end) (Members.members (page w)).
Proof.
  intros He. unfold exec, Members.handleSubmit, bind, getState, try_catch.
  simpl. rewrite He. reflexivity.
Qed.

Lemma trainers_update_success (today : string) (w : World Trainers.State)
    (d : Trainers.Trainer) :
  Trainers.isEditing (page w) = true ->
  Trainers.trainers (page (exec (Trainers.handleSubmit today (Resolved d)) w)) =
  map (fun trainer =>
         match Trainers.TrainerFormData.id (Trainers.trainerForm (page w)) with
         | Some i => if Trainers.id trainer =? i
                     then Trainers.asTrainer i (Trainers.trainerForm (page w))
                     else trainer
         | None => trainer
         end) (Trainers.trainers (page w)).
Proof.
  intros He. unfold exec, Trainers.handleSubmit, bind, getState, try_catch.
  simpl. rewrite He. reflexivity.
Qed.

(** C4. When the PUT call of an edit succeeds, the collection keeps its
    length; at every position, a record whose id is the form's id is
    replaced by a record that carries the form contents, and a record with
    another id stays as it was.  Members and Trainers pages. *)
Theorem update_success_replaces_matching_records :
  (forall (today in30Days : string) (w : World Members.State) (d : Members.Member),
      Members.isEditing (page w) = true ->
      let form := Members.memberForm (page w) in
      let old := Members.members (page w) in
      let new :=
        Members.members
          (page (exec (Members.handleSubmit today in30Days (Resolved d)) w)) in
      List.length new = List.length old
      /\ forall (i : nat) (m : Members.Member),
          nth_error old i = Some m ->
          (Members.MemberFormData.id form = Some (Members.id m) ->
           exists r, nth_error new i = Some r /\ Members.toForm r = form)
          /\ (Members.MemberFormData.id form <> Some (Members.id m) ->
              nth_error new i = Some m))
  /\
  (forall (today : string) (w : World Trainers.State) (d : Trainers.Trainer),
      Trainers.isEditing (page w) = true ->
      let form := Trainers.trainerForm (page w) in
      let old := Trainers.trainers (page w) in
      let new :=
        Trainers.trainers (page (exec (Trainers.handleSubmit today (Resolved d)) w)) in
      List.length new = List.length old
      /\ forall (i : nat) (t : Trainers.Trainer),
          nth_error old i = Some t ->
          (Trainers.TrainerFormData.id form = Some (Trainers.id t) ->
           exists r, nth_error new i = Some r /\ Trainers.toForm r = form)
          /\ (Trainers.TrainerFormData.id form <> Some (Trainers.id t) ->
              nth_error new i = Some t)).
Proof.
  split.
  - intros today in30Days w d He. cbv zeta.
    rewrite (members_update_success today in30Days w d He).
    split; [apply length_map|].
    intros i m Hi. rewrite (nth_error_replace _ _ _ _ Hi). split.
    + intros Hid. rewrite Hid, Z.eqb_refl. eexists. split; [reflexivity|].
      apply members_toForm_asMember. exact Hid.
    + intros Hid. destruct (Members.MemberFormData.id _) as [j|]; trivial.
      destruct (Z.eqb_spec (Members.id m) j) as [E|_]; trivial.
      exfalso. apply Hid. rewrite E. reflexivity.
  - intros today w d He. cbv zeta.
    rewrite (trainers_update_success today w d He).
    split; [apply length_map|].
    intros i t Hi. rewrite (nth_error_replace _ _ _ _ Hi). split.
    + intros Hid. rewrite Hid, Z.eqb_refl. eexists. split; [reflexivity|].
      apply trainers_toForm_asTrainer. exact Hid.
    + intros Hid. destruct (Trainers.TrainerFormData.id _) as [j|]; trivial.
      destruct (Z.eqb_spec (Trainers.id t) j) as [E|_]; trivial.
      exfalso. apply Hid. rewrite E. reflexivity.
Qed.

Lemma update_success_replaces_matching_records_witness :
  let w := Sample.membersPage Sample.bobEdited true in
  let new :=
    Members.members
      (page (exec (Members.handleSubmit "2025-01-01" "2025-01-31" (Resolved Sample.bob)) w)) in
  Members.isEditing (page w) = true
  /\ List.length new = 2%nat
  /\ nth_error new 0 = Some Sample.ann
  /\ exists r, nth_error new 1 = Some r /\ Members.toForm r = Sample.bobEdited.
Proof.
  cbv zeta.
  pose proof (proj1 update_success_replaces_matching_records
                "2025-01-01" "2025-01-31" (Sample.membersPage Sample.bobEdited true)
                Sample.bob eq_refl) as [Hlen Hat].
  split; [reflexivity|]. split; [exact Hlen|]. split.
  - apply (Hat 0%nat Sample.ann eq_refl). discriminate.
  - apply (Hat 1%nat Sample.bob eq_refl). reflexivity.
Defined.

Lemma members_create_success (today in30Days : string) (w : World Members.State)
    (data : Members.Member) :
  Members.isEditing (page w) = false ->
  Members.members (page (exec (Members.handleSubmit today in30Days (Resolved data)) w)) =
  (Members.members (page w) ++ [data])%list.
Proof.
  intros He. unfold exec, Members.handleSubmit, bind, getState, try_catch.
  simpl. rewrite He. reflexivity.
Qed.

Lemma trainers_create_success (today : string) (w : World Trainers.State)
    (data : Trainers.Trainer) :
  Trainers.isEditing (page w) = false ->
  Trainers.trainers (page (exec (Trainers.handleSubmit today (Resolved data)) w)) =
  (Trainers.trainers (page w) ++ [data])%list.
Proof.
  intros He. unfold exec, Trainers.handleSubmit, bind, getState, try_catch.
  simpl. rewrite He. reflexivity.
Qed.

Lemma NoDup_app_same_id {A : Type} (getId : A -> Z) (l : list A) (x : A) :
  In (getId x) (map getId l) -> ~ NoDup (map getId (l ++ [x])).
Proof.
  intros Hin Hnd. rewrite map_app in Hnd. simpl in Hnd.
  apply NoDup_remove_2 in Hnd. apply Hnd. rewrite app_nil_r. exact Hin.
Qed.

(** C7. The create path appends the record of the POST response whatever its
    id: whenever the response carries an id already present, the collection
    after the create holds that id twice, so distinct ids are not preserved;
    such a response exists for a collection with distinct ids.  Members and
    Trainers pages. *)
Theorem create_does_not_preserve_unique_ids :
  (forall (today in30Days : string) (w : World Members.State) (data : Members.Member),
      Members.isEditing (page w) = false ->
      let new :=
        Members.members
          (page (exec (Members.handleSubmit today in30Days (Resolved data)) w)) in
      new = (Members.members (page w) ++ [data])%list
      /\ (In (Members.id data) (map Members.id (Members.members (page w))) ->
          ~ NoDup (map Members.id new)))
  /\
  (forall (today : string) (w : World Trainers.State) (data : Trainers.Trainer),
      Trainers.isEditing (page w) = false ->
      let new :=
        Trainers.trainers (page (exec (Trainers.handleSubmit today (Resolved data)) w)) in
      new = (Trainers.trainers (page w) ++ [data])%list
      /\ (In (Trainers.id data) (map Trainers.id (Trainers.trainers (page w))) ->
          ~ NoDup (map Trainers.id new)))
  /\
  (exists (w : World Members.State) (data : Members.Member),
      Members.isEditing (page w) = false
      /\ NoDup (map Members.id (Members.members (page w)))
      /\ ~ NoDup (map Members.id
                    (Members.members
                       (page (exec (Members.handleSubmit "2025-01-01" "2025-01-31"
                                      (Resolved data)) w)))))
  /\
  (exists (w : World Trainers.State) (data : Trainers.Trainer),
      Trainers.isEditing (page w) = false
      /\ NoDup (map Trainers.id (Trainers.trainers (page w)))
      /\ ~ NoDup (map Trainers.id
                    (Trainers.trainers
                       (page (exec (Trainers.handleSubmit "2025-01-01"
                                      (Resolved data)) w))))).
Proof.
  split; [|split; [|split]].
  - intros today in30Days w data He. cbv zeta.
    rewrite (members_create_success today in30Days w data He).
    split; [reflexivity|]. apply NoDup_app_same_id.
  - intros today w data He. cbv zeta.
    rewrite (trainers_create_success today w data He).
    split; [reflexivity|]. apply NoDup_app_same_id.
  - exists (Sample.membersPage (Members.emptyMemberForm "2025-01-01" "2025-01-31") false).
    exists Sample.ann. split; [reflexivity|]. split.
    + simpl. repeat constructor; simpl; intuition discriminate.
    + rewrite members_create_success by reflexivity.
      apply NoDup_app_same_id. simpl. left. reflexivity.
  - exists (Sample.trainersPage (Trainers.emptyTrainerForm "2025-01-01") false).
    exists Sample.kim. split; [reflexivity|]. split.
    + simpl. repeat constructor; simpl; intuition discriminate.
    + rewrite trainers_create_success by reflexivity.
      apply NoDup_app_same_id. simpl. left. reflexivity.
Qed.

Lemma create_does_not_preserve_unique_ids_witness :
  let w := Sample.membersPage (Members.emptyMemberForm "2025-01-01" "2025-01-31") false in
  let new :=
    Members.members
      (page (exec (Members.handleSubmit "2025-01-01" "2025-01-31" (Resolved Sample.ann)) w)) in
  Members.isEditing (page w) = false
  /\ new = [Sample.ann; Sample.bob; Sample.ann]
  /\ ~ NoDup (map Members.id new).
Proof.
  cbv zeta.
  pose proof (proj1 create_does_not_preserve_unique_ids "2025-01-01" "2025-01-31"
                (Sample.membersPage (Members.emptyMemberForm "2025-01-01" "2025-01-31") false)
                Sample.ann eq_refl) as [Heq Hdup].
  split; [reflexivity|]. split; [exact Heq|].
  apply Hdup. simpl. left. reflexivity.
Defined.

(** ** Dashboard *)

Lemma length_filter_count_occ {A : Type} (f : A -> string) (v : string) (l : list A) :
  List.length (filter (fun x => String.eqb (f x) v) l) =
  count_occ string_dec (map f l) v.
Proof.
  induction l as [|x l IH]; simpl; trivial.
  destruct (String.eqb_spec (f x) v) as [E|N];
    destruct (string_dec (f x) v) as [E'|N']; simpl; try congruence.
Qed.

Lemma dashboard_fetch_success {Trainer Class : Type} (Date_parse : string -> option Z)
    (now : Z) (w : World Dashboard.State) (membersData : list Dashboard.Member)
    (trainersData : list Trainer) (classesData : list Class)
    (paymentsData : list Dashboard.Payment) :
  let active :=
    filter (fun m => String.eqb (Dashboard.membershipStatus m) "Active") membersData in
  exec (Dashboard.fetchDashboardData Date_parse now (Resolved membersData)
          (Resolved trainersData) (Resolved classesData) (Resolved paymentsData)) w =
  mkWorld
    (Dashboard.mkState
       (Dashboard.StatsData.mk
          (Z.of_nat (List.length membersData))
          (Z.of_nat (List.length active))
          (Z.of_nat (List.length trainersData))
          (Z.of_nat (List.length classesData))
          (Z.of_nat (List.length (filter (Dashboard.isRecent Date_parse now) paymentsData))))
       (firstn 5 active)
       false)
    (toasts w) (console w)
    (calls w ++ [mkCall GET "/members"] ++ [mkCall GET "/trainers"]
       ++ [mkCall GET "/classes"] ++ [mkCall GET "/payments"]).
Proof.
  cbv zeta. unfold exec, Dashboard.fetchDashboardData. simpl.
  repeat rewrite <- app_assoc. reflexivity.
Qed.

(** C8. After a successful fetch, the Active Members panel holds at most five
    members, all with [membershipStatus] "Active": they are the first active
    members of the fetched list, in its order, and none is left out unless
    the panel is full; the active-member statistic is the number of fetched
    members whose [membershipStatus] is "Active". *)
Theorem dashboard_active_members_panel_and_count {Trainer Class : Type}
    (Date_parse : string -> option Z) (now : Z) (w : World Dashboard.State)
    (membersData : list Dashboard.Member) (trainersData : list Trainer)
    (classesData : list Class) (paymentsData : list Dashboard.Payment) :
  let w' :=
    exec (Dashboard.fetchDashboardData Date_parse now (Resolved membersData)
            (Resolved trainersData) (Resolved classesData) (Resolved paymentsData)) w in
  let panel := Dashboard.activeMembers (page w') in
  (List.length panel <= 5)%nat
  /\ Forall (fun m => Dashboard.membershipStatus m = "Active") panel
  /\ StruckOut membersData panel
  /\ (exists rest,
         filter (fun m => String.eqb (Dashboard.membershipStatus m) "Active") membersData
         = (panel ++ rest)%list
         /\ (rest <> [] -> List.length panel = 5%nat))
  /\ Dashboard.StatsData.activeMembers (Dashboard.stats (page w')) =
     Z.of_nat (count_occ string_dec (map Dashboard.membershipStatus membersData) "Active").
Proof.
  cbv zeta. rewrite dashboard_fetch_success.
  cbn [page Dashboard.activeMembers Dashboard.stats Dashboard.StatsData.activeMembers].
  set (active := filter _ membersData).
  split; [apply firstn_le_length|]. split; [|split; [|split]].
  - apply Forall_forall. intros m Hm.
    assert (Hin : In m active).
    { rewrite <- (firstn_skipn 5 active). apply in_or_app. left. exact Hm. }
    apply filter_In in Hin. destruct Hin as [_ Hs].
    apply String.eqb_eq. exact Hs.
  - assert (Hpre : forall (n : nat) (l : list Dashboard.Member), StruckOut l (firstn n l)).
    { clear. intros n l. revert n.
      induction l as [|x l IH]; intros [|n]; simpl; try constructor; auto.
      clear IH. induction l; constructor; auto. }
    assert (Htrans : forall l1 l2 : list Dashboard.Member,
               StruckOut l1 l2 -> forall l3, StruckOut l2 l3 -> StruckOut l1 l3).
    { clear. intros l1 l2 H12. induction H12; intros l3 H23.
      - exact H23.
      - inversion H23; subst; constructor; auto.
      - constructor. auto. }
    apply (Htrans _ active); [apply filter_StruckOut | apply Hpre].
  - exists (skipn 5 active). split.
    + symmetry. apply firstn_skipn.
    + intros Hrest. apply firstn_length_le.
      destruct (Nat.le_gt_cases 5 (List.length active)) as [Hle|Hgt]; trivial.
      exfalso. apply Hrest. apply skipn_all2. lia.
  - f_equal. apply length_filter_count_occ.
Qed.

(** ** Failing REST calls *)

(** Members page: a failing fetch, submit or delete leaves the collection as
    it was, shows one error toast and issues its one call. *)
Lemma members_fetch_failure (w : World Members.State) :
  let w' := exec (Members.fetchMembers Rejected) w in
  Members.members (page w') = Members.members (page w)
  /\ Members.filteredMembers (page w') = Members.filteredMembers (page w)
  /\ toasts w' = (toasts w ++ [ToastError "Failed to load members"])%list
  /\ calls w' = (calls w ++ [mkCall GET "/members"])%list.
Proof. repeat split. Qed.

Lemma members_submit_failure (today in30Days : string) (w : World Members.State) :
  let w' := exec (Members.handleSubmit today in30Days Rejected) w in
  Members.members (page w') = Members.members (page w)
  /\ (exists msg, toasts w' = (toasts w ++ [ToastError msg])%list)
  /\ (exists c, calls w' = (calls w ++ [c])%list).
Proof.
  cbv zeta. unfold exec, Members.handleSubmit, bind, getState, try_catch. simpl.
  destruct (Members.isEditing (page w)); simpl; repeat split; eexists; reflexivity.
Qed.

Lemma members_delete_failure (w : World Members.State) (id0 : Z) :
  let w' := exec (Members.handleDelete true id0 Rejected) w in
  Members.members (page w') = Members.members (page w)
  /\ toasts w' = (toasts w ++ [ToastError "Failed to delete member"])%list
  /\ calls w' = (calls w ++ [mkCall DELETE ("/members/" ++ JS.intToString id0)])%list.
Proof. repeat split. Qed.

(** Trainers page, likewise. *)
Lemma trainers_fetch_failure (w : World Trainers.State) :
  let w' := exec (Trainers.fetchTrainers Rejected) w in
  Trainers.trainers (page w') = Trainers.trainers (page w)
  /\ toasts w' = (toasts w ++ [ToastError "Failed to load trainers"])%list
  /\ calls w' = (calls w ++ [mkCall GET "/trainers"])%list.
Proof. repeat split. Qed.

Lemma trainers_submit_failure (today : string) (w : World Trainers.State) :
  let w' := exec (Trainers.handleSubmit today Rejected) w in
  Trainers.trainers (page w') = Trainers.trainers (page w)
  /\ (exists msg, toasts w' = (toasts w ++ [ToastError msg])%list)
  /\ (exists c, calls w' = (calls w ++ [c])%list).
Proof.
  cbv zeta. unfold exec, Trainers.handleSubmit, bind, getState, try_catch. simpl.
  destruct (Trainers.isEditing (page w)); simpl; repeat split; eexists; reflexivity.
Qed.

Lemma trainers_delete_failure (w : World Trainers.State) (id0 : Z) :
  let w' := exec (Trainers.handleDelete true id0 Rejected) w in
  Trainers.trainers (page w') = Trainers.trainers (page w)
  /\ toasts w' = (toasts w ++ [ToastError "Failed to delete trainer"])%list
  /\ calls w' = (calls w ++ [mkCall DELETE ("/trainers/" ++ JS.intToString id0)])%list.
Proof. repeat split. Qed.

(** Schedule and Payments pages: the fetch awaits two calls; when either is
    rejected the collections stay and one error toast is shown. *)
Lemma schedule_fetch_failure (w : World Schedule.State)
    (classesRes : Response (list Schedule.ClassSchedule.t))
    (trainersRes : Response (list Schedule.Trainer)) :
  classesRes = Rejected \/ trainersRes = Rejected ->
  let w' := exec (Schedule.fetchScheduleData classesRes trainersRes) w in
  Schedule.classes (page w') = Schedule.classes (page w)
  /\ Schedule.trainers (page w') = Schedule.trainers (page w)
  /\ toasts w' = (toasts w ++ [ToastError "Failed to load schedule"])%list
  /\ calls w' = (calls w ++ [mkCall GET "/classes"; mkCall GET "/trainers"])%list.
Proof.
  intros [-> | ->]; [|destruct classesRes]; cbv zeta;
    unfold exec, Schedule.fetchScheduleData; simpl;
    rewrite <- app_assoc; repeat split.
Qed.

Lemma payments_fetch_failure (w : World Payments.State)
    (paymentsRes : Response (list Payments.Payment))
    (membersRes : Response (list Payments.Member.t)) :
  paymentsRes = Rejected \/ membersRes = Rejected ->
  let w' := exec (Payments.fetchPaymentsData paymentsRes membersRes) w in
  Payments.payments (page w') = Payments.payments (page w)
  /\ Payments.members (page w') = Payments.members (page w)
  /\ Payments.filteredPayments (page w') = Payments.filteredPayments (page w)
  /\ toasts w' = (toasts w ++ [ToastError "Failed to load payments"])%list
  /\ calls w' = (calls w ++ [mkCall GET "/payments"; mkCall GET "/members"])%list.
Proof.
  intros [-> | ->]; [|destruct paymentsRes]; cbv zeta;
    unfold exec, Payments.fetchPaymentsData, bind, getState; simpl;
    rewrite <- app_assoc; repeat split.
Qed.

(** C5. The Dashboard fetch that fails shows no notification: whichever of
    its four calls is rejected, the statistics and the panel stay as they
    were, the four calls were issued once each, the error goes to the console
    and the list of toasts is unchanged. *)
Theorem dashboard_fetch_failure_shows_no_notification {Trainer Class : Type}
    (Date_parse : string -> option Z) (now : Z) (w : World Dashboard.State)
    (membersRes : Response (list Dashboard.Member))
    (trainersRes : Response (list Trainer)) (classesRes : Response (list Class))
    (paymentsRes : Response (list Dashboard.Payment)) :
  membersRes = Rejected \/ trainersRes = Rejected
    \/ classesRes = Rejected \/ paymentsRes = Rejected ->
  let w' :=
    exec (Dashboard.fetchDashboardData Date_parse now membersRes trainersRes
            classesRes paymentsRes) w in
  Dashboard.stats (page w') = Dashboard.stats (page w)
  /\ Dashboard.activeMembers (page w') = Dashboard.activeMembers (page w)
  /\ toasts w' = toasts w
  /\ console w' = (console w ++ ["Error fetching dashboard data:"])%list
  /\ calls w' = (calls w ++ [mkCall GET "/members"; mkCall GET "/trainers";
                             mkCall GET "/classes"; mkCall GET "/payments"])%list.
Proof.
  intros H. cbv zeta.
  destruct membersRes, trainersRes, classesRes, paymentsRes;
    try (exfalso; decompose [or] H; discriminate);
    unfold exec, Dashboard.fetchDashboardData; simpl;
    repeat rewrite <- app_assoc; repeat split.
Qed.

Lemma dashboard_fetch_failure_shows_no_notification_witness :
  let w := mkWorld Dashboard.initialState [] [] [] in
  let w' :=
    exec (Dashboard.fetchDashboardData (fun _ => None) 0
            (@Rejected (list Dashboard.Member)) (Resolved ([] : list unit))
            (Resolved ([] : list unit)) (Resolved [])) w in
  toasts w' = [] /\ console w' = ["Error fetching dashboard data:"].
Proof.
  cbv zeta.
  pose proof (dashboard_fetch_failure_shows_no_notification (fun _ => None) 0
                (mkWorld Dashboard.initialState [] [] [])
                (@Rejected (list Dashboard.Member)) (Resolved ([] : list unit))
                (Resolved ([] : list unit)) (Resolved [])
                (or_introl eq_refl)) as (_ & _ & Ht & Hc & _).
  split; [exact Ht | exact Hc].
Defined.

(** ** Name resolution *)

Lemma find_first_match {A : Type} (p : A -> bool) (pre post : list A) (x : A) :
  Forall (fun y => p y = false) pre -> p x = true ->
  JS.find p (pre ++ x :: post) = Some x.
Proof.
  unfold JS.find. induction 1 as [|y pre Hy _ IH]; intros Hx; simpl.
  - rewrite Hx. reflexivity.
  - rewrite Hy. apply IH. exact Hx.
Qed.

Lemma find_no_match {A : Type} (p : A -> bool) (l : list A) :
  Forall (fun y => p y = false) l -> JS.find p l = None.
Proof.
  unfold JS.find. induction 1 as [|y l Hy _ IH]; simpl; trivial.
  rewrite Hy. exact IH.
Qed.

Lemma Forall_id_neq {A : Type} (getId : A -> Z) (id0 : Z) (l : list A) :
  Forall (fun x => getId x <> id0) l -> Forall (fun x => (getId x =? id0) = false) l.
Proof.
  apply Forall_impl. intros x. apply Z.eqb_neq.
Qed.

(** C6. Name resolution scans the fetched list from its head: it returns the
    name of the first record whose id is the reference, and a fixed
    placeholder when no record has that id ("Unknown" for a class's trainer,
    "Unknown Member" for a payment's member). *)
Theorem name_resolution_first_match_or_placeholder :
  (forall (trainers : list Schedule.Trainer) (id0 : Z),
      (forall pre t post,
          trainers = (pre ++ t :: post)%list ->
          Forall (fun x => Schedule.id x <> id0) pre ->
          Schedule.id t = id0 ->
          Schedule.getTrainerName trainers id0 = Schedule.name t)
      /\ (Forall (fun x => Schedule.id x <> id0) trainers ->
          Schedule.getTrainerName trainers id0 = "Unknown"))
  /\
  (forall (members : list Payments.Member.t) (memberId : Z),
      (forall pre m post,
          members = (pre ++ m :: post)%list ->
          Forall (fun x => Payments.Member.id x <> memberId) pre ->
          Payments.Member.id m = memberId ->
          Payments.getMemberName members memberId = Payments.Member.name m)
      /\ (Forall (fun x => Payments.Member.id x <> memberId) members ->
          Payments.getMemberName members memberId = "Unknown Member")).
Proof.
  split.
  - intros trainers id0. split.
    + intros pre t post -> Hpre Ht. unfold Schedule.getTrainerName.
      rewrite find_first_match; trivial.
      * apply Forall_id_neq. exact Hpre.
      * apply Z.eqb_eq. exact Ht.
    + intros Hall. unfold Schedule.getTrainerName.
      rewrite find_no_match; trivial. apply Forall_id_neq. exact Hall.
  - intros members memberId. split.
    + intros pre m post -> Hpre Hm. unfold Payments.getMemberName.
      rewrite find_first_match; trivial.
      * apply Forall_id_neq. exact Hpre.
      * apply Z.eqb_eq. exact Hm.
    + intros Hall. unfold Payments.getMemberName.
      rewrite find_no_match; trivial. apply Forall_id_neq. exact Hall.
Qed.

Lemma name_resolution_first_match_or_placeholder_witness :
  Schedule.getTrainerName SampleRefs.trainers 7 = "Lou Park"
  /\ Schedule.getTrainerName SampleRefs.trainers 4 = "Unknown"
  /\ Payments.getMemberName SampleRefs.members 2 = "Bob Ray"
  /\ Payments.getMemberName SampleRefs.members 9 = "Unknown Member".
Proof.
  destruct name_resolution_first_match_or_placeholder as [HT HM].
  split; [|split; [|split]].
  - apply (proj1 (HT SampleRefs.trainers 7)
             [Schedule.mkTrainer 3 "Kim Osei"] (Schedule.mkTrainer 7 "Lou Park")
             [Schedule.mkTrainer 7 "Lou P. (duplicate)"]).
    + reflexivity.
    + repeat constructor. simpl. lia.
    + reflexivity.
  - apply (proj2 (HT SampleRefs.trainers 4)).
    repeat constructor; simpl; lia.
  - apply (proj1 (HM SampleRefs.members 2)
             [Payments.Member.mk 1 "Ann Lee" "ann@fit.io"]
             (Payments.Member.mk 2 "Bob Ray" "bob@fit.io") []).
    + reflexivity.
    + repeat constructor. simpl. lia.
    + reflexivity.
  - apply (proj2 (HM SampleRefs.members 9)).
    repeat constructor; simpl; lia.
Defined.

(** C6 as worded fails for a payment's member: no fetched member has the id
    9, and the name shown for it is not the placeholder "Unknown" but the
    text "Unknown Member". *)
Lemma member_placeholder_is_not_Unknown :
  Forall (fun m => Payments.Member.id m <> 9) SampleRefs.members
  /\ Payments.getMemberName SampleRefs.members 9 = "Unknown Member"
  /\ Payments.getMemberName SampleRefs.members 9 <> "Unknown".
Proof.
  split; [repeat constructor; discriminate|].
  split; [reflexivity | discriminate].
Qed.

(** ** Time of a class *)

Lemma split_no_sep (sep : ascii) (s : string) :
  ~ In sep (list_ascii_of_string s) -> JS.split sep s = [s].
Proof.
  induction s as [|c s IH]; simpl; intros Hno; trivial.
  destruct (Ascii.eqb_spec c sep) as [E|_].
  - exfalso. apply Hno. left. exact E.
  - rewrite IH; trivial. intros Hin. apply Hno. right. exact Hin.
Qed.

Lemma split_at_first_sep (sep : ascii) (s rest : string) :
  ~ In sep (list_ascii_of_string s) ->
  JS.split sep (s ++ String sep rest) = s :: JS.split sep rest.
Proof.
  induction s as [|c s IH]; simpl; intros Hno.
  - rewrite Ascii.eqb_refl. reflexivity.
  - destruct (Ascii.eqb_spec c sep) as [E|_].
    + exfalso. apply Hno. left. exact E.
    + rewrite IH; trivial. intros Hin. apply Hno. right. exact Hin.
Qed.

Lemma formatTime_hours_minutes (hs mm : string) :
  noColon hs -> noColon mm ->
  Schedule.formatTime (hs ++ ":" ++ mm) =
  JS.intToString
    (match JS.parseInt hs with
     | Some h => if Z.rem h 12 =? 0 then 12 else Z.rem h 12
     | None => 12
     end)
  ++ ":" ++ mm ++ " "
  ++ match JS.parseInt hs with
     | Some h => if 12 <=? h then "PM" else "AM"
     | None => "AM"
     end.
Proof.
  intros Hh Hm. unfold Schedule.formatTime.
  change (":" ++ mm) with (String ":" mm).
  rewrite (split_at_first_sep ":" hs mm Hh), (split_no_sep ":" mm Hm).
  reflexivity.
Qed.

Lemma hours_read_back (h : Z) (hs : string) :
  0 <= h <= 23 ->
  hs = JS.intToString h \/ hs = "0" ++ JS.intToString h ->
  JS.parseInt hs = Some h /\ noColon hs.
Proof.
  intros Hh Hhs.
  assert (Hin : In h (map Z.of_nat (seq 0 24))).
  { apply in_map_iff. exists (Z.to_nat h). split; [lia|]. apply in_seq. lia. }
  assert (Hall : forallb hourReadBack (map Z.of_nat (seq 0 24)) = true)
    by (vm_compute; reflexivity).
  rewrite forallb_forall in Hall. specialize (Hall h Hin).
  unfold hourReadBack in Hall.
  apply andb_true_iff in Hall. destruct Hall as [Hparse Hcolon].
  assert (Hno : noColon (JS.intToString h)).
  { intros Hc. apply negb_true_iff in Hcolon.
    assert (Hex : existsb (Ascii.eqb ":") (list_ascii_of_string (JS.intToString h)) = true).
    { apply existsb_exists. exists ":"%char. split; [exact Hc | reflexivity]. }
    congruence. }
  destruct (JS.parseInt (JS.intToString h)) as [a|] eqn:Ea; [|discriminate].
  destruct (JS.parseInt ("0" ++ JS.intToString h)) as [b|] eqn:Eb; [|discriminate].
  apply andb_true_iff in Hparse. destruct Hparse as [Ha Hb].
  apply Z.eqb_eq in Ha, Hb. subst a b.
  destruct Hhs as [-> | ->].
  - split; trivial.
  - split; trivial.
    intros [Hc|Hc]; [discriminate | exact (Hno Hc)].
Qed.

(** C9. For a time [H:MM] with 0 <= H <= 23, the hour written in decimal
    (zero-padded or not) and no colon in [MM], [formatTime] returns the hour
    [H mod 12], with 0 replaced by 12, then the minutes as given, then "PM"
    when 12 <= H and "AM" otherwise. *)
Theorem formatTime_twelve_hour_clock (h : Z) (hs mm : string) :
  0 <= h <= 23 ->
  hs = JS.intToString h \/ hs = "0" ++ JS.intToString h ->
  noColon mm ->
  Schedule.formatTime (hs ++ ":" ++ mm) =
  JS.intToString (if h mod 12 =? 0 then 12 else h mod 12)
  ++ ":" ++ mm ++ " " ++ (if 12 <=? h then "PM" else "AM").
Proof.
  intros Hh Hhs Hmm.
  destruct (hours_read_back h hs Hh Hhs) as [Hparse Hno].
  rewrite (formatTime_hours_minutes hs mm Hno Hmm), Hparse.
  rewrite Z.rem_mod_nonneg by lia. reflexivity.
Qed.

Lemma formatTime_twelve_hour_clock_witness :
  Schedule.formatTime "09:30" = "9:30 AM"
  /\ Schedule.formatTime "0:05" = "12:05 AM"
  /\ Schedule.formatTime "12:00" = "12:00 PM"
  /\ Schedule.formatTime "23:59" = "11:59 PM".
Proof.
  assert (Hno : forall a b : ascii, a <> ":"%char -> b <> ":"%char ->
                  noColon (String a (String b EmptyString))).
  { intros a b Ha Hb [H|[H|[]]]; congruence. }
  split; [|split; [|split]].
  - apply (formatTime_twelve_hour_clock 9 "09" "30"); [lia | right; reflexivity|].
    apply Hno; discriminate.
  - apply (formatTime_twelve_hour_clock 0 "0" "05"); [lia | left; reflexivity|].
    apply Hno; discriminate.
  - apply (formatTime_twelve_hour_clock 12 "12" "00"); [lia | left; reflexivity|].
    apply Hno; discriminate.
  - apply (formatTime_twelve_hour_clock 23 "23" "59"); [lia | left; reflexivity|].
    apply Hno; discriminate.
Defined.

(** ** Sorting *)

Section SortFacts.
Context {A : Type}.
Variable cmp : A -> A -> Z.

Lemma insert_Permutation (x : A) (l : list A) :
  Permutation (JS.insert cmp x l) (x :: l).
Proof.
  induction l as [|y l IH]; simpl.
  - apply Permutation_refl.
  - destruct (cmp x y <=? 0).
    + apply Permutation_refl.
    + apply perm_trans with (y :: x :: l).
      * apply perm_skip. exact IH.
      * apply perm_swap.
Qed.

Lemma sort_Permutation (l : list A) : Permutation (JS.sort cmp l) l.
Proof.
  induction l as [|x l IH]; simpl.
  - apply perm_nil.
  - apply perm_trans with (x :: JS.sort cmp l).
    + apply insert_Permutation.
    + apply perm_skip. exact IH.
Qed.

(** A comparator that agrees with a transitive order [le]. *)
Variable le : A -> A -> Prop.
Hypothesis cmp_nonpos : forall a b, cmp a b <= 0 -> le a b.
Hypothesis cmp_pos : forall a b, 0 < cmp a b -> le b a.
Hypothesis le_trans : forall a b c, le a b -> le b c -> le a c.

Lemma insert_StronglySorted (x : A) (l : list A) :
  StronglySorted le l -> StronglySorted le (JS.insert cmp x l).
Proof.
  induction 1 as [|y l Hl IH Hy]; simpl.
  - constructor; constructor.
  - destruct (Z.leb_spec (cmp x y) 0) as [Hle|Hgt].
    + constructor.
      * constructor; assumption.
      * constructor.
        -- apply cmp_nonpos. exact Hle.
        -- revert Hy. apply Forall_impl. intros z Hz.
           apply le_trans with y; [apply cmp_nonpos; exact Hle | exact Hz].
    + constructor; [exact IH|].
      apply (Permutation_Forall (Permutation_sym (insert_Permutation x l))).
      constructor; [apply cmp_pos; exact Hgt | exact Hy].
Qed.

Lemma sort_StronglySorted (l : list A) : StronglySorted le (JS.sort cmp l).
Proof.
  induction l as [|x l IH]; simpl.
  - constructor.
  - apply insert_StronglySorted. exact IH.
Qed.
End SortFacts.

Lemma string_compare_trans (a b c : string) :
  String.compare a b <> Gt -> String.compare b c <> Gt -> String.compare a c <> Gt.
Proof.
  intros Hab Hbc Hac.
  assert (Hlt : forall x y, String.compare x y = Lt <-> OrderedTypeEx.String_as_OT.lt x y)
    by (intros; apply OrderedTypeEx.String_as_OT.cmp_lt).
  assert (Hca : String.compare c a = Lt).
  { rewrite String.compare_antisym, Hac. reflexivity. }
  destruct (String.compare a b) eqn:Eab; [|clear Hab|congruence].
  - apply String.compare_eq_iff in Eab. subst b. congruence.
  - destruct (String.compare b c) eqn:Ebc; [| |congruence].
    + apply String.compare_eq_iff in Ebc. subst c. congruence.
    + apply Hlt in Eab, Ebc, Hca.
      pose proof (OrderedTypeEx.String_as_OT.lt_trans _ _ _ Eab
                    (OrderedTypeEx.String_as_OT.lt_trans _ _ _ Ebc Hca)) as Hcyc.
      exact (OrderedTypeEx.String_as_OT.lt_not_eq _ _ Hcyc eq_refl).
Qed.

Lemma Value_le_trans (a b c : JS.Value) : Value_le a b -> Value_le b c -> Value_le a c.
Proof.
  destruct a, b, c; simpl; try tauto.
  - apply Qle_trans.
  - apply string_compare_trans.
Qed.

(** [a < b] false and [a > b] false leave [a <= b] and [b <= a]. *)
Lemma JS_lt_Value_le (a b : JS.Value) : JS.lt a b = true -> Value_le a b.
Proof.
  destruct a as [x|x], b as [y|y]; simpl; try discriminate.
  - destruct (x ?= y)%Q eqn:E; try discriminate. intros _.
    apply Qlt_le_weak. apply Qlt_alt. exact E.
  - unfold String.ltb. destruct (String.compare x y); congruence.
Qed.

Lemma JS_not_gt_Value_le (a b : JS.Value) :
  (exists k p q, a = Payments.get p k /\ b = Payments.get q k) ->
  JS.gt a b = false -> Value_le a b.
Proof.
  intros (k & p & q & -> & ->). unfold JS.gt.
  destruct k; cbn [Payments.get JS.lt Value_le].
  all: try (destruct (_ ?= _)%Q eqn:E; try discriminate; intros _;
            apply Qnot_lt_le; intros Hlt;
            apply (proj1 (Qlt_alt _ _)) in Hlt; congruence).
  all: unfold String.ltb; rewrite String.compare_antisym;
    destruct (String.compare _ _); simpl; congruence.
Qed.

Lemma comparator_nonpos (key : Payments.PaymentKey) (dir : Payments.Direction)
    (a b : Payments.Payment) :
  Payments.comparator key dir a b <= 0 -> orderedBy key dir a b.
Proof.
  unfold Payments.comparator, orderedBy.
  destruct (JS.lt (Payments.get a key) (Payments.get b key)) eqn:Elt.
  - destruct dir; [intros _; apply JS_lt_Value_le; exact Elt | lia].
  - destruct (JS.gt (Payments.get a key) (Payments.get b key)) eqn:Egt.
    + destruct dir; [lia | intros _; apply JS_lt_Value_le; exact Egt].
    + intros _. destruct dir.
      * apply JS_not_gt_Value_le; [do 3 eexists; split; reflexivity | exact Egt].
      * apply JS_not_gt_Value_le; [do 3 eexists; split; reflexivity | exact Elt].
Qed.

Lemma comparator_pos (key : Payments.PaymentKey) (dir : Payments.Direction)
    (a b : Payments.Payment) :
  0 < Payments.comparator key dir a b -> orderedBy key dir b a.
Proof.
  unfold Payments.comparator, orderedBy.
  destruct (JS.lt (Payments.get a key) (Payments.get b key)) eqn:Elt.
  - destruct dir; [lia | intros _; apply JS_lt_Value_le; exact Elt].
  - destruct (JS.gt (Payments.get a key) (Payments.get b key)) eqn:Egt.
    + destruct dir; [intros _; apply JS_lt_Value_le; exact Egt | lia].
    + lia.
Qed.

Lemma orderedBy_trans (key : Payments.PaymentKey) (dir : Payments.Direction)
    (a b c : Payments.Payment) :
  orderedBy key dir a b -> orderedBy key dir b c -> orderedBy key dir a c.
Proof.
  unfold orderedBy. destruct dir; intros H1 H2.
  - exact (Value_le_trans _ _ _ H1 H2).
  - exact (Value_le_trans _ _ _ H2 H1).
Qed.

Lemma keyEqb_eq (a b : Payments.PaymentKey) : Payments.keyEqb a b = true <-> a = b.
Proof. destruct a, b; simpl; split; congruence. Qed.

(** C2. The sort step on a selected field returns a permutation of its list
    in which every payment stands before the payments that follow it in the
    order of that field, ascending for 'asc' and descending for 'desc'.  A
    sort request on a field makes that field the key, with direction 'desc'
    exactly when the field was already the key in direction 'asc' and 'asc'
    otherwise, and re-sorts the displayed list.  Nothing is stated on the
    order of payments equal on the field. *)
Theorem sort_step_orders_by_selected_field :
  (forall (items : list Payments.Payment) (key : Payments.PaymentKey)
          (direction : Payments.Direction),
      let sorted :=
        Payments.sortItems items (Payments.SortConfig.mk (Some key) direction) in
      Permutation sorted items
      /\ StronglySorted (orderedBy key direction) sorted)
  /\
  (forall (w : World Payments.State) (key : Payments.PaymentKey),
      let old := Payments.sortConfig (page w) in
      let w' := exec (Payments.requestSort key) w in
      let new := Payments.sortConfig (page w') in
      Payments.SortConfig.key new = Some key
      /\ (Payments.SortConfig.key old = Some key
          /\ Payments.SortConfig.direction old = Payments.asc ->
          Payments.SortConfig.direction new = Payments.desc)
      /\ (~ (Payments.SortConfig.key old = Some key
             /\ Payments.SortConfig.direction old = Payments.asc) ->
          Payments.SortConfig.direction new = Payments.asc)
      /\ Payments.filteredPayments (page w') =
         Payments.sortItems (Payments.filteredPayments (page w)) new).
Proof.
  split.
  - intros items key direction. cbv zeta. unfold Payments.sortItems. simpl. split.
    + apply sort_Permutation.
    + apply sort_StronglySorted.
      * apply comparator_nonpos.
      * apply comparator_pos.
      * apply orderedBy_trans.
  - intros w key. cbv zeta. unfold exec, Payments.requestSort, bind, getState. simpl.
    split; [reflexivity|]. split; [|split; [|reflexivity]].
    + intros [Hk Hd]. rewrite Hk, Hd.
      rewrite (proj2 (keyEqb_eq key key) eq_refl). reflexivity.
    + intros Hnot.
      destruct (Payments.SortConfig.key (Payments.sortConfig (page w))) as [k|];
        [|reflexivity].
      destruct (Payments.keyEqb k key) eqn:Ek; [|reflexivity].
      apply keyEqb_eq in Ek. subst k.
      destruct (Payments.SortConfig.direction (Payments.sortConfig (page w)));
        [|reflexivity].
      exfalso. apply Hnot. split; reflexivity.
Qed.

(** ** Filtering *)

Lemma prefix_iff (t s : string) :
  prefix t s = true <-> exists post, s = t ++ post.
Proof.
  revert s. induction t as [|c t IH]; intros s; simpl.
  - split; [intros _; exists s; reflexivity | destruct s; reflexivity].
  - destruct s as [|d s]; simpl.
    + split; [discriminate | intros [post H]; discriminate].
    + destruct (ascii_dec c d) as [->|N].
      * rewrite IH. split; intros [post H]; exists post; congruence.
      * split; [discriminate | intros [post H]; congruence].
Qed.

(** [includes] finds exactly the contiguous occurrences. *)
Lemma includes_iff (s t : string) :
  JS.includes s t = true <-> exists pre post, s = pre ++ t ++ post.
Proof.
  induction s as [|c s IH].
  - change (JS.includes "" t) with (if prefix t "" then true else false).
    destruct (prefix t "") eqn:P.
    + split; [intros _|reflexivity].
      apply prefix_iff in P. destruct P as [post P]. exists "", post. exact P.
    + split; [discriminate|]. intros (pre & post & H).
      destruct pre; [|discriminate]. simpl in H.
      assert (P' : prefix t "" = true) by (apply prefix_iff; exists post; exact H).
      congruence.
  - change (JS.includes (String c s) t)
      with (if prefix t (String c s) then true else JS.includes s t).
    destruct (prefix t (String c s)) eqn:P.
    + split; [intros _|reflexivity].
      apply prefix_iff in P. destruct P as [post P]. exists "", post. exact P.
    + rewrite IH. split.
      * intros (pre & post & H). exists (String c pre), post. simpl. congruence.
      * intros (pre & post & H). destruct pre as [|d pre]; simpl in H.
        -- assert (P' : prefix t (String c s) = true)
             by (apply prefix_iff; exists post; exact H).
           congruence.
        -- exists pre, post. congruence.
Qed.

Lemma toLowerCase_app (a b : string) :
  JS.toLowerCase (a ++ b) = JS.toLowerCase a ++ JS.toLowerCase b.
Proof. induction a as [|c a IH]; simpl; [reflexivity | rewrite IH; reflexivity]. Qed.

Lemma toLowerCase_split (s x y : string) :
  JS.toLowerCase s = x ++ y ->
  exists a b, s = a ++ b /\ JS.toLowerCase a = x /\ JS.toLowerCase b = y.
Proof.
  revert s. induction x as [|c x IH]; intros s H; simpl in H.
  - exists "", s. auto.
  - destruct s as [|d s]; simpl in H; [discriminate|].
    injection H as Hc Hs. destruct (IH s Hs) as (a & b & -> & Ha & Hb).
    exists (String d a), b. simpl. rewrite Ha, Hc. auto.
Qed.

(** The text match holds exactly when the field holds a run of characters
    equal to the term up to letter case. *)
Lemma matchesIgnoringCase_iff (field term : string) :
  matchesIgnoringCase field term = true <->
  exists pre run post,
    field = pre ++ run ++ post /\ JS.toLowerCase run = JS.toLowerCase term.
Proof.
  unfold matchesIgnoringCase. rewrite includes_iff. split.
  - intros (x & z & H).
    destruct (toLowerCase_split _ _ _ H) as (pre & rest & -> & _ & Hrest).
    destruct (toLowerCase_split _ _ _ Hrest) as (run & post & -> & Hrun & _).
    exists pre, run, post. auto.
  - intros (pre & run & post & -> & Hrun).
    exists (JS.toLowerCase pre), (JS.toLowerCase post).
    rewrite !toLowerCase_app, Hrun. reflexivity.
Qed.

Lemma filter_filter {A : Type} (p q : A -> bool) (l : list A) :
  filter q (filter p l) = filter (fun x => p x && q x) l.
Proof.
  induction l as [|x l IH]; simpl; trivial.
  destruct (p x); simpl; [destruct (q x)|]; rewrite IH; reflexivity.
Qed.

Lemma filter_true {A : Type} (l : list A) : filter (fun _ => true) l = l.
Proof. induction l as [|x l IH]; simpl; congruence. Qed.

(** A filter applied under a switch is one filter with the switch in its
    predicate. *)
Lemma filter_when {A : Type} (on : bool) (p : A -> bool) (l : list A) :
  (if on then filter p l else l) = filter (fun x => negb on || p x) l.
Proof.
  destruct on; simpl; [reflexivity | symmetry; apply filter_true].
Qed.

Lemma truthy_not_empty (s : string) : JS.truthy s = negb (String.eqb s "").
Proof. destruct s; reflexivity. Qed.

Lemma members_filterEffect_list (w : World Members.State) :
  Members.filteredMembers (page (exec Members.filterEffect w)) =
  let st := page w in
  let term := JS.toLowerCase (Members.searchTerm st) in
  filter (fun member =>
            (negb (negb (String.eqb (Members.statusFilter st) "All"))
             || String.eqb (Members.membershipStatus member) (Members.statusFilter st))
            && (negb (JS.truthy (Members.searchTerm st))
                || (JS.includes (JS.toLowerCase (Members.name member)) term
                    || JS.includes (JS.toLowerCase (Members.email member)) term
                    || JS.includes (Members.phone member) term)))
         (Members.members st).
Proof.
  unfold exec, Members.filterEffect, bind, getState. simpl.
  rewrite (filter_when (negb _)), (filter_when (JS.truthy _)), filter_filter.
  reflexivity.
Qed.

Lemma trainers_filterEffect_list (w : World Trainers.State) :
  Trainers.filteredTrainers (page (exec Trainers.filterEffect w)) =
  let st := page w in
  let term := JS.toLowerCase (Trainers.searchTerm st) in
  filter (fun trainer =>
            negb (JS.truthy (Trainers.searchTerm st))
            || (JS.includes (JS.toLowerCase (Trainers.name trainer)) term
                || JS.includes (JS.toLowerCase (Trainers.email trainer)) term
                || existsb (fun s => JS.includes (JS.toLowerCase s) term)
                           (Trainers.specialties trainer)))
         (Trainers.trainers st).
Proof.
  unfold exec, Trainers.filterEffect, bind, getState. cbv zeta.
  rewrite <- (filter_when (JS.truthy _)).
  destruct (JS.truthy (Trainers.searchTerm (page w))); reflexivity.
Qed.

Lemma payments_applyFilters_list (Number_toString : Q -> string)
    (w : World Payments.State) :
  Payments.filteredPayments (page (exec (Payments.applyFilters Number_toString) w)) =
  let st := page w in
  let term := JS.toLowerCase (Payments.searchTerm st) in
  Payments.sortItems
    (filter (fun payment =>
               (negb (negb (String.eqb (Payments.statusFilter st) "All"))
                || String.eqb (Payments.status payment) (Payments.statusFilter st))
               && (negb (JS.truthy (Payments.searchTerm st))
                   || (match JS.find (fun m => Payments.Member.id m
                                               =? Payments.memberId payment)
                                     (Payments.members st) with
                       | Some m => JS.includes (JS.toLowerCase (Payments.Member.name m)) term
                       | None => false
                       end
                       || match JS.find (fun m => Payments.Member.id m
                                                  =? Payments.memberId payment)
                                        (Payments.members st) with
                          | Some m =>
                              JS.includes (JS.toLowerCase (Payments.Member.email m)) term
                          | None => false
                          end
                       || JS.includes (Number_toString (Payments.amount payment)) term
                       || JS.includes (JS.toLowerCase (Payments.method payment)) term)))
            (Payments.payments st))
    (Payments.sortConfig st).
Proof.
  unfold exec, Payments.applyFilters, bind, getState. simpl.
  rewrite (filter_when (negb _)), (filter_when (JS.truthy _)), filter_filter.
  reflexivity.
Qed.

(** C1, as the code has it by design.  Once the filter step of a page has
    run, the displayed list is the fetched collection under one filter: the
    status equality (off for "All") joined with the match of the term,
    ignoring case, in one of the strings the page searches (off for an empty
    term).  Members: name, email and phone, in the collection's order; this
    is stated for collections whose phones hold no capital letter, and how a
    phone with a capital is matched is left open.  Trainers: no status; name,
    email and each specialty, in the collection's order.  Payments: the name
    and email of the referenced member, the amount's rendering (one without
    capital letters) and the method; the filtered list is then sorted by
    the current sort configuration. *)
Theorem displayed_list_is_the_filtered_collection :
  (forall w : World Members.State,
      let st := page w in
      Forall (fun m => JS.toLowerCase (Members.phone m) = Members.phone m)
             (Members.members st) ->
      Members.filteredMembers (page (exec Members.filterEffect w)) =
      membersListAsWorded (Members.members st) (Members.searchTerm st)
        (Members.statusFilter st))
  /\
  (forall w : World Trainers.State,
      let st := page w in
      let term := Trainers.searchTerm st in
      Trainers.filteredTrainers (page (exec Trainers.filterEffect w)) =
      filter (fun t =>
                String.eqb term ""
                || matchesIgnoringCase (Trainers.name t) term
                || matchesIgnoringCase (Trainers.email t) term
                || existsb (fun s => matchesIgnoringCase s term) (Trainers.specialties t))
             (Trainers.trainers st))
  /\
  (forall (Number_toString : Q -> string) (w : World Payments.State),
      let st := page w in
      Forall (fun p => JS.toLowerCase (Number_toString (Payments.amount p))
                       = Number_toString (Payments.amount p))
             (Payments.payments st) ->
      Payments.filteredPayments (page (exec (Payments.applyFilters Number_toString) w)) =
      Payments.sortItems
        (paymentsListAsWorded Number_toString (Payments.payments st) (Payments.members st)
           (Payments.searchTerm st) (Payments.statusFilter st))
        (Payments.sortConfig st)).
Proof.
  split; [|split].
  - intros w. cbv zeta. intros Hphones. rewrite members_filterEffect_list. cbv zeta.
    unfold membersListAsWorded. apply filter_ext_in. intros m Hm.
    rewrite Forall_forall in Hphones. specialize (Hphones m Hm).
    rewrite negb_involutive, truthy_not_empty, negb_involutive.
    unfold matchesIgnoringCase. rewrite Hphones, !orb_assoc. reflexivity.
  - intros w. cbv zeta. rewrite trainers_filterEffect_list. cbv zeta.
    apply filter_ext. intros t.
    rewrite truthy_not_empty, negb_involutive.
    unfold matchesIgnoringCase. rewrite !orb_assoc. reflexivity.
  - intros Number_toString w. cbv zeta. intros Hamounts.
    rewrite payments_applyFilters_list. cbv zeta.
    unfold paymentsListAsWorded. f_equal. apply filter_ext_in. intros p Hp.
    rewrite Forall_forall in Hamounts. specialize (Hamounts p Hp).
    rewrite negb_involutive, truthy_not_empty, negb_involutive.
    unfold matchesIgnoringCase. rewrite Hamounts.
    destruct (JS.find _ (Payments.members (page w))) as [m|];
      rewrite ?orb_false_r, ?orb_false_l, !orb_assoc; reflexivity.
Qed.

Lemma displayed_list_is_the_filtered_collection_witness :
  Members.filteredMembers (page (exec Members.filterEffect SampleSearch.digitsPhonePage))
  = [Sample.ann]
  /\ Payments.filteredPayments
       (page (exec (Payments.applyFilters SampleSearch.wholeAmountToString)
                   SampleSearch.cashPage))
     = [SampleSearch.february].
Proof.
  destruct displayed_list_is_the_filtered_collection as (HM & _ & HP).
  split.
  - apply (HM SampleSearch.digitsPhonePage). repeat constructor.
  - apply (HP SampleSearch.wholeAmountToString SampleSearch.cashPage). repeat constructor.
Defined.

(** C1 as worded fails.  Members page: Bob's phone "555-GYM1" holds the term
"gym" up to letter case, yet the page does not list him.  Payments page:
with no term and status "All" the displayed list is not the collection as
fetched but the collection sorted by date, newest first. *)
Lemma displayed_list_differs_from_the_worded_filter :
  (let st := page SampleSearch.membersPage in
   let displayed :=
     Members.filteredMembers (page (exec Members.filterEffect SampleSearch.membersPage)) in
   let worded :=
     membersListAsWorded (Members.members st) (Members.searchTerm st)
       (Members.statusFilter st) in
   displayed = [] /\ worded = [Sample.bob] /\ displayed <> worded)
  /\
  (let st := page SampleSearch.paymentsPage in
   let displayed :=
     Payments.filteredPayments
       (page (exec (Payments.applyFilters SampleSearch.wholeAmountToString)
                   SampleSearch.paymentsPage)) in
   let worded :=
     paymentsListAsWorded SampleSearch.wholeAmountToString (Payments.payments st)
       (Payments.members st) (Payments.searchTerm st) (Payments.statusFilter st) in
   displayed = [SampleSearch.february; SampleSearch.january]
   /\ worded = [SampleSearch.january; SampleSearch.february]
   /\ displayed <> worded).
Proof.
  split; cbv zeta.
  - split; [reflexivity|]. split; [reflexivity|]. discriminate.
  - split; [reflexivity|]. split; [reflexivity|]. discriminate.
Qed.

(** ** Enrollment percentage *)

Section Rounding.
Local Open Scope Q_scope.

Lemma inject_Z_lt_succ (a b : Z) : inject_Z a < inject_Z b + 1 -> inject_Z a <= inject_Z b.
Proof.
intros H. rewrite <- Zle_Qle.
change 1 with (inject_Z 1) in H. rewrite <- inject_Z_plus, <- Zlt_Qlt in H. lia.
Qed.

Lemma inject_Z_sub (a b : Z) : inject_Z (a - b) = inject_Z a - inject_Z b.
Proof. unfold Z.sub, Qminus. rewrite inject_Z_plus, inject_Z_opp. reflexivity. Qed.

(** An integer [n] with [n <= p + 1/2 < n + 1], for [p] within [d] of the
  fraction [X / c] with [2 |c| d < 1], is within 1/2 of [X / c]. *)
Lemma round_of_near_fraction (n X c : Z) (p d x : Q) :
c <> 0%Z ->
x * inject_Z c == inject_Z X ->
inject_Z n <= p + (1 # 2) -> p + (1 # 2) < inject_Z n + 1 ->
- d <= p - x -> p - x <= d ->
2 * d * inject_Z (Z.abs c) < 1 ->
Qabs (inject_Z n - x) <= 1 # 2.
Proof.
intros Hc Hx Hlo Hhi Hd1 Hd2 Hd.
set (m := Z.abs c) in *.
assert (Hm : (0 < m)%Z) by (unfold m; lia).
assert (HmQ : 0 < inject_Z m) by (change 0 with (inject_Z 0); rewrite <- Zlt_Qlt; exact Hm).
(* |c| * x is the integer Y/1 with Y = sgn c * X *)
set (Y := (Z.sgn c * X)%Z).
assert (HY : x * inject_Z m == inject_Z Y).
{ unfold Y, m. clear Hd. rewrite inject_Z_mult, <- Hx.
  destruct c as [|pc|pc]; [congruence| |]; simpl Z.abs; simpl Z.sgn.
  - change (inject_Z 1) with 1. ring.
  - change (Z.neg pc) with (- Z.pos pc)%Z. rewrite inject_Z_opp.
    change (inject_Z (-1)) with (-(1)). ring. }
(* scaled bounds, then integrality *)
assert (Hup : inject_Z (2 * n * m - 2 * Y) < inject_Z m + 1).
{ rewrite inject_Z_sub, !inject_Z_mult, <- HY. change (inject_Z 2) with 2.
  assert (0 <= (d + (1 # 2) - (inject_Z n - x)) * inject_Z m)
    by (apply Qmult_le_0_compat; lra).
  nra. }
assert (Hdn : inject_Z (2 * Y - 2 * n * m) < inject_Z m + 1).
{ rewrite inject_Z_sub, !inject_Z_mult, <- HY. change (inject_Z 2) with 2.
  assert (0 <= (d + (1 # 2) - (x - inject_Z n)) * inject_Z m)
    by (apply Qmult_le_0_compat; lra).
  nra. }
apply inject_Z_lt_succ in Hup, Hdn.
rewrite inject_Z_sub, !inject_Z_mult, <- HY in Hup, Hdn.
change (inject_Z 2) with 2 in Hup, Hdn.
apply Qabs_Qle_condition. split.
- apply Qmult_le_r with (z := 2 * inject_Z m); [lra|]. nra.
- apply Qmult_le_r with (z := 2 * inject_Z m); [lra|]. nra.
Qed.

(** Two rounded operations, each with relative error at most [u], leave the
  product within [300 u |q0|] of [100 q0]. *)
Lemma error_propagation (fl : Q -> Q) (u q0 : Q) :
0 <= u -> u <= 1 ->
(forall y, Qabs (fl y - y) <= u * Qabs y) ->
Qabs (fl (fl q0 * 100) - 100 * q0) <= 300 * u * Qabs q0.
Proof.
intros Hu0 Hu1 Hfl.
pose proof (Hfl q0) as H1. pose proof (Hfl (fl q0 * 100)) as H2.
set (q1 := fl q0) in *. set (p := fl (q1 * 100)) in *.
assert (Ha : 0 <= Qabs q0) by apply Qabs_nonneg.
assert (Hq1 : Qabs q1 <= Qabs q0 + u * Qabs q0).
{ setoid_replace q1 with (q0 + (q1 - q0)) by ring.
  eapply Qle_trans; [apply Qabs_triangle|].
  apply Qplus_le_r. exact H1. }
assert (H100 : Qabs (q1 * 100) == 100 * Qabs q1).
{ rewrite Qabs_Qmult. change (Qabs 100) with 100. ring. }
rewrite H100 in H2.
assert (Hb : 0 <= Qabs q1) by apply Qabs_nonneg.
apply Qabs_Qle_condition in H1, H2. apply Qabs_Qle_condition.
set (a := Qabs q0) in *. set (b := Qabs q1) in *.
assert (Hub : u * b <= u * (a + u * a)) by nra.
assert (Hua : u * (u * a) <= u * a) by nra.
assert (0 <= u * a) by nra.
split; nra.
Qed.

(** [binary64] is within a relative error of 2^-53. *)
Lemma pow2_pos (k : Z) : 0 < JS.pow2 k.
Proof. apply Qpower_0_lt. reflexivity. Qed.

Lemma pow2_inject (k : Z) : (0 <= k)%Z -> JS.pow2 k == inject_Z (2 ^ k).
Proof. intros Hk. unfold JS.pow2. rewrite Zpower_Qpower by exact Hk. reflexivity. Qed.

Lemma roundHalfEven_error (t : Q) : Qabs (inject_Z (JS.roundHalfEven t) - t) <= 1 # 2.
Proof.
  unfold JS.roundHalfEven.
  pose proof (Qfloor_le t) as Hlo. pose proof (Qlt_floor t) as Hhi.
  rewrite inject_Z_plus in Hhi. change (inject_Z 1) with 1 in Hhi.
  set (f := Qfloor t) in *.
  apply Qabs_Qle_condition.
  destruct (t - inject_Z f ?= 1 # 2) eqn:E.
  - apply Qeq_alt in E.
    destruct (Z.even f); [|rewrite inject_Z_plus; change (inject_Z 1) with 1];
      split; lra.
  - apply Qlt_alt in E. split; lra.
  - apply Qgt_alt in E. rewrite inject_Z_plus. change (inject_Z 1) with 1.
    split; lra.
Qed.

Lemma ilog2_lower (a : Q) : 0 < a -> JS.pow2 (JS.ilog2 a) <= a.
Proof.
  intros Ha. unfold JS.ilog2.
  set (n := Qnum a). set (d := Zpos (Qden a)).
  destruct (Qle_bool (JS.pow2 (Z.log2 n - Z.log2 d)) a) eqn:E.
  - apply Qle_bool_iff. exact E.
  - clear E.
    assert (Hn : (0 < n)%Z).
    { unfold n. destruct a as [an ad]. unfold Qlt in Ha. simpl in *. lia. }
    assert (Hd : (0 < d)%Z) by (unfold d; lia).
    destruct (Z.log2_spec n Hn) as [Hn1 _].
    destruct (Z.log2_spec d Hd) as [_ Hd2].
    pose proof (Z.log2_nonneg n) as Hln. pose proof (Z.log2_nonneg d) as Hld.
    replace (Z.log2 n - Z.log2 d - 1)%Z with (Z.log2 n - Z.succ (Z.log2 d))%Z by lia.
    unfold JS.pow2. rewrite Qpower_minus by discriminate.
    fold (JS.pow2 (Z.log2 n)). fold (JS.pow2 (Z.succ (Z.log2 d))).
    rewrite !pow2_inject by lia.
    assert (Hx : inject_Z (2 ^ Z.log2 n) <= inject_Z n) by (rewrite <- Zle_Qle; exact Hn1).
    assert (Hy : inject_Z d <= inject_Z (2 ^ Z.succ (Z.log2 d)))
      by (rewrite <- Zle_Qle; lia).
    assert (HdQ : 0 < inject_Z d)
      by (change 0 with (inject_Z 0); rewrite <- Zlt_Qlt; exact Hd).
    assert (Hx0 : 0 < inject_Z (2 ^ Z.log2 n)).
    { change 0 with (inject_Z 0). rewrite <- Zlt_Qlt. apply Z.pow_pos_nonneg; lia. }
    assert (Haq : a == inject_Z n / inject_Z d).
    { unfold n, d. destruct a as [an ad]. simpl. apply Qmake_Qdiv. }
    rewrite Haq.
    set (X := inject_Z (2 ^ Z.log2 n)) in *. set (Y := inject_Z (2 ^ Z.succ (Z.log2 d))) in *.
    set (N := inject_Z n) in *. set (D := inject_Z d) in *.
    apply Qle_shift_div_l; [exact HdQ|].
    apply Qle_trans with (X / Y * Y).
    + apply Qmult_le_l; [|exact Hy].
      apply Qlt_shift_div_l; lra.
    + setoid_replace (X / Y * Y) with X by (field; lra). exact Hx.
Qed.

Lemma binary64_error (y : Q) : Qabs (JS.binary64 y - y) <= (1 # 2 ^ 53) * Qabs y.
Proof.
  unfold JS.binary64.
  destruct (Qeq_bool y 0) eqn:E0.
  - apply Qeq_bool_iff in E0. rewrite E0. discriminate.
  - apply Qeq_bool_neq in E0.
    set (a := Qabs y).
    assert (Ha : 0 < a).
    { unfold a. destruct (Qlt_le_dec 0 (Qabs y)) as [H|H]; trivial.
      exfalso. apply E0.
      apply Qabs_Qle_condition in H. destruct H as [H1 H2].
      apply Qle_antisym; [exact H2 | exact H1]. }
    set (e := (JS.ilog2 a - 52)%Z).
    set (P := JS.pow2 e).
    assert (HP : 0 < P) by apply pow2_pos.
    set (t := a / P).
    pose proof (roundHalfEven_error t) as Hm.
    set (m := inject_Z (JS.roundHalfEven t)) in *.
    assert (Hbig : P * (2 ^ 52 # 1) <= a).
    { pose proof (ilog2_lower a Ha) as Hl.
      replace (JS.ilog2 a) with (e + 52)%Z in Hl by (unfold e; lia).
      unfold JS.pow2 in Hl. rewrite Qpower_plus in Hl by discriminate.
      fold (JS.pow2 e) in Hl. fold P in Hl.
      exact Hl. }
    assert (Hr : Qabs (m * P - a) <= (1 # 2 ^ 53) * a).
    { assert (Ht : t * P == a) by (unfold t; field; lra).
      apply Qabs_Qle_condition in Hm. apply Qabs_Qle_condition.
      change (2 ^ 52 # 1) with 4503599627370496 in Hbig.
      change (1 # 2 ^ 53) with (1 # 9007199254740992).
      assert (0 <= ((1 # 2) - (m - t)) * P) by (apply Qmult_le_0_compat; lra).
      assert (0 <= ((1 # 2) + (m - t)) * P) by (apply Qmult_le_0_compat; lra).
      split; nra. }
    destruct (Z.ltb_spec 0 (Qnum y)) as [Hpos|Hneg].
    + assert (Hy : a == y).
      { unfold a. apply Qabs_pos. unfold Qle. simpl. lia. }
      setoid_replace (m * P - y) with (m * P - a) by (rewrite Hy; ring). exact Hr.
    + assert (Hy : a == - y).
      { unfold a. apply Qabs_neg. unfold Qle. simpl. lia. }
      setoid_replace (- (m * P) - y) with (- (m * P - a)) by (rewrite Hy; ring).
      rewrite Qabs_opp. exact Hr.
Qed.

End Rounding.

Lemma Qabs_inject_Z (z : Z) : Qabs (inject_Z z) = inject_Z (Z.abs z).
Proof. reflexivity. Qed.

Lemma enrollmentPercentage_finite (fl : Q -> Q) (enrolled capacity : Z) :
  capacity <> 0 ->
  Schedule.enrollmentPercentage fl enrolled capacity =
  JS.Finite
    (inject_Z
       (Qfloor (fl (fl (inject_Z enrolled / inject_Z capacity) * 100) + (1 # 2))%Q)).
Proof.
  intros Hc. unfold Schedule.enrollmentPercentage, JS.div, JS.ofInt.
  destruct (Qeq_bool (inject_Z capacity) 0) eqn:E.
  - apply Qeq_bool_iff in E. change 0%Q with (inject_Z 0) in E.
    apply (proj1 (inject_Z_injective _ _)) in E. contradiction.
  - reflexivity.
Qed.

Section NearestInteger.
Variable fl : Q -> Q.
Variable d : Q -> Q.
(** [d q0] bounds the distance from the rounded product to [100 q0]. *)
Hypothesis fl_close :
  forall q0 : Q, (Qabs (fl (fl q0 * 100) - 100 * q0) <= d q0)%Q.

Lemma enrollmentPercentage_within_half (enrolled capacity : Z) :
  capacity <> 0 ->
  (2 * d (inject_Z enrolled / inject_Z capacity) * inject_Z (Z.abs capacity) < 1)%Q ->
  exists n : Z,
    Schedule.enrollmentPercentage fl enrolled capacity = JS.Finite (inject_Z n)
    /\ (Qabs (inject_Z n - 100 * inject_Z enrolled / inject_Z capacity) <= 1 # 2)%Q.
Proof.
  intros Hc Hd.
  rewrite (enrollmentPercentage_finite fl enrolled capacity Hc).
  set (q0 := (inject_Z enrolled / inject_Z capacity)%Q) in *.
  set (p := fl (fl q0 * 100)%Q).
  exists (Qfloor (p + (1 # 2))%Q). split; [reflexivity|].
  assert (HcQ : ~ (inject_Z capacity == 0)%Q).
  { change 0%Q with (inject_Z 0). rewrite inject_Z_injective. exact Hc. }
  pose proof (fl_close q0) as Herr. fold p in Herr.
  apply Qabs_Qle_condition in Herr. destruct Herr as [Hlo Hhi].
  assert (Hx : (100 * inject_Z enrolled / inject_Z capacity == 100 * q0)%Q).
  { unfold q0. field. exact HcQ. }
  apply (round_of_near_fraction _ (100 * enrolled) capacity p (d q0)); trivial.
  - rewrite inject_Z_mult. change (inject_Z 100) with 100%Q. field. exact HcQ.
  - apply Qfloor_le.
  - change 1%Q with (inject_Z 1). rewrite <- inject_Z_plus. apply Qlt_floor.
  - rewrite Hx. exact Hlo.
  - rewrite Hx. exact Hhi.
Qed.
End NearestInteger.

Lemma binary64_is_close (q0 : Q) :
  (Qabs (JS.binary64 (JS.binary64 q0 * 100) - 100 * q0)
   <= 300 * (1 # 2 ^ 53) * Qabs q0)%Q.
Proof.
  apply error_propagation; [discriminate | discriminate | apply binary64_error].
Qed.

(** C10, as the code computes it.  With a capacity other than zero and an
enrolment below 2^53 / 600 in size, [enrollmentPercentage] returns an
integer within one half of [100 * enrolled / capacity], that is a nearest
integer ([Math.round] sends a tie up); the division and the multiplication
are those of binary64.  With capacity zero the division is carried out all
the same and the result is no integer: NaN for 0 / 0, an infinity
otherwise. *)
Theorem enrollmentPercentage_nearest_integer :
  (forall enrolled capacity : Z,
      capacity <> 0 ->
      600 * Z.abs enrolled < 2 ^ 53 ->
      exists n : Z,
        Schedule.enrollmentPercentage JS.binary64 enrolled capacity
        = JS.Finite (inject_Z n)
        /\ (Qabs (inject_Z n - 100 * inject_Z enrolled / inject_Z capacity) <= 1 # 2)%Q)
  /\
  (forall (fl : Q -> Q) (enrolled : Z),
      Schedule.enrollmentPercentage fl enrolled 0 =
      if enrolled =? 0 then JS.NaN
      else if 0 <? enrolled then JS.Infinity else JS.NegInfinity).
Proof.
  split.
  - intros enrolled capacity Hc Hsmall.
    apply (enrollmentPercentage_within_half JS.binary64
             (fun q0 => 300 * (1 # 2 ^ 53) * Qabs q0)%Q binary64_is_close); trivial.
    set (q0 := (inject_Z enrolled / inject_Z capacity)%Q).
    assert (HcQ : ~ (inject_Z capacity == 0)%Q).
    { change 0%Q with (inject_Z 0). rewrite inject_Z_injective. exact Hc. }
    assert (Habs : (Qabs q0 * inject_Z (Z.abs capacity) == inject_Z (Z.abs enrolled))%Q).
    { rewrite <- !Qabs_inject_Z, <- Qabs_Qmult. apply Qabs_wd.
      unfold q0. field. exact HcQ. }
    assert (HsmallQ : (inject_Z (600 * Z.abs enrolled) < inject_Z (2 ^ 53))%Q)
      by (rewrite <- Zlt_Qlt; exact Hsmall).
    rewrite inject_Z_mult in HsmallQ. rewrite <- Habs in HsmallQ.
    change (inject_Z 600) with 600%Q in HsmallQ.
    change (inject_Z (2 ^ 53)) with (9007199254740992 # 1)%Q in HsmallQ.
    change (1 # 2 ^ 53)%Q with (1 # 9007199254740992)%Q.
    set (t := (Qabs q0 * inject_Z (Z.abs capacity))%Q) in *.
    setoid_replace (2 * (300 * (1 # 9007199254740992) * Qabs q0)
                    * inject_Z (Z.abs capacity))%Q
      with ((600 # 9007199254740992) * t)%Q by (unfold t; ring).
    lra.
  - intros fl enrolled. unfold Schedule.enrollmentPercentage, JS.div, JS.ofInt.
    change (Qeq_bool (inject_Z 0) 0) with true. cbv iota.
    unfold Qcompare. simpl Qnum. simpl Qden. rewrite !Z.mul_1_r.
    destruct (Z.compare_spec enrolled 0) as [->|Hlt|Hgt].
    + reflexivity.
    + destruct (Z.eqb_spec enrolled 0); [lia|].
      destruct (Z.ltb_spec 0 enrolled); [lia|]. reflexivity.
    + destruct (Z.eqb_spec enrolled 0); [lia|].
      destruct (Z.ltb_spec 0 enrolled); [|lia]. reflexivity.
Qed.

Lemma enrollmentPercentage_nearest_integer_witness :
  exists n : Z,
    Schedule.enrollmentPercentage JS.binary64 29 200 = JS.Finite (inject_Z n)
    /\ (Qabs (inject_Z n - 100 * inject_Z 29 / inject_Z 200) <= 1 # 2)%Q.
Proof.
  apply (proj1 enrollmentPercentage_nearest_integer 29 200);
    [discriminate | reflexivity].
Defined.

(** C10 as worded fails for a large enrolment.  With 26617541495581 enrolled
of 79455347748003 the quotient is rounded, its product with 100 is rounded
again and lands on 33.5, which [Math.round] sends to 34; the exact value
lies below 33.5, so the nearest integer is 33 and 34 is more than one half
away. *)
Lemma enrollmentPercentage_far_for_large_enrolment :
  let enrolled := 26617541495581 in
  let capacity := 79455347748003 in
  let exactly := (100 * inject_Z enrolled / inject_Z capacity)%Q in
  capacity <> 0
  /\ Schedule.enrollmentPercentage JS.binary64 enrolled capacity = JS.Finite (inject_Z 34)
  /\ ~ (Qabs (inject_Z 34 - exactly) <= 1 # 2)%Q
  /\ (Qabs (inject_Z 33 - exactly) <= 1 # 2)%Q
  /\ ~ (600 * Z.abs enrolled < 2 ^ 53).
Proof.
  cbv zeta. split; [discriminate|]. split; [vm_compute; reflexivity|].
  split; [|split].
  - intros H. apply Qle_bool_iff in H. vm_compute in H. discriminate.
  - apply Qle_bool_iff. vm_compute. reflexivity.
  - intros H. vm_compute in H. discriminate.
Qed.

(** ** Runs on sample data *)

Example toLowerCase_run : JS.toLowerCase "Jane DOE" = "jane doe".
Proof. reflexivity. Qed.

Example includes_run :
  JS.includes "jane doe" "e d" = true /\ JS.includes "jane" "" = true
  /\ JS.includes "jane" "janet" = false.
Proof. repeat split. Qed.

Example split_run :
  JS.split ":" "09:30" = ["09"; "30"] /\ JS.split ":" "" = [""]
  /\ JS.split ":" "a:" = ["a"; ""].
Proof. repeat split. Qed.

Example parseInt_run :
  JS.parseInt "09" = Some 9 /\ JS.parseInt " -12px" = Some (-12)
  /\ JS.parseInt "px" = None /\ JS.parseInt "" = None.
Proof. repeat split. Qed.

Example intToString_run :
  JS.intToString 12 = "12" /\ JS.intToString 0 = "0" /\ JS.intToString (-5) = "-5".
Proof. repeat split. Qed.

Example sort_run : JS.sort Z.sub [3; 1; 2; 1] = [1; 1; 2; 3].
Proof. reflexivity. Qed.

Example formatTime_run :
  Schedule.formatTime "18:45" = "6:45 PM" /\ Schedule.formatTime "noon" = "12:undefined AM".
Proof. repeat split. Qed.

(** 29 of 200 is 14.5 percent: the engine computes 14.499999999999998 and
shows 14, one of the two nearest integers. *)
Example enrollmentPercentage_run :
  Schedule.enrollmentPercentage JS.binary64 15 20 = JS.Finite (inject_Z 75)
  /\ Schedule.enrollmentPercentage JS.binary64 1 8 = JS.Finite (inject_Z 13)
  /\ Schedule.enrollmentPercentage JS.binary64 29 200 = JS.Finite (inject_Z 14)
  /\ Schedule.enrollmentPercentage JS.binary64 3 0 = JS.Infinity
  /\ Schedule.enrollmentPercentage JS.binary64 0 0 = JS.NaN.
Proof. vm_compute. repeat split. Qed.

Example members_delete_run :
  Members.members
    (page (exec (Members.handleDelete true 1 (Resolved tt))
                (Sample.membersPage Sample.bobEdited false))) = [Sample.bob]
  /\ Members.members
       (page (exec (Members.handleDelete false 1 (Resolved tt))
                   (Sample.membersPage Sample.bobEdited false))) = [Sample.ann; Sample.bob].
Proof. repeat split. Qed.

Example sortItems_run :
  Payments.sortItems [SampleSearch.january; SampleSearch.february]
    (Payments.SortConfig.mk (Some Payments.key_amount) Payments.asc)
  = [SampleSearch.february; SampleSearch.january]
  /\ Payments.sortItems [SampleSearch.january; SampleSearch.february]
       (Payments.SortConfig.mk (Some Payments.key_method) Payments.desc)
     = [SampleSearch.january; SampleSearch.february]
  /\ Payments.sortItems [SampleSearch.february; SampleSearch.january]
       (Payments.SortConfig.mk None Payments.asc)
     = [SampleSearch.february; SampleSearch.january].
Proof. repeat split. Qed.

Example requestSort_run :
  let once := exec (Payments.requestSort Payments.key_amount) SampleSearch.paymentsPage in
  let twice := exec (Payments.requestSort Payments.key_amount) once in
  Payments.sortConfig (page once)
  = Payments.SortConfig.mk (Some Payments.key_amount) Payments.asc
  /\ Payments.sortConfig (page twice)
     = Payments.SortConfig.mk (Some Payments.key_amount) Payments.desc.
Proof. repeat split. Qed.

Example trainers_filter_run :
  let w := mkWorld (Trainers.mkState [Sample.kim] [] false "PILA" false
                      Sample.kimEdited false "" "") [] [] [] in
  Trainers.filteredTrainers (page (exec Trainers.filterEffect w)) = [Sample.kim].
Proof. reflexivity. Qed.

(** * Further properties of the pages *)

(** ** Collections under delete, update and create *)

Lemma StruckOut_refl {A : Type} (l : list A) : StruckOut l l.
Proof. induction l; constructor; assumption. Qed.

Lemma StruckOut_In {A : Type} (l l' : list A) :
  StruckOut l l' -> forall x, In x l' -> In x l.
Proof.
  induction 1 as [|x l l' _ IH|x l l' _ IH]; intros y Hy.
  - exact Hy.
  - destruct Hy as [->|Hy]; [left; reflexivity | right; apply IH; exact Hy].
  - right. apply IH. exact Hy.
Qed.

Lemma members_delete_collection (w : World Members.State) (confirmed : bool) (id0 : Z)
    (response : Response unit) :
  Members.members (page (exec (Members.handleDelete confirmed id0 response) w)) =
  match confirmed, response with
  | true, Resolved _ => filter (fun m => negb (Members.id m =? id0)) (Members.members (page w))
  | _, _ => Members.members (page w)
  end.
Proof. destruct confirmed, response as [[]|]; reflexivity. Qed.

Lemma trainers_delete_collection (w : World Trainers.State) (confirmed : bool) (id0 : Z)
    (response : Response unit) :
  Trainers.trainers (page (exec (Trainers.handleDelete confirmed id0 response) w)) =
  match confirmed, response with
  | true, Resolved _ =>
      filter (fun t => negb (Trainers.id t =? id0)) (Trainers.trainers (page w))
  | _, _ => Trainers.trainers (page w)
  end.
Proof. destruct confirmed, response as [[]|]; reflexivity. Qed.

(** X1. Whatever the answers of the dialog and of the backend, a delete never
adds or reorders a record and never loses a record with another id; when the
dialog is declined nothing at all happens: no call, no toast, no state
change.  Members and Trainers pages. *)
Theorem delete_only_ever_removes_the_given_id :
  (forall (w : World Members.State) (confirmed : bool) (id0 : Z)
          (response : Response unit),
      let w' := exec (Members.handleDelete confirmed id0 response) w in
      StruckOut (Members.members (page w)) (Members.members (page w'))
      /\ (forall m, In m (Members.members (page w)) -> Members.id m <> id0 ->
                    In m (Members.members (page w')))
      /\ (confirmed = false -> w' = w))
  /\
  (forall (w : World Trainers.State) (confirmed : bool) (id0 : Z)
          (response : Response unit),
      let w' := exec (Trainers.handleDelete confirmed id0 response) w in
      StruckOut (Trainers.trainers (page w)) (Trainers.trainers (page w'))
      /\ (forall t, In t (Trainers.trainers (page w)) -> Trainers.id t <> id0 ->
                    In t (Trainers.trainers (page w')))
      /\ (confirmed = false -> w' = w)).
Proof.
  split; intros w confirmed id0 response; cbv zeta.
  - rewrite members_delete_collection. split; [|split].
    + destruct confirmed, response; try apply StruckOut_refl. apply filter_StruckOut.
    + intros m Hin Hid. destruct confirmed, response; trivial.
      apply filter_other_ids_In. split; assumption.
    + intros ->. destruct w. reflexivity.
  - rewrite trainers_delete_collection. split; [|split].
    + destruct confirmed, response; try apply StruckOut_refl. apply filter_StruckOut.
    + intros t Hin Hid. destruct confirmed, response; trivial.
      apply filter_other_ids_In. split; assumption.
    + intros ->. destruct w. reflexivity.
Qed.

Lemma delete_only_ever_removes_the_given_id_witness :
  exec (Members.handleDelete false 1 (Resolved tt)) SampleMore.membersIdle
  = SampleMore.membersIdle.
Proof.
  apply (proj1 delete_only_ever_removes_the_given_id SampleMore.membersIdle false 1
           (Resolved tt)).
  reflexivity.
Defined.

Lemma map_id_replace {A : Type} (getId : A -> Z) (sel : A -> bool) (r : A -> A)
    (l : list A) :
  (forall x, sel x = true -> getId (r x) = getId x) ->
  map getId (map (fun x => if sel x then r x else x) l) = map getId l.
Proof.
  intros Hr. rewrite map_map. apply map_ext_in. intros x _.
  destruct (sel x) eqn:E; [apply Hr; exact E | reflexivity].
Qed.

(** Striking rows out keeps distinct ids distinct. *)
Lemma distinct_ids_after_filter {A : Type} (getId : A -> Z) (keep : A -> bool)
    (rows : list A) :
  NoDup (map getId rows) -> NoDup (map getId (filter keep rows)).
Proof.
  intros Hrows. induction rows as [|r rows IH]; simpl; [constructor|].
  simpl in Hrows. apply NoDup_cons_iff in Hrows. destruct Hrows as [Hfresh Hrest].
  destruct (keep r); simpl; [|apply IH; exact Hrest].
  apply NoDup_cons_iff. split; [|apply IH; exact Hrest].
  intros Hin. apply Hfresh. apply in_map_iff in Hin. destruct Hin as (z & Hz & Hin).
  apply in_map_iff. exists z. split; [exact Hz|].
  apply filter_In in Hin. tauto.
Qed.

Lemma members_update_collection (today in30Days : string) (w : World Members.State)
    (response : Response Members.Member) :
  Members.isEditing (page w) = true ->
  Members.members (page (exec (Members.handleSubmit today in30Days response) w)) =
  match response with
  | Resolved _ =>
      map (fun member =>
             match Members.MemberFormData.id (Members.memberForm (page w)) with
             | Some i => if Members.id member =? i
                         then Members.asMember i (Members.memberForm (page w))
                         else member
             | None => member
             end) (Members.members (page w))
  | Rejected => Members.members (page w)
  end.
Proof.
  intros He. unfold exec, Members.handleSubmit, bind, getState, try_catch.
  simpl. rewrite He. destruct response; reflexivity.
Qed.

Lemma trainers_update_collection (today : string) (w : World Trainers.State)
    (response : Response Trainers.Trainer) :
  Trainers.isEditing (page w) = true ->
  Trainers.trainers (page (exec (Trainers.handleSubmit today response) w)) =
  match response with
  | Resolved _ =>
      map (fun trainer =>
             match Trainers.TrainerFormData.id (Trainers.trainerForm (page w)) with
             | Some i => if Trainers.id trainer =? i
                         then Trainers.asTrainer i (Trainers.trainerForm (page w))
                         else trainer
             | None => trainer
             end) (Trainers.trainers (page w))
  | Rejected => Trainers.trainers (page w)
  end.
Proof.
  intros He. unfold exec, Trainers.handleSubmit, bind, getState, try_catch.
  simpl. rewrite He. destruct response; reflexivity.
Qed.

Lemma members_update_ids (f : Members.MemberFormData.t) (l : list Members.Member) :
  map Members.id
    (map (fun member =>
            match Members.MemberFormData.id f with
            | Some i => if Members.id member =? i then Members.asMember i f else member
            | None => member
            end) l)
  = map Members.id l.
Proof.
  rewrite map_map. apply map_ext. intros m.
  destruct (Members.MemberFormData.id f) as [i|]; trivial.
  destruct (Z.eqb_spec (Members.id m) i) as [->|_]; reflexivity.
Qed.

Lemma trainers_update_ids (f : Trainers.TrainerFormData.t) (l : list Trainers.Trainer) :
  map Trainers.id
    (map (fun trainer =>
            match Trainers.TrainerFormData.id f with
            | Some i => if Trainers.id trainer =? i then Trainers.asTrainer i f else trainer
            | None => trainer
            end) l)
  = map Trainers.id l.
Proof.
  rewrite map_map. apply map_ext. intros t.
  destruct (Trainers.TrainerFormData.id f) as [i|]; trivial.
  destruct (Z.eqb_spec (Trainers.id t) i) as [->|_]; reflexivity.
Qed.

(** X2. Saving an edit never changes the ids of the collection, position by
position, and a delete keeps distinct ids distinct, whatever the backend
answers: of the three mutations only the create can make two records share
an id.  Members and Trainers pages. *)
Theorem update_and_delete_keep_ids_distinct :
  (forall (today in30Days : string) (w : World Members.State)
          (response : Response Members.Member),
      Members.isEditing (page w) = true ->
      map Members.id
        (Members.members (page (exec (Members.handleSubmit today in30Days response) w)))
      = map Members.id (Members.members (page w)))
  /\
  (forall (w : World Members.State) (confirmed : bool) (id0 : Z)
          (response : Response unit),
      NoDup (map Members.id (Members.members (page w))) ->
      NoDup (map Members.id
               (Members.members
                  (page (exec (Members.handleDelete confirmed id0 response) w)))))
  /\
  (forall (today : string) (w : World Trainers.State)
          (response : Response Trainers.Trainer),
      Trainers.isEditing (page w) = true ->
      map Trainers.id
        (Trainers.trainers (page (exec (Trainers.handleSubmit today response) w)))
      = map Trainers.id (Trainers.trainers (page w)))
  /\
  (forall (w : World Trainers.State) (confirmed : bool) (id0 : Z)
          (response : Response unit),
      NoDup (map Trainers.id (Trainers.trainers (page w))) ->
      NoDup (map Trainers.id
               (Trainers.trainers
                  (page (exec (Trainers.handleDelete confirmed id0 response) w))))).
Proof.
  split; [|split; [|split]].
  - intros today in30Days w response He.
    rewrite (members_update_collection today in30Days w response He).
    destruct response; [apply members_update_ids | reflexivity].
  - intros w confirmed id0 response Hnd. rewrite members_delete_collection.
    destruct confirmed, response; trivial. apply distinct_ids_after_filter. exact Hnd.
  - intros today w response He.
    rewrite (trainers_update_collection today w response He).
    destruct response; [apply trainers_update_ids | reflexivity].
  - intros w confirmed id0 response Hnd. rewrite trainers_delete_collection.
    destruct confirmed, response; trivial. apply distinct_ids_after_filter. exact Hnd.
Qed.

Lemma update_and_delete_keep_ids_distinct_witness :
  map Members.id
    (Members.members
       (page (exec (Members.handleSubmit "2025-01-01" "2025-01-31" (Resolved Sample.bob))
                   (Sample.membersPage Sample.bobEdited true))))
  = [1; 2]
  /\ NoDup (map Members.id
              (Members.members
                 (page (exec (Members.handleDelete true 1 (Resolved tt))
                             SampleMore.membersIdle)))).
Proof.
  destruct update_and_delete_keep_ids_distinct as (Hupd & Hdel & _).
  split.
  - apply (Hupd "2025-01-01" "2025-01-31" (Sample.membersPage Sample.bobEdited true)
             (Resolved Sample.bob)).
    reflexivity.
  - apply (Hdel SampleMore.membersIdle true 1 (Resolved tt)).
    simpl. repeat constructor; simpl; intuition discriminate.
Defined.

Lemma members_asMember_toForm (m : Members.Member) :
  Members.asMember (Members.id m) (Members.toForm m) = m.
Proof. destruct m; reflexivity. Qed.

Lemma trainers_asTrainer_toForm (t : Trainers.Trainer) :
  Trainers.asTrainer (Trainers.id t) (Trainers.toForm t) = t.
Proof. destruct t; reflexivity. Qed.

Lemma NoDup_map_same_key {A : Type} (getId : A -> Z) (l : list A) (x y : A) :
  NoDup (map getId l) -> In x l -> In y l -> getId x = getId y -> x = y.
Proof.
  induction l as [|z l IH]; simpl; intros Hnd Hx Hy E; [contradiction|].
  inversion Hnd as [|k l' Hnotin Hnd']; subst.
  destruct Hx as [->|Hx], Hy as [->|Hy]; trivial.
  - exfalso. apply Hnotin. rewrite E. apply in_map. exact Hy.
  - exfalso. apply Hnotin. rewrite <- E. apply in_map. exact Hx.
  - apply IH; assumption.
Qed.

(** X3. Opening a record in the edit form and saving it unchanged leaves the
collection exactly as it was, provided the ids of the collection are
distinct.  Members and Trainers pages. *)
Theorem edit_and_save_unchanged_is_identity :
  (forall (today in30Days : string) (w : World Members.State)
          (member d : Members.Member),
      In member (Members.members (page w)) ->
      NoDup (map Members.id (Members.members (page w))) ->
      Members.members
        (page (exec (Members.handleSubmit today in30Days (Resolved d))
                    (exec (Members.openEditModal member) w)))
      = Members.members (page w))
  /\
  (forall (today : string) (w : World Trainers.State) (trainer d : Trainers.Trainer),
      In trainer (Trainers.trainers (page w)) ->
      NoDup (map Trainers.id (Trainers.trainers (page w))) ->
      Trainers.trainers
        (page (exec (Trainers.handleSubmit today (Resolved d))
                    (exec (Trainers.openEditModal trainer) w)))
      = Trainers.trainers (page w)).
Proof.
  split.
  - intros today in30Days w member d Hin Hnd.
    rewrite members_update_collection by reflexivity.
    change (Members.members (page (exec (Members.openEditModal member) w)))
      with (Members.members (page w)).
    change (Members.memberForm (page (exec (Members.openEditModal member) w)))
      with (Members.toForm member).
    rewrite <- (map_id (Members.members (page w))) at 2.
    apply map_ext_in. intros m Hm.
    change (Members.MemberFormData.id (Members.toForm member)) with (Some (Members.id member)).
    cbv beta iota.
    destruct (Z.eqb_spec (Members.id m) (Members.id member)) as [E|_]; trivial.
    rewrite members_asMember_toForm. symmetry.
    apply (NoDup_map_same_key Members.id (Members.members (page w))); assumption.
  - intros today w trainer d Hin Hnd.
    rewrite trainers_update_collection by reflexivity.
    change (Trainers.trainers (page (exec (Trainers.openEditModal trainer) w)))
      with (Trainers.trainers (page w)).
    change (Trainers.trainerForm (page (exec (Trainers.openEditModal trainer) w)))
      with (Trainers.toForm trainer).
    rewrite <- (map_id (Trainers.trainers (page w))) at 2.
    apply map_ext_in. intros t Ht.
    change (Trainers.TrainerFormData.id (Trainers.toForm trainer))
      with (Some (Trainers.id trainer)).
    cbv beta iota.
    destruct (Z.eqb_spec (Trainers.id t) (Trainers.id trainer)) as [E|_]; trivial.
    rewrite trainers_asTrainer_toForm. symmetry.
    apply (NoDup_map_same_key Trainers.id (Trainers.trainers (page w))); assumption.
Qed.

Lemma edit_and_save_unchanged_is_identity_witness :
  Members.members
    (page (exec (Members.handleSubmit "2025-01-01" "2025-01-31" (Resolved Sample.bob))
                (exec (Members.openEditModal Sample.bob) SampleMore.membersIdle)))
  = [Sample.ann; Sample.bob].
Proof.
  apply (proj1 edit_and_save_unchanged_is_identity "2025-01-01" "2025-01-31"
           SampleMore.membersIdle Sample.bob Sample.bob).
  - simpl. right. left. reflexivity.
  - simpl. repeat constructor; simpl; intuition discriminate.
Defined.

Lemma filter_other_ids_app_fresh {A : Type} (getId : A -> Z) (l : list A) (x : A) :
  (forall y, In y l -> getId y <> getId x) ->
  filter (fun r => negb (getId r =? getId x)) (l ++ [x]) = l.
Proof.
  intros Hfresh. rewrite filter_app. simpl. rewrite Z.eqb_refl. simpl.
  rewrite app_nil_r. apply filter_other_ids_absent. exact Hfresh.
Qed.

(** X4. Creating a record and then deleting it restores the collection,
provided the id the backend gave the new record was not in use.  Members
and Trainers pages. *)
Theorem create_then_delete_restores_the_collection :
  (forall (today in30Days : string) (w : World Members.State) (data : Members.Member),
      Members.isEditing (page w) = false ->
      (forall m, In m (Members.members (page w)) -> Members.id m <> Members.id data) ->
      Members.members
        (page (exec (Members.handleDelete true (Members.id data) (Resolved tt))
                    (exec (Members.handleSubmit today in30Days (Resolved data)) w)))
      = Members.members (page w))
  /\
  (forall (today : string) (w : World Trainers.State) (data : Trainers.Trainer),
      Trainers.isEditing (page w) = false ->
      (forall t, In t (Trainers.trainers (page w)) -> Trainers.id t <> Trainers.id data) ->
      Trainers.trainers
        (page (exec (Trainers.handleDelete true (Trainers.id data) (Resolved tt))
                    (exec (Trainers.handleSubmit today (Resolved data)) w)))
      = Trainers.trainers (page w)).
Proof.
  split.
  - intros today in30Days w data He Hfresh.
    rewrite members_delete_collection, (members_create_success today in30Days w data He).
    apply (filter_other_ids_app_fresh Members.id). exact Hfresh.
  - intros today w data He Hfresh.
    rewrite trainers_delete_collection, (trainers_create_success today w data He).
    apply (filter_other_ids_app_fresh Trainers.id). exact Hfresh.
Qed.

Lemma create_then_delete_restores_the_collection_witness :
  Members.members
    (page (exec (Members.handleDelete true 3 (Resolved tt))
                (exec (Members.handleSubmit "2025-01-01" "2025-01-31"
                         (Resolved SampleMore.cyd)) SampleMore.membersIdle)))
  = [Sample.ann; Sample.bob].
Proof.
  apply (proj1 create_then_delete_restores_the_collection "2025-01-01" "2025-01-31"
           SampleMore.membersIdle SampleMore.cyd).
  - reflexivity.
  - simpl. intros m [<-|[<-|[]]]; discriminate.
Defined.

(** ** The modal and the spinner *)

(** X5. A save that succeeds closes the modal and resets the form to the
empty form; a save that fails leaves the modal open with the form as typed
and the mode as it was, so that nothing entered is lost.  Members and
Trainers pages. *)
Theorem submit_closes_the_modal_only_on_success :
  (forall (today in30Days : string) (w : World Members.State)
          (response : Response Members.Member),
      let st := page w in
      let st' := page (exec (Members.handleSubmit today in30Days response) w) in
      Members.isEditing st' = Members.isEditing st
      /\ match response with
         | Resolved _ =>
             Members.showModal st' = false
             /\ Members.memberForm st' = Members.emptyMemberForm today in30Days
         | Rejected =>
             Members.showModal st' = Members.showModal st
             /\ Members.memberForm st' = Members.memberForm st
         end)
  /\
  (forall (today : string) (w : World Trainers.State)
          (response : Response Trainers.Trainer),
      let st := page w in
      let st' := page (exec (Trainers.handleSubmit today response) w) in
      Trainers.isEditing st' = Trainers.isEditing st
      /\ match response with
         | Resolved _ =>
             Trainers.showModal st' = false
             /\ Trainers.trainerForm st' = Trainers.emptyTrainerForm today
             /\ Trainers.specialtyInput st' = ""
             /\ Trainers.certificationInput st' = ""
         | Rejected =>
             Trainers.showModal st' = Trainers.showModal st
             /\ Trainers.trainerForm st' = Trainers.trainerForm st
             /\ Trainers.specialtyInput st' = Trainers.specialtyInput st
             /\ Trainers.certificationInput st' = Trainers.certificationInput st
         end).
Proof.
  split.
  - intros today in30Days w response. cbv zeta.
    unfold exec, Members.handleSubmit, bind, getState, try_catch. simpl.
    destruct (Members.isEditing (page w)) eqn:He, response; simpl;
      rewrite ?He; repeat split.
  - intros today w response. cbv zeta.
    unfold exec, Trainers.handleSubmit, bind, getState, try_catch. simpl.
    destruct (Trainers.isEditing (page w)) eqn:He, response; simpl;
      rewrite ?He; repeat split.
Qed.

(** X6. Every fetch ends with the loading flag off, whether its calls were
resolved or rejected: the spinner never stays.  All five pages. *)
Theorem fetch_always_clears_the_loading_flag :
  (forall (Trainer Class : Type) (Date_parse : string -> option Z) (now : Z)
          (w : World Dashboard.State) (membersRes : Response (list Dashboard.Member))
          (trainersRes : Response (list Trainer)) (classesRes : Response (list Class))
          (paymentsRes : Response (list Dashboard.Payment)),
      Dashboard.isLoading
        (page (exec (Dashboard.fetchDashboardData Date_parse now membersRes trainersRes
                       classesRes paymentsRes) w)) = false)
  /\ (forall (w : World Members.State) (response : Response (list Members.Member)),
         Members.isLoading (page (exec (Members.fetchMembers response) w)) = false)
  /\ (forall (w : World Trainers.State) (response : Response (list Trainers.Trainer)),
         Trainers.isLoading (page (exec (Trainers.fetchTrainers response) w)) = false)
  /\ (forall (w : World Schedule.State)
             (classesRes : Response (list Schedule.ClassSchedule.t))
             (trainersRes : Response (list Schedule.Trainer)),
         Schedule.isLoading
           (page (exec (Schedule.fetchScheduleData classesRes trainersRes) w)) = false)
  /\ (forall (w : World Payments.State) (paymentsRes : Response (list Payments.Payment))
             (membersRes : Response (list Payments.Member.t)),
         Payments.isLoading
           (page (exec (Payments.fetchPaymentsData paymentsRes membersRes) w)) = false).
Proof.
  split; [|split; [|split; [|split]]].
  - intros Trainer Class Date_parse now w [m|] [t|] [c|] [p|]; reflexivity.
  - intros w [d|]; reflexivity.
  - intros w [d|]; reflexivity.
  - intros w [c|] [t|]; reflexivity.
  - intros w [p|] [m|]; reflexivity.
Qed.

(** ** The displayed list and the collection *)

Lemma string_app_assoc (a b c : string) : (a ++ b) ++ c = a ++ (b ++ c).
Proof. induction a as [|x a IH]; simpl; [reflexivity | rewrite IH; reflexivity]. Qed.

(** A field that holds a longer term holds every part of it. *)
Lemma includes_part (s pre t post : string) :
  JS.includes s (pre ++ t ++ post) = true -> JS.includes s t = true.
Proof.
  rewrite !includes_iff. intros (a & b & ->).
  exists (a ++ pre), (post ++ b).
  rewrite !string_app_assoc. reflexivity.
Qed.

(** A field that holds a text holds whatever that text holds. *)
Lemma includes_within (s l t : string) :
  JS.includes s l = true -> JS.includes l t = true -> JS.includes s t = true.
Proof.
  intros Hs Hl. apply includes_iff in Hl. destruct Hl as (pre & post & ->).
  apply (includes_part s pre t post Hs).
Qed.

(** A term whose lower-cased form holds that of a term that is not empty is
not empty. *)
Lemma truthy_longer (longer t : string) :
  JS.truthy t = true ->
  JS.includes (JS.toLowerCase longer) (JS.toLowerCase t) = true ->
  JS.truthy longer = true.
Proof.
  destruct t as [|c t]; [discriminate|]. intros _.
  destruct longer; [discriminate | reflexivity].
Qed.

Lemma members_effect_keeps_collection (w : World Members.State) :
  Members.members (page (exec Members.filterEffect w)) = Members.members (page w).
Proof. reflexivity. Qed.

Lemma trainers_effect_keeps_collection (w : World Trainers.State) :
  Trainers.trainers (page (exec Trainers.filterEffect w)) = Trainers.trainers (page w).
Proof.
  unfold exec, Trainers.filterEffect, bind, getState. simpl.
  destruct (JS.truthy (Trainers.searchTerm (page w))); reflexivity.
Qed.

(** X7. After the filter effect the displayed list is the collection with
some rows struck out, never a row from elsewhere.  A successful delete by
itself leaves the displayed list as it was; once the effect has run, no
displayed row has the deleted id.  Members and Trainers pages. *)
Theorem displayed_rows_follow_the_collection :
  (forall w : World Members.State,
      let w' := exec Members.filterEffect w in
      StruckOut (Members.members (page w')) (Members.filteredMembers (page w')))
  /\
  (forall (w : World Members.State) (id0 : Z),
      let w1 := exec (Members.handleDelete true id0 (Resolved tt)) w in
      let w2 := exec Members.filterEffect w1 in
      Members.filteredMembers (page w1) = Members.filteredMembers (page w)
      /\ forall m, In m (Members.filteredMembers (page w2)) ->
                   In m (Members.members (page w)) /\ Members.id m <> id0)
  /\
  (forall w : World Trainers.State,
      let w' := exec Trainers.filterEffect w in
      StruckOut (Trainers.trainers (page w')) (Trainers.filteredTrainers (page w')))
  /\
  (forall (w : World Trainers.State) (id0 : Z),
      let w1 := exec (Trainers.handleDelete true id0 (Resolved tt)) w in
      let w2 := exec Trainers.filterEffect w1 in
      Trainers.filteredTrainers (page w1) = Trainers.filteredTrainers (page w)
      /\ forall t, In t (Trainers.filteredTrainers (page w2)) ->
                   In t (Trainers.trainers (page w)) /\ Trainers.id t <> id0).
Proof.
  assert (HM : forall w : World Members.State,
             StruckOut (Members.members (page w))
               (Members.filteredMembers (page (exec Members.filterEffect w)))).
  { intros w. rewrite members_filterEffect_list. apply filter_StruckOut. }
  assert (HT : forall w : World Trainers.State,
             StruckOut (Trainers.trainers (page w))
               (Trainers.filteredTrainers (page (exec Trainers.filterEffect w)))).
  { intros w. rewrite trainers_filterEffect_list. apply filter_StruckOut. }
  split; [|split; [|split]].
  - intros w. cbv zeta. rewrite members_effect_keeps_collection. apply HM.
  - intros w id0. cbv zeta. split; [reflexivity|]. intros m Hm.
    apply (StruckOut_In _ _ (HM _)) in Hm.
    rewrite members_delete_collection in Hm.
    apply filter_other_ids_In in Hm. exact Hm.
  - intros w. cbv zeta. rewrite trainers_effect_keeps_collection. apply HT.
  - intros w id0. cbv zeta. split; [reflexivity|]. intros t Ht.
    apply (StruckOut_In _ _ (HT _)) in Ht.
    rewrite trainers_delete_collection in Ht.
    apply filter_other_ids_In in Ht. exact Ht.
Qed.

Lemma displayed_rows_follow_the_collection_witness :
  In Sample.bob [Sample.ann; Sample.bob] /\ Members.id Sample.bob <> 1.
Proof.
  apply (proj2 (proj1 (proj2 displayed_rows_follow_the_collection)
                  SampleMore.membersIdle 1) Sample.bob).
  simpl. left. reflexivity.
Defined.

(** X8. Narrowing the search never adds a row: with the status selection
unchanged, if the lower-cased new term holds the lower-cased present term
(as it does, for terms of the Latin-1 range, when the new term holds the
present one), every row displayed for the new term is displayed for the
present term.  Members, Trainers and Payments pages. *)
Theorem longer_search_term_only_narrows :
  (forall (w : World Members.State) (longer : string) (m : Members.Member),
      JS.includes (JS.toLowerCase longer) (JS.toLowerCase (Members.searchTerm (page w)))
      = true ->
      In m (Members.filteredMembers
              (page (exec Members.filterEffect (exec (Members.setSearchTerm longer) w)))) ->
      In m (Members.filteredMembers (page (exec Members.filterEffect w))))
  /\
  (forall (w : World Trainers.State) (longer : string) (t : Trainers.Trainer),
      JS.includes (JS.toLowerCase longer) (JS.toLowerCase (Trainers.searchTerm (page w)))
      = true ->
      In t (Trainers.filteredTrainers
              (page (exec Trainers.filterEffect (exec (Trainers.setSearchTerm longer) w)))) ->
      In t (Trainers.filteredTrainers (page (exec Trainers.filterEffect w))))
  /\
  (forall (Number_toString : Q -> string) (w : World Payments.State)
          (longer : string) (p : Payments.Payment),
      JS.includes (JS.toLowerCase longer) (JS.toLowerCase (Payments.searchTerm (page w)))
      = true ->
      In p (Payments.filteredPayments
              (page (exec (Payments.applyFilters Number_toString)
                          (exec (Payments.setSearchTerm longer) w)))) ->
      In p (Payments.filteredPayments
              (page (exec (Payments.applyFilters Number_toString) w)))).
Proof.
  split; [|split].
  - intros w longer m Hl. rewrite !members_filterEffect_list. cbv zeta.
    simpl page. cbn [Members.members Members.statusFilter Members.searchTerm].
    set (T := Members.searchTerm (page w)) in *.
    rewrite !filter_In. intros [Hin Hp]. split; [exact Hin|].
    apply andb_true_iff in Hp. destruct Hp as [Hs Ht].
    apply andb_true_iff. split; [exact Hs|].
    destruct (JS.truthy T) eqn:ET; [|reflexivity].
    rewrite (truthy_longer longer T ET Hl) in Ht. simpl in Ht |- *.
    apply orb_true_iff in Ht. destruct Ht as [Ht|Ht];
      [apply orb_true_iff in Ht; destruct Ht as [Ht|Ht]|];
      rewrite (includes_within _ _ _ Ht Hl); rewrite ?orb_true_r; reflexivity.
  - intros w longer t Hl. rewrite !trainers_filterEffect_list. cbv zeta.
    simpl page. cbn [Trainers.trainers Trainers.searchTerm].
    set (T := Trainers.searchTerm (page w)) in *.
    rewrite !filter_In. intros [Hin Ht]. split; [exact Hin|].
    destruct (JS.truthy T) eqn:ET; [|reflexivity].
    rewrite (truthy_longer longer T ET Hl) in Ht. simpl in Ht |- *.
    apply orb_true_iff in Ht. destruct Ht as [Ht|Ht];
      [apply orb_true_iff in Ht; destruct Ht as [Ht|Ht]|].
    + rewrite (includes_within _ _ _ Ht Hl). reflexivity.
    + rewrite (includes_within _ _ _ Ht Hl), orb_true_r. reflexivity.
    + apply orb_true_iff. right. apply existsb_exists in Ht.
      destruct Ht as (s & Hs & Hinc). apply existsb_exists. exists s. split; [exact Hs|].
      exact (includes_within _ _ _ Hinc Hl).
  - intros Number_toString w longer p Hl.
    rewrite !payments_applyFilters_list. cbv zeta.
    simpl page.
    cbn [Payments.payments Payments.members Payments.statusFilter Payments.searchTerm
         Payments.sortConfig].
    set (T := Payments.searchTerm (page w)) in *.
    assert (Hsort : forall l x, In x (Payments.sortItems l (Payments.sortConfig (page w)))
                                <-> In x l).
    { intros l x. unfold Payments.sortItems.
      destruct (Payments.SortConfig.key _); [|tauto].
      split; apply Permutation_in;
        [apply sort_Permutation | apply Permutation_sym, sort_Permutation]. }
    rewrite !Hsort, !filter_In. intros [Hin Hp]. split; [exact Hin|].
    apply andb_true_iff in Hp. destruct Hp as [Hs Ht].
    apply andb_true_iff. split; [exact Hs|].
    destruct (JS.truthy T) eqn:ET; [|reflexivity].
    rewrite (truthy_longer longer T ET Hl) in Ht. simpl in Ht |- *.
    destruct (JS.find _ (Payments.members (page w))) as [mb|];
      repeat (apply orb_true_iff in Ht; destruct Ht as [Ht|Ht]);
      try discriminate;
      rewrite (includes_within _ _ _ Ht Hl); rewrite ?orb_true_r; reflexivity.
Qed.

Lemma longer_search_term_only_narrows_witness :
  In Sample.ann
     (Members.filteredMembers (page (exec Members.filterEffect SampleMore2.membersSearching))).
Proof.
  apply (proj1 longer_search_term_only_narrows SampleMore2.membersSearching "ann"
           Sample.ann eq_refl).
  simpl. left. reflexivity.
Defined.

(** ** Dashboard statistics *)

(** X9. After a successful Dashboard fetch the statistics agree with one
another and with the panel: the total is the number of fetched members, the
active count is at most the total, the panel holds the smaller of five and
the active count, so it is empty exactly when the active count is zero, and
the recent payments are at most the fetched payments and none when no date
can be read. *)
Theorem dashboard_statistics_are_consistent {Trainer Class : Type}
    (Date_parse : string -> option Z) (now : Z) (w : World Dashboard.State)
    (membersData : list Dashboard.Member) (trainersData : list Trainer)
    (classesData : list Class) (paymentsData : list Dashboard.Payment) :
  let st :=
    page (exec (Dashboard.fetchDashboardData Date_parse now (Resolved membersData)
                  (Resolved trainersData) (Resolved classesData)
                  (Resolved paymentsData)) w) in
  let stats := Dashboard.stats st in
  Dashboard.StatsData.totalMembers stats = Z.of_nat (List.length membersData)
  /\ Dashboard.StatsData.totalTrainers stats = Z.of_nat (List.length trainersData)
  /\ Dashboard.StatsData.totalClasses stats = Z.of_nat (List.length classesData)
  /\ 0 <= Dashboard.StatsData.activeMembers stats <= Dashboard.StatsData.totalMembers stats
  /\ Z.of_nat (List.length (Dashboard.activeMembers st))
     = Z.min 5 (Dashboard.StatsData.activeMembers stats)
  /\ (Dashboard.activeMembers st = [] <-> Dashboard.StatsData.activeMembers stats = 0)
  /\ 0 <= Dashboard.StatsData.recentPayments stats <= Z.of_nat (List.length paymentsData)
  /\ ((forall p, In p paymentsData -> Date_parse (Dashboard.date p) = None) ->
      Dashboard.StatsData.recentPayments stats = 0).
Proof.
  cbv zeta. rewrite dashboard_fetch_success.
  cbn [page Dashboard.activeMembers Dashboard.stats Dashboard.StatsData.activeMembers
       Dashboard.StatsData.totalMembers Dashboard.StatsData.totalTrainers
       Dashboard.StatsData.totalClasses Dashboard.StatsData.recentPayments].
  set (active := filter _ membersData).
  pose proof (filter_length_le (fun m => String.eqb (Dashboard.membershipStatus m) "Active")
                membersData) as Hact. fold active in Hact.
  pose proof (filter_length_le (Dashboard.isRecent Date_parse now) paymentsData) as Hrec.
  repeat split; try lia.
  - rewrite length_firstn. lia.
  - intros Hnil. destruct active as [|a l]; [reflexivity | discriminate].
  - intros Hzero. destruct active as [|a l]; [reflexivity | simpl in Hzero; lia].
  - intros Hnone.
    replace (filter (Dashboard.isRecent Date_parse now) paymentsData) with
      (@nil Dashboard.Payment); [reflexivity|].
    symmetry. clear Hrec. induction paymentsData as [|p l IH]; simpl; trivial.
    unfold Dashboard.isRecent at 1. rewrite (Hnone p (or_introl eq_refl)).
    apply IH. intros q Hq. apply Hnone. right. exact Hq.
Qed.

Lemma dashboard_statistics_are_consistent_witness :
  Dashboard.StatsData.recentPayments
    (Dashboard.stats
       (page (exec (Dashboard.fetchDashboardData (fun _ => None) 0
                      (Resolved ([] : list Dashboard.Member)) (Resolved ([] : list unit))
                      (Resolved ([] : list unit))
                      (Resolved [Dashboard.mkPayment "not a date"]))
                   (mkWorld Dashboard.initialState [] [] [])))) = 0.
Proof.
  apply (dashboard_statistics_are_consistent (fun _ => None) 0
           (mkWorld Dashboard.initialState [] [] []) [] ([] : list unit) ([] : list unit)
           [Dashboard.mkPayment "not a date"]).
  intros p _. reflexivity.
Defined.

(** ** Schedule: the day tabs *)

(** X10. The class list of a day tab: under "All" every class is listed;
under a day, exactly the classes that name that day, in the order fetched;
a class that names no day is listed under "All" only. *)
Theorem day_tab_lists_the_classes_of_that_day (st : Schedule.State) :
  (Schedule.selectedDay st = "All" -> Schedule.filteredClasses st = Schedule.classes st)
  /\ (Schedule.selectedDay st <> "All" ->
      forall c, In c (Schedule.filteredClasses st) <->
                In c (Schedule.classes st)
                /\ In (Schedule.selectedDay st) (Schedule.ClassSchedule.days c))
  /\ StruckOut (Schedule.classes st) (Schedule.filteredClasses st)
  /\ (forall c, Schedule.ClassSchedule.days c = [] ->
                In c (Schedule.filteredClasses st) -> Schedule.selectedDay st = "All").
Proof.
  assert (Hday : forall c,
             existsb (String.eqb (Schedule.selectedDay st)) (Schedule.ClassSchedule.days c)
             = true <-> In (Schedule.selectedDay st) (Schedule.ClassSchedule.days c)).
  { intros c. rewrite existsb_exists. split.
    - intros (d & Hd & E). apply String.eqb_eq in E. subst d. exact Hd.
    - intros Hd. exists (Schedule.selectedDay st). split; [exact Hd | apply String.eqb_refl]. }
  unfold Schedule.filteredClasses.
  destruct (String.eqb_spec (Schedule.selectedDay st) "All") as [E|N].
  - split; [reflexivity|]. split; [contradiction|].
    split; [apply StruckOut_refl | intros; exact E].
  - split; [contradiction|]. split; [|split].
    + intros _ c. rewrite filter_In, Hday. reflexivity.
    + apply filter_StruckOut.
    + intros c Hnone Hin. apply filter_In in Hin. destruct Hin as [_ Hex].
      rewrite Hnone in Hex. discriminate.
Qed.

Lemma day_tab_lists_the_classes_of_that_day_witness :
  Schedule.filteredClasses (SampleMore2.schedulePage "All")
  = [SampleMore2.yoga; SampleMore2.unscheduled]
  /\ (In SampleMore2.yoga (Schedule.filteredClasses (SampleMore2.schedulePage "Friday"))
      <-> In SampleMore2.yoga [SampleMore2.yoga; SampleMore2.unscheduled]
          /\ In "Friday" ["Monday"; "Friday"]).
Proof.
  split.
  - apply (proj1 (day_tab_lists_the_classes_of_that_day (SampleMore2.schedulePage "All"))).
    reflexivity.
  - apply (proj1 (proj2 (day_tab_lists_the_classes_of_that_day
                           (SampleMore2.schedulePage "Friday")))).
    discriminate.
Defined.

(** ** Payments: the member of a payment *)

(** X11. The name and the e-mail shown for a payment come from one and the
same member record, the first with the payment's member id; when no member
has that id both are placeholders. *)
Theorem member_name_and_email_come_from_one_record
    (members : list Payments.Member.t) (memberId : Z) :
  (exists m, In m members /\ Payments.Member.id m = memberId
             /\ Payments.getMemberName members memberId = Payments.Member.name m
             /\ Payments.getMemberEmail members memberId = Payments.Member.email m)
  \/ ((forall m, In m members -> Payments.Member.id m <> memberId)
      /\ Payments.getMemberName members memberId = "Unknown Member"
      /\ Payments.getMemberEmail members memberId = "Unknown Email").
Proof.
  unfold Payments.getMemberName, Payments.getMemberEmail, JS.find.
  destruct (List.find (fun m => Payments.Member.id m =? memberId) members) as [m|] eqn:E.
  - left. apply find_some in E. destruct E as [Hin Hid]. apply Z.eqb_eq in Hid.
    exists m. auto.
  - right. split; [|split; reflexivity].
    intros m Hin Hid. apply (find_none _ _ E) in Hin.
    rewrite Hid, Z.eqb_refl in Hin. discriminate.
Qed.

(** X12. A payment whose member id matches no fetched member is found by a
search only through its amount or its method: the placeholders shown in its
row are not searched. *)
Theorem payment_of_unknown_member_is_found_by_amount_or_method
    (Number_toString : Q -> string) (w : World Payments.State) (p : Payments.Payment) :
  Payments.searchTerm (page w) <> "" ->
  (forall m, In m (Payments.members (page w)) ->
             Payments.Member.id m <> Payments.memberId p) ->
  let term := Payments.searchTerm (page w) in
  let status := Payments.statusFilter (page w) in
  In p (Payments.filteredPayments
          (page (exec (Payments.applyFilters Number_toString) w)))
  <-> In p (Payments.payments (page w))
      /\ (status = "All" \/ Payments.status p = status)
      /\ (JS.includes (Number_toString (Payments.amount p)) (JS.toLowerCase term) = true
          \/ matchesIgnoringCase (Payments.method p) term = true).
Proof.
  intros Hterm Hnone. cbv zeta. rewrite payments_applyFilters_list. cbv zeta.
  assert (Hsort : forall l x, In x (Payments.sortItems l (Payments.sortConfig (page w)))
                              <-> In x l).
  { intros l x. unfold Payments.sortItems.
    destruct (Payments.SortConfig.key _); [|tauto].
    split; apply Permutation_in;
      [apply sort_Permutation | apply Permutation_sym, sort_Permutation]. }
  rewrite Hsort, filter_In.
  assert (Hfind : JS.find (fun m => Payments.Member.id m =? Payments.memberId p)
                          (Payments.members (page w)) = None).
  { apply find_no_match. apply Forall_forall. intros m Hm.
    apply Z.eqb_neq. apply Hnone. exact Hm. }
  rewrite Hfind, negb_involutive, truthy_not_empty.
  destruct (String.eqb_spec (Payments.searchTerm (page w)) "") as [E|_]; [contradiction|].
  simpl. unfold matchesIgnoringCase.
  rewrite andb_true_iff, !orb_true_iff, !String.eqb_eq. tauto.
Qed.

Lemma payment_of_unknown_member_is_found_by_amount_or_method_witness :
  In SampleMore2.orphan
     (Payments.filteredPayments
        (page (exec (Payments.applyFilters SampleSearch.wholeAmountToString)
                    SampleMore2.paymentsSearching))).
Proof.
  apply (proj2 (payment_of_unknown_member_is_found_by_amount_or_method
                  SampleSearch.wholeAmountToString SampleMore2.paymentsSearching
                  SampleMore2.orphan ltac:(discriminate)
                  ltac:(simpl; intros m [<-|[<-|[]]]; discriminate))).
  split; [simpl; right; left; reflexivity|].
  split; [left; reflexivity | right; reflexivity].
Defined.

(** ** Payments: a sort request and the filter step *)

Lemma sortItems_Permutation (l : list Payments.Payment) (config : Payments.SortConfig.t) :
  Permutation (Payments.sortItems l config) l.
Proof.
  unfold Payments.sortItems. destruct (Payments.SortConfig.key config).
  - apply sort_Permutation.
  - apply Permutation_refl.
Qed.

Lemma sortItems_StronglySorted (l : list Payments.Payment) (key : Payments.PaymentKey)
    (direction : Payments.Direction) :
  StronglySorted (orderedBy key direction)
    (Payments.sortItems l (Payments.SortConfig.mk (Some key) direction)).
Proof.
  unfold Payments.sortItems. simpl. apply sort_StronglySorted.
  - apply comparator_nonpos.
  - apply comparator_pos.
  - apply orderedBy_trans.
Qed.

(** X13. A sort request re-orders the list on display, the filter step
recomputes it from the fetched payments: after a request on a list the
filter step produced, both hold the same rows (one is a permutation of the
other) and both are ordered by the requested field, so a later run of the
filter step can change the order of rows that are equal on that field and
nothing else.  The arrow is shown in the head of the requested column only,
up for ascending and down for descending. *)
Theorem sort_request_agrees_with_the_filter_step
    (Number_toString : Q -> string) (w0 : World Payments.State)
    (key : Payments.PaymentKey) :
  let w := exec (Payments.applyFilters Number_toString) w0 in
  let w1 := exec (Payments.requestSort key) w in
  let w2 := exec (Payments.applyFilters Number_toString) w1 in
  let direction := Payments.SortConfig.direction (Payments.sortConfig (page w1)) in
  Permutation (Payments.filteredPayments (page w1)) (Payments.filteredPayments (page w))
  /\ Permutation (Payments.filteredPayments (page w1)) (Payments.filteredPayments (page w2))
  /\ StronglySorted (orderedBy key direction) (Payments.filteredPayments (page w1))
  /\ StronglySorted (orderedBy key direction) (Payments.filteredPayments (page w2))
  /\ Payments.getSortIcon (page w1) key
     = Some (match direction with
             | Payments.asc => Payments.ArrowUp
             | Payments.desc => Payments.ArrowDown
             end)
  /\ (forall k, k <> key -> Payments.getSortIcon (page w1) k = None).
Proof.
  cbv zeta.
  set (w := exec (Payments.applyFilters Number_toString) w0).
  set (w1 := exec (Payments.requestSort key) w).
  set (dir := Payments.SortConfig.direction (Payments.sortConfig (page w1))).
  assert (Hw : Payments.filteredPayments (page w)
               = Payments.sortItems (paymentRows Number_toString (page w0))
                   (Payments.sortConfig (page w0)))
    by (unfold w; apply payments_applyFilters_list).
  assert (H1 : Payments.filteredPayments (page w1)
               = Payments.sortItems (Payments.filteredPayments (page w))
                   (Payments.SortConfig.mk (Some key) dir)) by reflexivity.
  assert (Hcfg : Payments.sortConfig (page w1) = Payments.SortConfig.mk (Some key) dir)
    by reflexivity.
  assert (H2 : Payments.filteredPayments
                 (page (exec (Payments.applyFilters Number_toString) w1))
               = Payments.sortItems (paymentRows Number_toString (page w0))
                   (Payments.SortConfig.mk (Some key) dir)).
  { rewrite payments_applyFilters_list. cbv zeta. rewrite Hcfg. reflexivity. }
  rewrite H1, H2. split; [|split; [|split; [|split; [|split]]]].
  - apply sortItems_Permutation.
  - eapply perm_trans; [apply sortItems_Permutation|].
    rewrite Hw. eapply perm_trans; [apply sortItems_Permutation|].
    apply Permutation_sym, sortItems_Permutation.
  - apply sortItems_StronglySorted.
  - apply sortItems_StronglySorted.
  - unfold Payments.getSortIcon. rewrite Hcfg. simpl.
    rewrite (proj2 (keyEqb_eq key key) eq_refl). destruct dir; reflexivity.
  - intros k Hk. unfold Payments.getSortIcon. rewrite Hcfg. simpl.
    destruct (Payments.keyEqb key k) eqn:E; [|reflexivity].
    apply keyEqb_eq in E. congruence.
Qed.

Lemma sort_request_agrees_with_the_filter_step_witness :
  Payments.getSortIcon
    (page (exec (Payments.requestSort Payments.key_amount)
                (exec (Payments.applyFilters SampleSearch.wholeAmountToString)
                      SampleSearch.paymentsPage)))
    Payments.key_date = None.
Proof.
  apply (sort_request_agrees_with_the_filter_step SampleSearch.wholeAmountToString
           SampleSearch.paymentsPage Payments.key_amount).
  discriminate.
Defined.

(** ** Trainers: the specialty and certification tags of the form *)

Lemma trimStart_idempotent (s : string) : JS.trimStart (JS.trimStart s) = JS.trimStart s.
Proof.
  induction s as [|c s IH]; simpl; trivial.
  destruct (JS.isWhiteSpace c) eqn:E; [exact IH|].
  simpl. rewrite E. reflexivity.
Qed.

Lemma trimEnd_idempotent (s : string) : JS.trimEnd (JS.trimEnd s) = JS.trimEnd s.
Proof.
  induction s as [|c s IH]; simpl; trivial.
  destruct (JS.trimEnd s) as [|d r] eqn:E.
  - destruct (JS.isWhiteSpace c) eqn:W; simpl; [reflexivity | rewrite W; reflexivity].
  - change (JS.trimEnd (String c (String d r)))
      with (match JS.trimEnd (String d r) with
            | EmptyString => if JS.isWhiteSpace c then EmptyString else String c EmptyString
            | q => String c q
            end).
    rewrite IH. reflexivity.
Qed.

(** What [trimEnd] leaves of a string that starts with a character other
than white space starts with that character. *)
Lemma trimEnd_keeps_head (c : ascii) (s : string) :
  JS.isWhiteSpace c = false -> exists r, JS.trimEnd (String c s) = String c r.
Proof.
  intros W. simpl. destruct (JS.trimEnd s) as [|d r].
  - rewrite W. exists EmptyString. reflexivity.
  - exists (String d r). reflexivity.
Qed.

Lemma trim_idempotent (s : string) : JS.trim (JS.trim s) = JS.trim s.
Proof.
  unfold JS.trim.
  assert (Hhead : JS.trimStart (JS.trimEnd (JS.trimStart s)) = JS.trimEnd (JS.trimStart s)).
  { induction s as [|c s IH]; [reflexivity|]. simpl JS.trimStart at 2 3.
    destruct (JS.isWhiteSpace c) eqn:W; [exact IH|].
    destruct (trimEnd_keeps_head c s W) as [r ->]. simpl. rewrite W. reflexivity. }
  rewrite Hhead. apply trimEnd_idempotent.
Qed.

Lemma trim_truthy_tidy (s : string) : JS.truthy (JS.trim s) = true -> tidy (JS.trim s).
Proof.
  intros H. split; [|apply trim_idempotent].
  intros E. rewrite E in H. discriminate.
Qed.

Lemma filteriFrom_remove {A : Type} (index : Z) (l : list A) (k : Z) :
  JS.filteriFrom (fun _ i => negb (i =? index)) k l =
  if (k <=? index) && (index <? k + Z.of_nat (List.length l))
  then (firstn (Z.to_nat (index - k)) l ++ skipn (S (Z.to_nat (index - k))) l)%list
  else l.
Proof.
  revert k. induction l as [|x l IH]; intros k.
  - cbn [JS.filteriFrom List.length].
    destruct ((k <=? index) && (index <? k + Z.of_nat 0)); [|reflexivity].
    destruct (Z.to_nat (index - k)); reflexivity.
  - cbn [JS.filteriFrom]. rewrite IH. cbn [List.length].
    destruct (Z.eqb_spec k index) as [->|Hne]; cbn [negb].
    + replace (index + 1 <=? index) with false by (symmetry; apply Z.leb_gt; lia).
      replace (index <=? index) with true by (symmetry; apply Z.leb_le; lia).
      replace (index <? index + Z.of_nat (S (List.length l))) with true
        by (symmetry; apply Z.ltb_lt; lia).
      replace (index - index) with 0 by lia. reflexivity.
    + destruct (Z.leb_spec k index) as [Hle|Hgt].
      * replace (k + 1 <=? index) with true by (symmetry; apply Z.leb_le; lia).
        replace (index <? k + 1 + Z.of_nat (List.length l))
          with (index <? k + Z.of_nat (S (List.length l)))
          by (f_equal; lia).
        cbn [andb]. destruct (index <? k + Z.of_nat (S (List.length l))); [|reflexivity].
        replace (Z.to_nat (index - k)) with (S (Z.to_nat (index - (k + 1)))) by lia.
        reflexivity.
      * replace (k + 1 <=? index) with false by (symmetry; apply Z.leb_gt; lia).
        reflexivity.
Qed.

Lemma filteri_remove {A : Type} (index : Z) (l : list A) :
  JS.filteri (fun _ i => negb (i =? index)) l =
  if (0 <=? index) && (index <? Z.of_nat (List.length l))
  then (firstn (Z.to_nat index) l ++ skipn (S (Z.to_nat index)) l)%list
  else l.
Proof.
  unfold JS.filteri. rewrite filteriFrom_remove. rewrite Z.sub_0_r. reflexivity.
Qed.

Lemma filteri_remove_last {A : Type} (l : list A) (x : A) :
  JS.filteri (fun _ i => negb (i =? Z.of_nat (List.length l))) (l ++ [x]) = l.
Proof.
  rewrite filteri_remove, length_app. cbn [List.length].
  replace (0 <=? Z.of_nat (List.length l)) with true by (symmetry; apply Z.leb_le; lia).
  replace (Z.of_nat (List.length l) <? Z.of_nat (List.length l + 1)) with true
    by (symmetry; apply Z.ltb_lt; lia).
  cbn [andb]. rewrite Nat2Z.id.
  rewrite firstn_app, Nat.sub_diag, firstn_all. cbn [firstn].
  rewrite skipn_all2 by (rewrite length_app; simpl; lia).
  rewrite !app_nil_r. reflexivity.
Qed.

Lemma addition_appends_the_trimmed_input (w : World Trainers.State) :
  (JS.trim (Trainers.specialtyInput (page w)) <> "" ->
   Trainers.TrainerFormData.specialties
     (Trainers.trainerForm (page (exec Trainers.addSpecialty w)))
   = (Trainers.TrainerFormData.specialties (Trainers.trainerForm (page w))
      ++ [JS.trim (Trainers.specialtyInput (page w))])%list)
  /\
  (JS.trim (Trainers.certificationInput (page w)) <> "" ->
   Trainers.TrainerFormData.certifications
     (Trainers.trainerForm (page (exec Trainers.addCertification w)))
   = (Trainers.TrainerFormData.certifications (Trainers.trainerForm (page w))
      ++ [JS.trim (Trainers.certificationInput (page w))])%list).
Proof.
  split; intros H.
  - unfold exec, Trainers.addSpecialty, bind, getState. simpl.
    destruct (JS.trim (Trainers.specialtyInput (page w))); [contradiction | reflexivity].
  - unfold exec, Trainers.addCertification, bind, getState. simpl.
    destruct (JS.trim (Trainers.certificationInput (page w))); [contradiction | reflexivity].
Qed.

(** X14. Adding a tag stores the input with the white space at its ends
removed and clears the input box; an input that is empty or only white space
changes nothing.  Hence, when the tags of the form are tidy (not empty, no
white space at either end), they still are after the addition.  Specialties
and certifications. *)
Theorem added_tags_are_trimmed_and_never_blank (w : World Trainers.State) :
  let form := Trainers.trainerForm (page w) in
  (let input := Trainers.specialtyInput (page w) in
   let w' := exec Trainers.addSpecialty w in
   let form' := Trainers.trainerForm (page w') in
   (JS.trim input = "" -> w' = w)
   /\ (JS.trim input <> "" ->
       Trainers.TrainerFormData.specialties form'
       = (Trainers.TrainerFormData.specialties form ++ [JS.trim input])%list
       /\ Trainers.TrainerFormData.certifications form'
          = Trainers.TrainerFormData.certifications form
       /\ Trainers.specialtyInput (page w') = "")
   /\ (Forall tidy (Trainers.TrainerFormData.specialties form) ->
       Forall tidy (Trainers.TrainerFormData.specialties form')))
  /\
  (let input := Trainers.certificationInput (page w) in
   let w' := exec Trainers.addCertification w in
   let form' := Trainers.trainerForm (page w') in
   (JS.trim input = "" -> w' = w)
   /\ (JS.trim input <> "" ->
       Trainers.TrainerFormData.certifications form'
       = (Trainers.TrainerFormData.certifications form ++ [JS.trim input])%list
       /\ Trainers.TrainerFormData.specialties form'
          = Trainers.TrainerFormData.specialties form
       /\ Trainers.certificationInput (page w') = "")
   /\ (Forall tidy (Trainers.TrainerFormData.certifications form) ->
       Forall tidy (Trainers.TrainerFormData.certifications form'))).
Proof.
  cbv zeta. split.
  - unfold exec, Trainers.addSpecialty, bind, getState. simpl.
    destruct (JS.trim (Trainers.specialtyInput (page w))) as [|c r] eqn:E.
    + simpl. split; [intros _; destruct w; reflexivity|].
      split; [intros H; contradiction|]. intros H. exact H.
    + simpl. split; [discriminate|]. split; [intros _; repeat split|].
      intros H. apply Forall_app. split; [exact H|].
      constructor; [|constructor]. rewrite <- E. apply trim_truthy_tidy.
      rewrite E. reflexivity.
  - unfold exec, Trainers.addCertification, bind, getState. simpl.
    destruct (JS.trim (Trainers.certificationInput (page w))) as [|c r] eqn:E.
    + simpl. split; [intros _; destruct w; reflexivity|].
      split; [intros H; contradiction|]. intros H. exact H.
    + simpl. split; [discriminate|]. split; [intros _; repeat split|].
      intros H. apply Forall_app. split; [exact H|].
      constructor; [|constructor]. rewrite <- E. apply trim_truthy_tidy.
      rewrite E. reflexivity.
Qed.

Lemma added_tags_are_trimmed_and_never_blank_witness :
  Trainers.TrainerFormData.specialties
    (Trainers.trainerForm (page (exec Trainers.addSpecialty SampleMore3.trainersModal)))
  = ["Yoga"; "Pilates"; "HIIT"]
  /\ Forall tidy
       (Trainers.TrainerFormData.specialties
          (Trainers.trainerForm (page (exec Trainers.addSpecialty SampleMore3.trainersModal)))).
Proof.
  destruct (proj1 (added_tags_are_trimmed_and_never_blank SampleMore3.trainersModal))
    as (_ & Hadd & Hkeep).
  split.
  - apply Hadd. discriminate.
  - apply Hkeep. repeat constructor; discriminate.
Defined.

(** X15. Removing the tag at an index of the list drops that one entry and
keeps the others in order; an index outside the list changes nothing.  So
adding a tag and then removing the last index restores the tags.
Specialties and certifications. *)
Theorem removing_a_tag_drops_exactly_that_index (w : World Trainers.State) (index : Z) :
  (let tags := Trainers.TrainerFormData.specialties (Trainers.trainerForm (page w)) in
   let tags' :=
     Trainers.TrainerFormData.specialties
       (Trainers.trainerForm (page (exec (Trainers.removeSpecialty index) w))) in
   (0 <= index < Z.of_nat (List.length tags) ->
    tags' = (firstn (Z.to_nat index) tags ++ skipn (S (Z.to_nat index)) tags)%list
    /\ S (List.length tags') = List.length tags)
   /\ (index < 0 \/ Z.of_nat (List.length tags) <= index -> tags' = tags)
   /\ (JS.trim (Trainers.specialtyInput (page w)) <> "" ->
       Trainers.TrainerFormData.specialties
         (Trainers.trainerForm
            (page (exec (Trainers.removeSpecialty (Z.of_nat (List.length tags)))
                        (exec Trainers.addSpecialty w))))
       = tags))
  /\
  (let tags := Trainers.TrainerFormData.certifications (Trainers.trainerForm (page w)) in
   let tags' :=
     Trainers.TrainerFormData.certifications
       (Trainers.trainerForm (page (exec (Trainers.removeCertification index) w))) in
   (0 <= index < Z.of_nat (List.length tags) ->
    tags' = (firstn (Z.to_nat index) tags ++ skipn (S (Z.to_nat index)) tags)%list
    /\ S (List.length tags') = List.length tags)
   /\ (index < 0 \/ Z.of_nat (List.length tags) <= index -> tags' = tags)
   /\ (JS.trim (Trainers.certificationInput (page w)) <> "" ->
       Trainers.TrainerFormData.certifications
         (Trainers.trainerForm
            (page (exec (Trainers.removeCertification (Z.of_nat (List.length tags)))
                        (exec Trainers.addCertification w))))
       = tags)).
Proof.
  assert (Hin : forall (l : list string),
             0 <= index < Z.of_nat (List.length l) ->
             JS.filteri (fun _ i => negb (i =? index)) l
             = (firstn (Z.to_nat index) l ++ skipn (S (Z.to_nat index)) l)%list
             /\ S (List.length (JS.filteri (fun _ i => negb (i =? index)) l))
                = List.length l).
  { intros l Hr. rewrite filteri_remove.
    replace (0 <=? index) with true by (symmetry; apply Z.leb_le; lia).
    replace (index <? Z.of_nat (List.length l)) with true
      by (symmetry; apply Z.ltb_lt; lia).
    cbn [andb]. split; [reflexivity|].
    rewrite length_app, length_firstn, length_skipn. lia. }
  assert (Hout : forall (l : list string),
             index < 0 \/ Z.of_nat (List.length l) <= index ->
             JS.filteri (fun _ i => negb (i =? index)) l = l).
  { intros l Hr. rewrite filteri_remove.
    destruct (Z.leb_spec 0 index); [|reflexivity].
    destruct (Z.ltb_spec index (Z.of_nat (List.length l))); [lia | reflexivity]. }
  cbv zeta. split.
  - split; [apply Hin | split; [apply Hout|]].
    intros Hinput.
    pose proof (proj1 (addition_appends_the_trimmed_input w) Hinput) as Hadd.
    change (Trainers.TrainerFormData.specialties
              (Trainers.trainerForm
                 (page (exec (Trainers.removeSpecialty
                                (Z.of_nat (List.length
                                   (Trainers.TrainerFormData.specialties
                                      (Trainers.trainerForm (page w))))))
                             (exec Trainers.addSpecialty w)))))
      with (JS.filteri
              (fun _ i => negb (i =? Z.of_nat (List.length
                                   (Trainers.TrainerFormData.specialties
                                      (Trainers.trainerForm (page w))))))
              (Trainers.TrainerFormData.specialties
                 (Trainers.trainerForm (page (exec Trainers.addSpecialty w))))).
    rewrite Hadd. apply filteri_remove_last.
  - split; [apply Hin | split; [apply Hout|]].
    intros Hinput.
    pose proof (proj2 (addition_appends_the_trimmed_input w) Hinput) as Hadd.
    change (Trainers.TrainerFormData.certifications
              (Trainers.trainerForm
                 (page (exec (Trainers.removeCertification
                                (Z.of_nat (List.length
                                   (Trainers.TrainerFormData.certifications
                                      (Trainers.trainerForm (page w))))))
                             (exec Trainers.addCertification w)))))
      with (JS.filteri
              (fun _ i => negb (i =? Z.of_nat (List.length
                                   (Trainers.TrainerFormData.certifications
                                      (Trainers.trainerForm (page w))))))
              (Trainers.TrainerFormData.certifications
                 (Trainers.trainerForm (page (exec Trainers.addCertification w))))).
    rewrite Hadd. apply filteri_remove_last.
Qed.

Lemma removing_a_tag_drops_exactly_that_index_witness :
  Trainers.TrainerFormData.specialties
    (Trainers.trainerForm (page (exec (Trainers.removeSpecialty 0) SampleMore3.trainersModal)))
  = ["Pilates"]
  /\ Trainers.TrainerFormData.specialties
       (Trainers.trainerForm (page (exec (Trainers.removeSpecialty 2) SampleMore3.trainersModal)))
     = ["Yoga"; "Pilates"]
  /\ Trainers.TrainerFormData.specialties
       (Trainers.trainerForm
          (page (exec (Trainers.removeSpecialty 2)
                      (exec Trainers.addSpecialty SampleMore3.trainersModal))))
     = ["Yoga"; "Pilates"].
Proof.
  destruct (proj1 (removing_a_tag_drops_exactly_that_index SampleMore3.trainersModal 0))
    as (Hin & _ & _).
  destruct (proj1 (removing_a_tag_drops_exactly_that_index SampleMore3.trainersModal 2))
    as (_ & Hout & Hround).
  split; [|split].
  - apply Hin. simpl. lia.
  - apply Hout. simpl. lia.
  - apply Hround. discriminate.
Defined.

(** ** Schedule: the colour of the enrollment bar *)

Lemma binary64_percentage_within_half (enrolled capacity : Z) :
  capacity <> 0 ->
  600 * Z.abs enrolled < 2 ^ 53 ->
  exists n : Z,
    Schedule.enrollmentPercentage JS.binary64 enrolled capacity = JS.Finite (inject_Z n)
    /\ (Qabs (inject_Z n - 100 * inject_Z enrolled / inject_Z capacity) <= 1 # 2)%Q.
Proof.
  intros Hc Hsmall.
  apply (enrollmentPercentage_within_half JS.binary64
           (fun q0 => 300 * (1 # 2 ^ 53) * Qabs q0)%Q binary64_is_close); trivial.
  set (q0 := (inject_Z enrolled / inject_Z capacity)%Q).
  assert (HcQ : ~ (inject_Z capacity == 0)%Q).
  { change 0%Q with (inject_Z 0). rewrite inject_Z_injective. exact Hc. }
  assert (Habs : (Qabs q0 * inject_Z (Z.abs capacity) == inject_Z (Z.abs enrolled))%Q).
  { rewrite <- !Qabs_inject_Z, <- Qabs_Qmult. apply Qabs_wd. unfold q0. field. exact HcQ. }
  assert (HsmallQ : (inject_Z (600 * Z.abs enrolled) < inject_Z (2 ^ 53))%Q)
    by (rewrite <- Zlt_Qlt; exact Hsmall).
  rewrite inject_Z_mult in HsmallQ. rewrite <- Habs in HsmallQ.
  change (inject_Z 600) with 600%Q in HsmallQ.
  change (inject_Z (2 ^ 53)) with (9007199254740992 # 1)%Q in HsmallQ.
  change (1 # 2 ^ 53)%Q with (1 # 9007199254740992)%Q.
  set (t := (Qabs q0 * inject_Z (Z.abs capacity))%Q) in *.
  setoid_replace (2 * (300 * (1 # 9007199254740992) * Qabs q0)
                  * inject_Z (Z.abs capacity))%Q
    with ((600 # 9007199254740992) * t)%Q by (unfold t; ring).
  lra.
Qed.

(** An integer within one half of [100 e / c] is at most [K] when the
fraction is, and at least [K] when the fraction is. *)
Lemma percentage_against_threshold (n e c K : Z) :
  0 < c ->
  (Qabs (inject_Z n - 100 * inject_Z e / inject_Z c) <= 1 # 2)%Q ->
  (100 * e <= K * c -> n <= K) /\ (K * c <= 100 * e -> K <= n).
Proof.
  intros Hc Habs.
  assert (HcQ : (0 < inject_Z c)%Q)
    by (change 0%Q with (inject_Z 0); rewrite <- Zlt_Qlt; exact Hc).
  set (x := (100 * inject_Z e / inject_Z c)%Q) in *.
  assert (Hx : (x * inject_Z c == inject_Z (100 * e))%Q).
  { unfold x. rewrite inject_Z_mult. change (inject_Z 100) with 100%Q. field. lra. }
  apply Qabs_Qle_condition in Habs. destruct Habs as [Hlo Hhi].
  split; intros Hk.
  - assert (HkQ : (inject_Z (100 * e) <= inject_Z (K * c))%Q) by (rewrite <- Zle_Qle; exact Hk).
    rewrite <- Hx, inject_Z_mult in HkQ.
    assert (Hxk : (x <= inject_Z K)%Q) by (apply Qmult_le_r with (z := inject_Z c); assumption).
    assert (Hn : (inject_Z n < inject_Z K + 1)%Q) by lra.
    apply inject_Z_lt_succ in Hn. rewrite <- Zle_Qle in Hn. exact Hn.
  - assert (HkQ : (inject_Z (K * c) <= inject_Z (100 * e))%Q) by (rewrite <- Zle_Qle; exact Hk).
    rewrite <- Hx, inject_Z_mult in HkQ.
    assert (Hxk : (inject_Z K <= x)%Q) by (apply Qmult_le_r with (z := inject_Z c); assumption).
    assert (Hn : (inject_Z K < inject_Z n + 1)%Q) by lra.
    apply inject_Z_lt_succ in Hn. rewrite <- Zle_Qle in Hn. exact Hn.
Qed.

Lemma numGt_integers (n k : Z) :
  JS.numGt (JS.Finite (inject_Z n)) (JS.ofInt k) = (k <? n).
Proof.
  unfold JS.numGt, JS.ofInt, Qcompare. simpl. rewrite !Z.mul_1_r.
  unfold Z.ltb. destruct (k ?= n); reflexivity.
Qed.

(** X16. The enrollment bar of a class with a positive capacity, in the
engine's arithmetic: green up to half full, never red up to three quarters
full, amber from 51 to 75 percent, red from 76 percent on.  With capacity
zero the bar is green for an empty class (NaN is greater than nothing) and
red as soon as someone is enrolled. *)
Theorem enrollment_bar_colour_thresholds :
  (forall enrolled capacity : Z,
      0 < capacity ->
      600 * Z.abs enrolled < 2 ^ 53 ->
      let colour := Schedule.enrollmentBarClass JS.binary64 enrolled capacity in
      (2 * enrolled <= capacity -> colour = "bg-success")
      /\ (4 * enrolled <= 3 * capacity -> colour <> "bg-error")
      /\ (51 * capacity <= 100 * enrolled -> 4 * enrolled <= 3 * capacity ->
          colour = "bg-warning")
      /\ (76 * capacity <= 100 * enrolled -> colour = "bg-error"))
  /\
  (forall (fl : Q -> Q) (enrolled : Z),
      Schedule.enrollmentBarClass fl enrolled 0 =
      if 0 <? enrolled then "bg-error" else "bg-success").
Proof.
  split.
  - intros enrolled capacity Hc Hsmall. cbv zeta.
    destruct (binary64_percentage_within_half enrolled capacity ltac:(lia) Hsmall)
      as (n & Hn & Habs).
    unfold Schedule.enrollmentBarClass. rewrite Hn, !numGt_integers.
    pose proof (percentage_against_threshold n enrolled capacity 50 Hc Habs) as [H50 _].
    pose proof (percentage_against_threshold n enrolled capacity 75 Hc Habs) as [H75 _].
    pose proof (percentage_against_threshold n enrolled capacity 51 Hc Habs) as [_ H51].
    pose proof (percentage_against_threshold n enrolled capacity 76 Hc Habs) as [_ H76].
    split; [|split; [|split]].
    + intros H. specialize (H50 ltac:(lia)).
      destruct (Z.ltb_spec 75 n); [lia|]. destruct (Z.ltb_spec 50 n); [lia | reflexivity].
    + intros H. specialize (H75 ltac:(lia)).
      destruct (Z.ltb_spec 75 n); [lia|]. destruct (50 <? n); discriminate.
    + intros Hlo Hhi. specialize (H51 ltac:(lia)). specialize (H75 ltac:(lia)).
      destruct (Z.ltb_spec 75 n); [lia|]. destruct (Z.ltb_spec 50 n); [reflexivity | lia].
    + intros H. specialize (H76 ltac:(lia)).
      destruct (Z.ltb_spec 75 n); [reflexivity | lia].
  - intros fl enrolled.
    unfold Schedule.enrollmentBarClass, Schedule.enrollmentPercentage, JS.div, JS.ofInt.
    change (Qeq_bool (inject_Z 0) 0) with true. cbv iota.
    unfold Qcompare. simpl Qnum. simpl Qden. rewrite !Z.mul_1_r.
    destruct (Z.compare_spec enrolled 0) as [->|Hlt|Hgt].
    + reflexivity.
    + destruct (Z.ltb_spec 0 enrolled); [lia | reflexivity].
    + destruct (Z.ltb_spec 0 enrolled); [reflexivity | lia].
Qed.

Lemma enrollment_bar_colour_thresholds_witness :
  Schedule.enrollmentBarClass JS.binary64 15 20 = "bg-warning"
  /\ Schedule.enrollmentBarClass JS.binary64 20 20 = "bg-error"
  /\ Schedule.enrollmentBarClass JS.binary64 10 20 = "bg-success".
Proof.
  pose proof (proj1 enrollment_bar_colour_thresholds) as H.
  split; [|split].
  - apply (H 15 20); [lia | reflexivity | lia | lia].
  - apply (H 20 20); [lia | reflexivity | lia].
  - apply (H 10 20); [lia | reflexivity | lia].
Defined.

(** ** Schedule: times outside the clock *)

Lemma readDigits_of_uint (d : Decimal.uint) (acc : Z) :
  JS.readDigits (NilEmpty.string_of_uint d) acc true = Some (digitsAfter d acc).
Proof.
  revert acc. induction d; intros acc; simpl; try reflexivity; apply IHd.
Qed.

Lemma readDigits_of_uint_first (d : Decimal.uint) (acc : Z) :
  d <> Decimal.Nil ->
  JS.readDigits (NilEmpty.string_of_uint d) acc false = Some (digitsAfter d acc).
Proof.
  destruct d; intros Hd; try contradiction; simpl; apply readDigits_of_uint.
Qed.

Lemma digitsAfter_value (d : Decimal.uint) (acc : Z) :
  digitsAfter d acc
  = acc * 10 ^ Z.of_N (DecimalPos.Unsigned.usize d)
    + Z.of_N (DecimalPos.Unsigned.of_lu (Decimal.rev d)).
Proof.
  revert acc.
  induction d; intros acc; cbn [digitsAfter DecimalPos.Unsigned.usize];
    [simpl; lia | ..];
    rewrite IHd; unfold Decimal.rev; cbn [Decimal.revapp];
    rewrite (DecimalPos.Unsigned.of_lu_revapp d (_ Decimal.Nil));
    fold (Decimal.rev d);
    rewrite N2Z.inj_succ, Z.pow_succ_r by lia;
    rewrite N2Z.inj_add, N2Z.inj_mul, N2Z.inj_pow;
    cbn [DecimalPos.Unsigned.of_lu]; simpl Z.of_N; lia.
Qed.

Lemma digitsAfter_to_uint (p : positive) : digitsAfter (Pos.to_uint p) 0 = Z.pos p.
Proof.
  rewrite digitsAfter_value, <- DecimalPos.Unsigned.of_uint_alt,
    DecimalPos.Unsigned.of_to.
  reflexivity.
Qed.

Lemma parseInt_of_digits (d : Decimal.uint) :
  d <> Decimal.Nil ->
  JS.parseInt (NilEmpty.string_of_uint d) = Some (digitsAfter d 0).
Proof.
  intros Hd. rewrite <- (readDigits_of_uint_first d 0 Hd).
  destruct d; try contradiction; reflexivity.
Qed.

Lemma string_of_positive (p : positive) :
  NilZero.string_of_uint (Pos.to_uint p) = NilEmpty.string_of_uint (Pos.to_uint p).
Proof.
  pose proof (DecimalPos.Unsigned.to_uint_nonnil p) as Hnil.
  unfold NilZero.string_of_uint. destruct (Pos.to_uint p); [contradiction | ..]; reflexivity.
Qed.

(** Reading back what [intToString] writes gives the integer written. *)
Lemma parseInt_intToString (z : Z) : JS.parseInt (JS.intToString z) = Some z.
Proof.
  unfold JS.intToString. destruct z as [|p|p]; [reflexivity| |];
    cbn [Z.to_int NilZero.string_of_int]; rewrite string_of_positive;
    pose proof (DecimalPos.Unsigned.to_uint_nonnil p) as Hnil.
  - rewrite (parseInt_of_digits _ Hnil), digitsAfter_to_uint. reflexivity.
  - change (JS.parseInt (String "-" (NilEmpty.string_of_uint (Pos.to_uint p))))
      with (option_map Z.opp
              (JS.readDigits (NilEmpty.string_of_uint (Pos.to_uint p)) 0 false)).
    rewrite (readDigits_of_uint_first _ 0 Hnil), digitsAfter_to_uint. reflexivity.
Qed.

Lemma digits_hold_no_colon (d : Decimal.uint) : noColon (NilEmpty.string_of_uint d).
Proof.
  unfold noColon. induction d; simpl; intros H;
    try (destruct H as [H|H]; [discriminate | exact (IHd H)]).
  exact H.
Qed.

Lemma intToString_nonneg_no_colon (z : Z) : 0 <= z -> noColon (JS.intToString z).
Proof.
  intros Hz. unfold JS.intToString. destruct z as [|p|p]; [|  |lia].
  - intros [H|[]]. discriminate.
  - cbn [Z.to_int NilZero.string_of_int]. rewrite string_of_positive.
    apply digits_hold_no_colon.
Qed.

(** X17. [formatTime] outside the clock.  An hour from 0 up to, and not
including, 2^53 is shown wrapped into 1..12: [H mod 12], with 0 shown as
12, and every such hour from 12 on is marked PM, so that "24:00" reads
"12:00 PM".  An hour that is no number is shown as 12 AM.  A time without a
colon gets the text "undefined" for its minutes. *)
Theorem formatTime_outside_the_clock :
  (forall (h : Z) (mm : string),
      0 <= h < 2 ^ 53 -> noColon mm ->
      Schedule.formatTime (JS.intToString h ++ ":" ++ mm) =
      JS.intToString (if h mod 12 =? 0 then 12 else h mod 12)
      ++ ":" ++ mm ++ " " ++ (if 12 <=? h then "PM" else "AM"))
  /\
  (forall hs mm : string,
      noColon hs -> noColon mm -> JS.parseInt hs = None ->
      Schedule.formatTime (hs ++ ":" ++ mm) = "12:" ++ mm ++ " AM")
  /\
  (forall time : string,
      noColon time ->
      exists hour suffix,
        Schedule.formatTime time = hour ++ ":undefined " ++ suffix
        /\ (suffix = "AM" \/ suffix = "PM")).
Proof.
  split; [|split].
  - intros h mm [Hh _] Hmm.
    rewrite (formatTime_hours_minutes _ mm (intToString_nonneg_no_colon h Hh) Hmm).
    rewrite parseInt_intToString, Z.rem_mod_nonneg by lia. reflexivity.
  - intros hs mm Hhs Hmm Hnan.
    rewrite (formatTime_hours_minutes hs mm Hhs Hmm), Hnan. reflexivity.
  - intros time Hno. unfold Schedule.formatTime.
    rewrite (split_no_sep ":" time Hno). cbn [nth_error].
    destruct (JS.parseInt time) as [h|].
    + eexists. exists (if 12 <=? h then "PM" else "AM"). split; [reflexivity|].
      destruct (12 <=? h); [right | left]; reflexivity.
    + eexists. exists "AM". split; [reflexivity | left; reflexivity].
Qed.

Lemma formatTime_outside_the_clock_witness :
  Schedule.formatTime "24:00" = "12:00 PM"
  /\ Schedule.formatTime "noon:15" = "12:15 AM"
  /\ exists hour suffix,
       Schedule.formatTime "0930" = hour ++ ":undefined " ++ suffix
       /\ (suffix = "AM" \/ suffix = "PM").
Proof.
  destruct formatTime_outside_the_clock as (Hwrap & Hnan & Hcolon).
  assert (H2 : forall a b : ascii, a <> ":"%char -> b <> ":"%char ->
                 noColon (String a (String b EmptyString))).
  { intros a b Ha Hb [H|[H|[]]]; congruence. }
  split; [|split].
  - apply (Hwrap 24 "00"); [lia | apply H2; discriminate].
  - apply (Hnan "noon" "15"); [|apply H2; discriminate | reflexivity].
    intros [H|[H|[H|[H|[]]]]]; discriminate.
  - apply (Hcolon "0930").
    intros [H|[H|[H|[H|[]]]]]; discriminate.
Defined.

(** ** A fetch and the filter step *)

(** X18. A successful fetch stores the data and sets the displayed list
itself; with no search term and status "All", as on a fresh page, the
filter step that follows finds the displayed list already as it computes
it: the whole fetched list.  Members and Trainers pages. *)
Theorem fetch_and_filter_step_agree_without_filters :
  (forall (w : World Members.State) (data : list Members.Member),
      Members.searchTerm (page w) = "" ->
      Members.statusFilter (page w) = "All" ->
      let w1 := exec (Members.fetchMembers (Resolved data)) w in
      Members.members (page w1) = data
      /\ Members.filteredMembers (page w1) = data
      /\ Members.filteredMembers (page (exec Members.filterEffect w1)) = data)
  /\
  (forall (w : World Trainers.State) (data : list Trainers.Trainer),
      Trainers.searchTerm (page w) = "" ->
      let w1 := exec (Trainers.fetchTrainers (Resolved data)) w in
      Trainers.trainers (page w1) = data
      /\ Trainers.filteredTrainers (page w1) = data
      /\ Trainers.filteredTrainers (page (exec Trainers.filterEffect w1)) = data).
Proof.
  split.
  - intros w data Hterm Hstatus. cbv zeta.
    split; [reflexivity|]. split; [reflexivity|].
    rewrite members_filterEffect_list. cbv zeta.
    change (Members.searchTerm (page (exec (Members.fetchMembers (Resolved data)) w)))
      with (Members.searchTerm (page w)).
    change (Members.statusFilter (page (exec (Members.fetchMembers (Resolved data)) w)))
      with (Members.statusFilter (page w)).
    change (Members.members (page (exec (Members.fetchMembers (Resolved data)) w)))
      with data.
    rewrite Hterm, Hstatus. simpl. apply filter_true.
  - intros w data Hterm. cbv zeta.
    split; [reflexivity|]. split; [reflexivity|].
    rewrite trainers_filterEffect_list. cbv zeta.
    change (Trainers.searchTerm (page (exec (Trainers.fetchTrainers (Resolved data)) w)))
      with (Trainers.searchTerm (page w)).
    change (Trainers.trainers (page (exec (Trainers.fetchTrainers (Resolved data)) w)))
      with data.
    rewrite Hterm. simpl. apply filter_true.
Qed.

Lemma fetch_and_filter_step_agree_without_filters_witness :
  Members.filteredMembers
    (page (exec Members.filterEffect
             (exec (Members.fetchMembers (Resolved [SampleMore.cyd]))
                   SampleMore.membersIdle)))
  = [SampleMore.cyd].
Proof.
  apply (proj1 fetch_and_filter_step_agree_without_filters SampleMore.membersIdle
           [SampleMore.cyd] eq_refl eq_refl).
Defined.
